(** * Events-App: the event query, normalisation and sync logic

    A shallow embedding of the query / sync core of the application:
    - [pages/Explore.tsx]: [buildTimeRange], [fetchEvents], the debounced
      fetch effect and the realtime refetch;
    - [pages/HomeUser.tsx]: [loadUpcoming] and [loadTrending];
    - [pages/EventDetails.tsx]: [fetchDiscussions] and the INSERT handler.

    JavaScript values are modelled as the code uses them: time values are
    integers (milliseconds since the epoch), strings are [string], rows are
    records with optional fields, [Record<string, number>] is a [gmap], and
    the async functions are written in a small state-and-exception monad
    whose state carries a trace of the effects performed. *)

From Stdlib Require Import ZArith Lia Bool Ascii String List.
From stdpp Require Import base option numbers list strings gmap pretty sorting.

Local Open Scope Z_scope.

(** ** ECMAScript time values (ECMA-262, "Date objects")

    A [Date] holds a time value: milliseconds since 1970-01-01T00:00:00Z.
    The local zone is a fixed offset [tza] from UTC; zones whose offset
    changes during the computed window are outside this model. Wall-clock
    times are tiny next to the 8.64e15 limit of [TimeClip], which is
    therefore the identity here. *)
Module JSDate.

Definition msPerSecond : Z := 1000.
Definition msPerMinute : Z := 60000.
Definition msPerHour : Z := 3600000.
Definition msPerDay : Z := 86400000.

Definition Day (t : Z) : Z := t / msPerDay.
Definition TimeWithinDay (t : Z) : Z := t mod msPerDay.

Definition isLeap (y : Z) : bool :=
  if negb (y mod 4 =? 0) then false
  else if negb (y mod 100 =? 0) then true
  else (y mod 400 =? 0).

Definition DaysInYear (y : Z) : Z := if isLeap y then 366 else 365.

Definition DayFromYear (y : Z) : Z :=
  365 * (y - 1970) + (y - 1969) / 4 - (y - 1901) / 100 + (y - 1601) / 400.

Definition TimeFromYear (y : Z) : Z := msPerDay * DayFromYear y.

(** The largest [y] with [TimeFromYear y <= t]: an estimate from the mean
    length of the Gregorian year, corrected by at most one year. *)
Definition YearFromTime (t : Z) : Z :=
  let d := Day t in
  let y := 1970 + (d * 400) / 146097 in
  if d <? DayFromYear y then y - 1
  else if DayFromYear (y + 1) <=? d then y + 1
  else y.

Definition InLeapYear (t : Z) : bool := isLeap (YearFromTime t).

Definition DayWithinYear (t : Z) : Z := Day t - DayFromYear (YearFromTime t).

(** Number of days of the year that precede month [m] (0 = January). *)
Definition daysBeforeMonth (m : Z) (leap : bool) : Z :=
  let l := if leap then 1 else 0 in
  match m with
  | 0 => 0
  | 1 => 31
  | 2 => 59 + l
  | 3 => 90 + l
  | 4 => 120 + l
  | 5 => 151 + l
  | 6 => 181 + l
  | 7 => 212 + l
  | 8 => 243 + l
  | 9 => 273 + l
  | 10 => 304 + l
  | _ => 334 + l
  end.

Definition MonthFromTime (t : Z) : Z :=
  let d := DayWithinYear t in
  let l := if InLeapYear t then 1 else 0 in
  if d <? 31 then 0
  else if d <? 59 + l then 1
  else if d <? 90 + l then 2
  else if d <? 120 + l then 3
  else if d <? 151 + l then 4
  else if d <? 181 + l then 5
  else if d <? 212 + l then 6
  else if d <? 243 + l then 7
  else if d <? 273 + l then 8
  else if d <? 304 + l then 9
  else if d <? 334 + l then 10
  else 11.

Definition DateFromTime (t : Z) : Z :=
  DayWithinYear t - daysBeforeMonth (MonthFromTime t) (InLeapYear t) + 1.

(** 0 = Sunday, ..., 6 = Saturday; 1970-01-01 was a Thursday. *)
Definition WeekDay (t : Z) : Z := (Day t + 4) mod 7.

Definition HourFromTime (t : Z) : Z := (t / msPerHour) mod 24.
Definition MinFromTime (t : Z) : Z := (t / msPerMinute) mod 60.
Definition SecFromTime (t : Z) : Z := (t / msPerSecond) mod 60.
Definition msFromTime (t : Z) : Z := t mod msPerSecond.

Definition MakeTime (h m s ms : Z) : Z :=
  h * msPerHour + m * msPerMinute + s * msPerSecond + ms.

Definition MakeDay (year month date : Z) : Z :=
  let ym := year + month / 12 in
  let mn := month mod 12 in
  DayFromYear ym + daysBeforeMonth mn (isLeap ym) + date - 1.

Definition MakeDate (day time : Z) : Z := day * msPerDay + time.

Section LocalZone.
Variable tza : Z.

Definition LocalTime (t : Z) : Z := t + tza.
Definition UTC (t : Z) : Z := t - tza.

(** [Date.prototype.getDay], [getDate], [setDate], [setHours]; the
    setters return the new time value of the mutated object. *)
Definition getDay (t : Z) : Z := WeekDay (LocalTime t).
Definition getDate (t : Z) : Z := DateFromTime (LocalTime t).

Definition setDate (t : Z) (dt : Z) : Z :=
  let lt := LocalTime t in
  UTC (MakeDate (MakeDay (YearFromTime lt) (MonthFromTime lt) dt)
                (TimeWithinDay lt)).

Definition setHours (t : Z) (h m s ms : Z) : Z :=
  let lt := LocalTime t in
  UTC (MakeDate (Day lt) (MakeTime h m s ms)).

(** The first and the last millisecond of local calendar day [d]. *)
Definition localMidnight (d : Z) : Z := UTC (MakeDate d 0).
Definition localDayEnd (d : Z) : Z := UTC (MakeDate d (MakeTime 23 59 59 999)).
End LocalZone.

(** [Date.prototype.toISOString] for years 0..9999. *)
Definition pad (w : nat) (n : Z) : string :=
  let s := pretty n in
  String.concat "" (replicate (w - String.length s)%nat "0"%string) +:+ s.

Definition toISOString (t : Z) : string :=
  pad 4 (YearFromTime t) +:+ "-" +:+ pad 2 (MonthFromTime t + 1) +:+ "-" +:+
  pad 2 (DateFromTime t) +:+ "T" +:+ pad 2 (HourFromTime t) +:+ ":" +:+
  pad 2 (MinFromTime t) +:+ ":" +:+ pad 2 (SecFromTime t) +:+ "." +:+
  pad 3 (msFromTime t) +:+ "Z".

Section LocalClock.
Variable tza : Z.

(** [getHours()], and [setHours(h)] with the hour alone: minutes, seconds
    and milliseconds are kept. *)
Definition getHours (t : Z) : Z := HourFromTime (LocalTime tza t).

Definition setHour (t : Z) (h : Z) : Z :=
  let lt := LocalTime tza t in
  UTC tza (MakeDate (Day lt)
             (MakeTime h (MinFromTime lt) (SecFromTime lt) (msFromTime lt))).
End LocalClock.

End JSDate.

(** ** JavaScript strings and primitive values

    Strings are byte strings; case folding and [trim] act on the ASCII
    range (letters A-Z; tab, LF, VT, FF, CR and space). *)
Module JSString.

Definition lowerAscii (c : ascii) : ascii :=
  let n := nat_of_ascii c in
  if (65 <=? n)%nat && (n <=? 90)%nat then ascii_of_nat (n + 32) else c.

Fixpoint toLowerCase (s : string) : string :=
  match s with
  | EmptyString => EmptyString
  | String c s' => String (lowerAscii c) (toLowerCase s')
  end.

Definition isWhiteSpace (c : ascii) : bool :=
  let n := nat_of_ascii c in
  ((9 <=? n)%nat && (n <=? 13)%nat) || (n =? 32)%nat.

Fixpoint trimStart (s : string) : string :=
  match s with
  | EmptyString => EmptyString
  | String c s' => if isWhiteSpace c then trimStart s' else s
  end.

Definition trimEnd (s : string) : string :=
  String.rev (trimStart (String.rev s)).

Definition trim (s : string) : string := trimEnd (trimStart s).

(** Truthiness of a string: every string but the empty one. *)
Definition truthy (s : string) : bool :=
  match s with EmptyString => false | _ => true end.

(** [s.split(c)] for a one-character separator. *)
Fixpoint split (c : ascii) (s : string) : list string :=
  match s with
  | EmptyString => [EmptyString]
  | String a s' =>
      if Ascii.eqb a c then EmptyString :: split c s'
      else match split c s' with
           | h :: t => String a h :: t
           | [] => [String a EmptyString]
           end
  end.

(** [s.includes(c)] for a character. *)
Fixpoint includes (c : ascii) (s : string) : bool :=
  match s with
  | EmptyString => false
  | String a s' => Ascii.eqb a c || includes c s'
  end.

Fixpoint join (sep : string) (l : list string) : string :=
  match l with
  | [] => EmptyString
  | [x] => x
  | x :: rest => x +:+ sep +:+ join sep rest
  end.

(** The primitive values a JSON column can hold. *)
Inductive JSValue : Type :=
| JUndefined
| JNull
| JBool (b : bool)
| JNumber (n : Z)
| JString (s : string).

(** [String(v)]; numbers are integers in the safe range. *)
Definition JS_String (v : JSValue) : string :=
  match v with
  | JUndefined => "undefined"
  | JNull => "null"
  | JBool true => "true"
  | JBool false => "false"
  | JNumber n => pretty n
  | JString s => s
  end.

(** [s.startsWith(p)], [s.includes(sub)] and [s.endsWith(suffix)]. *)
Fixpoint startsWith (p s : string) : bool :=
  match p, s with
  | EmptyString, _ => true
  | String a p', String b s' => Ascii.eqb a b && startsWith p' s'
  | String _ _, EmptyString => false
  end.

Fixpoint includesText (sub s : string) : bool :=
  startsWith sub s ||
  match s with
  | EmptyString => false
  | String _ s' => includesText sub s'
  end.

Definition endsWith (s suffix : string) : bool :=
  (String.length suffix <=? String.length s)%nat &&
  String.eqb
    (String.substring (String.length s - String.length suffix) (String.length suffix) s)
    suffix.

End JSString.

(** ** Arrays

    [Array.prototype.sort] is stable; with a comparator that orders the
    elements by a key its result is the stable sort by that key, which is
    what insertion from the right computes. [le x y] says that [x] may
    stand before [y] (the comparator is not positive). *)
Module JSArray.
Section Sort.
Context {A : Type}.

Fixpoint insertBy (le : A -> A -> bool) (x : A) (l : list A) : list A :=
  match l with
  | [] => [x]
  | y :: l' => if le x y then x :: l else y :: insertBy le x l'
  end.

Definition sortBy (le : A -> A -> bool) (l : list A) : list A :=
  foldr (insertBy le) [] l.

(** [sort((a, b) => cmp(a, b))] *)
Definition sort (cmp : A -> A -> Z) (l : list A) : list A :=
  sortBy (fun a b => cmp a b <=? 0) l.

(** [slice(0, n)] *)
Definition slice0 (n : nat) (l : list A) : list A := take n l.
End Sort.
End JSArray.

(** ** The backend client (lib/supabase.ts wraps the supabase-js client)

    A query is the record of the builder calls made on it. Timestamps
    handed to [gte]/[lte] are ISO renderings of instants and are kept as
    the instants themselves. *)
Module Supabase.
Import JSString JSArray.

Inductive Filter : Type :=
| FEq (col val : string)
| FIn (col : string) (vals : list string)
| FGte (col : string) (v : Z)
| FLte (col : string) (v : Z)
| FContains (col : string) (vals : list string)
| FOr (raw : string).

Record Query : Type := mkQuery {
  q_table : string;
  q_select : string;
  q_filters : list Filter;
  q_order : option (string * bool);
  q_limit : option nat
}.

Definition from (table : string) : Query := mkQuery table "" [] None None.
Definition select (cols : string) (q : Query) : Query :=
  mkQuery (q_table q) cols (q_filters q) (q_order q) (q_limit q).
Definition addFilter (f : Filter) (q : Query) : Query :=
  mkQuery (q_table q) (q_select q) (q_filters q ++ [f]) (q_order q) (q_limit q).
Definition eq_ (col val : string) : Query -> Query := addFilter (FEq col val).
Definition in_ (col : string) (vals : list string) : Query -> Query :=
  addFilter (FIn col vals).
Definition gte (col : string) (v : Z) : Query -> Query := addFilter (FGte col v).
Definition lte (col : string) (v : Z) : Query -> Query := addFilter (FLte col v).
Definition contains (col : string) (vals : list string) : Query -> Query :=
  addFilter (FContains col vals).
Definition or_ (raw : string) : Query -> Query := addFilter (FOr raw).
Definition order (col : string) (ascending : bool) (q : Query) : Query :=
  mkQuery (q_table q) (q_select q) (q_filters q) (Some (col, ascending)) (q_limit q).
Definition limit (n : nat) (q : Query) : Query :=
  mkQuery (q_table q) (q_select q) (q_filters q) (q_order q) (Some n).

(** What awaiting a query yields: [{ data, error }], or a rejection. *)
Record Response (Row : Type) : Type := mkResponse {
  data : option (list Row);
  error : option string
}.
Arguments mkResponse {Row} _ _.
Arguments data {Row} _.
Arguments error {Row} _.

Inductive Settled (A : Type) : Type :=
| Fulfilled (a : A)
| Rejected (reason : string).
Arguments Fulfilled {A} _.
Arguments Rejected {A} _.

(** The rows a settled request delivers to the caller; [None] when it
    rejected or answered with an error. *)
Definition settledRows {Row : Type} (p : Settled (Response Row)) : option (list Row) :=
  match p with
  | Fulfilled res =>
      match error res with
      | Some _ => None
      | None => Some (default [] (data res))
      end
  | Rejected _ => None
  end.

(** The rows of a fulfilled request, read as [res.data || []] without
    looking at the error; [None] when the request rejected. *)
Definition dataOrEmpty {Row : Type} (p : Settled (Response Row)) : option (list Row) :=
  match p with
  | Fulfilled res => Some (default [] (data res))
  | Rejected _ => None
  end.

(** The raw texts of the [.or] filters of a query. *)
Definition orFilters (q : Query) : list string :=
  omap (fun f => match f with FOr raw => Some raw | _ => None end) (q_filters q).

(** *** The [.or] filter syntax

    The argument of [.or] is raw filter text,
    ["title.ilike.%foo%,location.ilike.%foo%"]: conditions separated by
    commas, each [column.operator.value]. *)
Record Condition : Type := mkCond {
  c_col : string; c_op : string; c_val : string
}.

Definition parseCondition (s : string) : option Condition :=
  match split "." s with
  | col :: op :: v :: rest => Some (mkCond col op (join "." (v :: rest)))
  | _ => None
  end.

Definition orConditions (raw : string) : list (option Condition) :=
  map parseCondition (split "," raw).

(** SQL [LIKE]: [%] matches any run of characters, [_] any one. *)
Fixpoint like (p : string) : string -> bool :=
  match p with
  | EmptyString => fun s => match s with EmptyString => true | _ => false end
  | String c p' =>
      if Ascii.eqb c "%" then
        fix any (s : string) : bool :=
          like p' s || match s with
                       | EmptyString => false
                       | String _ s' => any s'
                       end
      else if Ascii.eqb c "_" then
        fun s => match s with
                 | EmptyString => false
                 | String _ s' => like p' s'
                 end
      else
        fun s => match s with
                 | EmptyString => false
                 | String d s' => Ascii.eqb c d && like p' s'
                 end
  end.

Definition ilike (p s : string) : bool := like (toLowerCase p) (toLowerCase s).

(** *** A model of query execution

    The store answers a query over the rows of the addressed table: it
    keeps the rows that satisfy every filter, orders them, and cuts the
    result at the limit. A null column satisfies no comparison; nulls
    sort as larger than every value. Rows with equal keys keep their
    relative order. Of the [.or] operators only [ilike], the one the
    application uses, is supported; a condition that does not parse
    fails the request. *)
Class Table (Row : Type) : Type := {
  colText : string -> Row -> option string;
  colTime : string -> Row -> option Z;
  colArray : string -> Row -> option (list string)
}.

Section Execute.
Context {Row : Type} `{Table Row}.

Definition evalCondition (r : Row) (c : option Condition) : option bool :=
  match c with
  | Some c =>
      if String.eqb (c_op c) "ilike" then
        Some match colText (c_col c) r with
             | Some txt => ilike (c_val c) txt
             | None => false
             end
      else None
  | None => None
  end.

Fixpoint anyCondition (r : Row) (cs : list (option Condition)) : option bool :=
  match cs with
  | [] => Some false
  | c :: cs' =>
      match evalCondition r c, anyCondition r cs' with
      | Some b, Some b' => Some (b || b')
      | _, _ => None
      end
  end.

Definition memberOf (x : string) (l : list string) : bool :=
  existsb (String.eqb x) l.

Definition evalFilter (r : Row) (f : Filter) : option bool :=
  match f with
  | FEq col v =>
      Some match colText col r with Some x => String.eqb x v | None => false end
  | FIn col vs =>
      Some match colText col r with Some x => memberOf x vs | None => false end
  | FGte col v =>
      Some match colTime col r with Some t => v <=? t | None => false end
  | FLte col v =>
      Some match colTime col r with Some t => t <=? v | None => false end
  | FContains col vs =>
      Some match colArray col r with
           | Some a => forallb (fun x => memberOf x a) vs
           | None => false
           end
  | FOr raw => anyCondition r (orConditions raw)
  end.

Definition filterValid (f : Filter) : bool :=
  match f with
  | FOr raw =>
      forallb (fun c => match c with
                        | Some c => String.eqb (c_op c) "ilike"
                        | None => false
                        end) (orConditions raw)
  | _ => true
  end.

Definition keeps (fs : list Filter) (r : Row) : bool :=
  forallb (fun f => match evalFilter r f with Some b => b | None => false end) fs.

(** [None] (null) is the largest key. *)
Definition keyLe (a b : option Z) : bool :=
  match a, b with
  | _, None => true
  | None, Some _ => false
  | Some x, Some y => x <=? y
  end.

Definition orderRows (o : option (string * bool)) (l : list Row) : list Row :=
  match o with
  | None => l
  | Some (col, true) => sortBy (fun a b => keyLe (colTime col a) (colTime col b)) l
  | Some (col, false) => sortBy (fun a b => keyLe (colTime col b) (colTime col a)) l
  end.

Definition limitRows (n : option nat) (l : list Row) : list Row :=
  match n with
  | None => l
  | Some n => take n l
  end.

Definition execute (rows : list Row) (q : Query) : Response Row :=
  if forallb filterValid (q_filters q) then
    mkResponse
      (Some (limitRows (q_limit q)
               (orderRows (q_order q) (filter (fun r => keeps (q_filters q) r = true) rows))))
      None
  else mkResponse None (Some "failed to parse logic tree").
End Execute.

End Supabase.

(** ** Async functions

    An [async] function body is a computation over the screen state that
    either returns or throws; [try]/[catch]/[finally] are combinators. The
    promise of the function rejects exactly when the body ends in
    [Throw]. *)
Module Async.
Import Supabase.

Inductive Outcome (A : Type) : Type :=
| Return (a : A)
| Throw (reason : string).
Arguments Return {A} _.
Arguments Throw {A} _.

Definition M (S A : Type) : Type := S -> Outcome A * S.

Definition ret {S A : Type} (a : A) : M S A := fun s => (Return a, s).
Definition throw {S A : Type} (e : string) : M S A := fun s => (Throw e, s).
Definition bind {S A B : Type} (m : M S A) (k : A -> M S B) : M S B :=
  fun s => match m s with
           | (Return a, s') => k a s'
           | (Throw e, s') => (Throw e, s')
           end.
Definition modify {S : Type} (f : S -> S) : M S unit := fun s => (Return tt, f s).
Definition when {S : Type} (b : bool) (m : M S unit) : M S unit :=
  if b then m else ret tt.

Definition tryCatch {S A : Type} (body : M S A) (handler : string -> M S A) : M S A :=
  fun s => match body s with
           | (Return a, s') => (Return a, s')
           | (Throw e, s') => handler e s'
           end.

Definition tryFinally {S A : Type} (body : M S A) (final : M S unit) : M S A :=
  fun s => match body s with
           | (o, s') =>
               match final s' with
               | (Return _, s'') => (o, s'')
               | (Throw e, s'') => (Throw e, s'')
               end
           end.

Definition tryCatchFinally {S A : Type}
    (body : M S A) (handler : string -> M S A) (final : M S unit) : M S A :=
  tryFinally (tryCatch body handler) final.

(** [await p] for a promise that settles as [p]. *)
Definition await {S A : Type} (p : Settled A) : M S A :=
  match p with
  | Fulfilled a => ret a
  | Rejected e => throw e
  end.

(** [await Promise.all([p, q])]: rejects with the first rejection. *)
Definition awaitAll {S A B : Type} (p : Settled A) (q : Settled B) : M S (A * B) :=
  match p, q with
  | Fulfilled a, Fulfilled b => ret (a, b)
  | Rejected e, _ => throw e
  | Fulfilled _, Rejected e => throw e
  end.

Definition rejects {S A : Type} (r : Outcome A * S) : bool :=
  match r with
  | (Throw _, _) => true
  | (Return _, _) => false
  end.

Module Notations.
Notation "x <- m ;; k" := (bind m (fun x => k))
  (at level 100, m at next level, right associativity).
Notation "m ;;; k" := (bind m (fun _ => k))
  (at level 100, right associativity).
End Notations.
End Async.

(** ** pages/Explore.tsx *)
Module Explore.
Import JSDate.

Inductive FilterKey : Type :=
| all | today | tomorrow | thisWeek | nextWeek
| sports | tech | cultural | workshops | hackathons.

Definition FILTERS : list FilterKey :=
  [all; today; tomorrow; thisWeek; nextWeek;
   sports; tech; cultural; workshops; hackathons].

Definition isTimeKey (f : FilterKey) : bool :=
  match f with
  | today | tomorrow | thisWeek | nextWeek => true
  | _ => false
  end.

(** The instants whose [toISOString()] renderings [buildTimeRange]
    returns as [{ start, end }]. *)
Record TimeRange : Type := mkRange { start : Z; end_ : Z }.

(** [7 - e.getDay()] and [(8 - s.getDay()) % 7 || 7], as functions of
    the weekday. *)
Definition daysUntilSunday (wd : Z) : Z := 7 - wd.
Definition daysUntilNextMonday (wd : Z) : Z :=
  let r := Z.rem (8 - wd) 7 in
  if r =? 0 then 7 else r.

Section BuildTimeRange.
Variable tza : Z.

(** [buildTimeRange]; [now] is the value of [new Date()]. Each [let]
    rebinding is one mutation of the Date object of that name. *)
Definition buildTimeRange (now : Z) (filter : FilterKey) : option TimeRange :=
  match filter with
  | today =>
      let s := now in
      let s := setHours tza s 0 0 0 0 in
      let e := now in
      let e := setHours tza e 23 59 59 999 in
      Some (mkRange s e)
  | tomorrow =>
      let s := now in
      let s := setDate tza s (getDate tza s + 1) in
      let s := setHours tza s 0 0 0 0 in
      let e := s in
      let e := setHours tza e 23 59 59 999 in
      Some (mkRange s e)
  | thisWeek =>
      let s := now in
      let s := setHours tza s 0 0 0 0 in
      let e := now in
      let daysUntilSunday := daysUntilSunday (getDay tza e) in
      let e := setDate tza e (getDate tza e + daysUntilSunday) in
      let e := setHours tza e 23 59 59 999 in
      Some (mkRange s e)
  | nextWeek =>
      let s := now in
      let daysUntilNextMonday := daysUntilNextMonday (getDay tza s) in
      let s := setDate tza s (getDate tza s + daysUntilNextMonday) in
      let s := setHours tza s 0 0 0 0 in
      let e := s in
      let e := setDate tza e (getDate tza e + 6) in
      let e := setHours tza e 23 59 59 999 in
      Some (mkRange s e)
  | _ => None
  end.
End BuildTimeRange.


Import JSString JSArray Supabase Async Async.Notations.

(** [interface EventRow], with the columns [select('*')] returns beyond
    the declared ones kept in [extra]. [None] is a null or missing
    field. *)
Record EventRow : Type := mkEventRow {
  id : string;
  title : string;
  description : option string;
  start_time : option Z;
  end_time : option Z;
  location : option string;
  tags : option (list JSValue);
  status : option string;
  created_at : option Z;
  extra : gmap string JSValue
}.

#[global] Instance eventRowTable : Table EventRow := {|
  colText := fun col r =>
    if String.eqb col "id" then Some (id r)
    else if String.eqb col "title" then Some (title r)
    else if String.eqb col "description" then description r
    else if String.eqb col "location" then location r
    else if String.eqb col "status" then status r
    else None;
  colTime := fun col r =>
    if String.eqb col "start_time" then start_time r
    else if String.eqb col "end_time" then end_time r
    else if String.eqb col "created_at" then created_at r
    else None;
  colArray := fun col r =>
    if String.eqb col "tags" then option_map (map JS_String) (tags r)
    else None
|}.

(** The rows the screen may show: [status] approved or pending. *)
Definition statusShown (r : EventRow) : bool :=
  match status r with
  | Some st => String.eqb st "approved" || String.eqb st "pending"
  | None => false
  end.

(** [start_time >= now], false for a null start time. *)
Definition startsFrom (now : Z) (r : EventRow) : bool :=
  match start_time r with
  | Some t => now <=? t
  | None => false
  end.

(** [a] does not start after [b]; a null start time is the latest. *)
Definition startsNotAfter (a b : EventRow) : Prop :=
  keyLe (start_time a) (start_time b) = true.

Definition filterName (f : FilterKey) : string :=
  match f with
  | all => "all" | today => "today" | tomorrow => "tomorrow"
  | thisWeek => "thisWeek" | nextWeek => "nextWeek"
  | sports => "sports" | tech => "tech" | cultural => "cultural"
  | workshops => "workshops" | hackathons => "hackathons"
  end.

(** [['sports', 'tech', 'cultural', 'workshops', 'hackathons'].includes(f)] *)
Definition isCategory (f : FilterKey) : bool :=
  memberOf (filterName f) ["sports"; "tech"; "cultural"; "workshops"; "hackathons"]%string.

(** [(t) => typeof t === 'string' ? t.toLowerCase() : String(t)] *)
Definition normalizeTag (t : JSValue) : JSValue :=
  match t with
  | JString s => JString (toLowerCase s)
  | v => JString (JS_String v)
  end.

(** [(r) => ({ ...r, tags: (r.tags || []).map(normalizeTag) })] *)
Definition normalizeRow (r : EventRow) : EventRow :=
  {| id := id r;
     title := title r;
     description := description r;
     start_time := start_time r;
     end_time := end_time r;
     location := location r;
     tags := Some (map normalizeTag (default [] (tags r)));
     status := status r;
     created_at := created_at r;
     extra := extra r |}.

(** A tag that is a string; a tag that is a lowercase string. *)
Definition isString (t : JSValue) : bool :=
  match t with JString _ => true | _ => false end.

Definition isLowercaseString (t : JSValue) : bool :=
  match t with
  | JString s => String.eqb (toLowerCase s) s
  | _ => false
  end.

(** [tags] is an array of strings, as [EventRow] declares it when
    present; [tags] is an array of lowercase strings. *)
Definition stringTags (r : EventRow) : bool :=
  match tags r with
  | Some l => forallb isString l
  | None => true
  end.

Definition tagsNormalized (r : EventRow) : bool :=
  match tags r with
  | Some l => forallb isLowercaseString l
  | None => false
  end.

(** [getCategoryIcon(event.tags?.[0] ?? undefined)]: the argument. *)
Definition firstTag (r : EventRow) : option JSValue :=
  match tags r with
  | Some (t :: _) => Some t
  | _ => None
  end.

Record Opts : Type := mkOpts { bypassLoading : option bool }.

(** [opts?.bypassLoading] as a condition. *)
Definition bypass (opts : option Opts) : bool :=
  match opts with
  | Some o => default false (bypassLoading o)
  | None => false
  end.

Inductive Effect : Type :=
| SetLoading (b : bool)
| SetEvents (l : list EventRow)
| Request (q : Query)
| ConsoleWarn (msg : string)
| ConsoleError (msg : string).

Record State : Type := mkState {
  events : list EventRow;
  loading : bool;
  trace : list Effect
}.

Definition isSetLoading (e : Effect) : bool :=
  match e with SetLoading _ => true | _ => false end.

(** The requests sent to the store, in order. *)
Definition requests (es : list Effect) : list Query :=
  omap (fun e => match e with Request q => Some q | _ => None end) es.

Definition emit (e : Effect) : M State unit :=
  modify (fun s => mkState (events s) (loading s) (trace s ++ [e])).
Definition setLoading (b : bool) : M State unit :=
  modify (fun s => mkState (events s) b (trace s)) ;;; emit (SetLoading b).
Definition setEvents (l : list EventRow) : M State unit :=
  modify (fun s => mkState l (loading s) (trace s)) ;;; emit (SetEvents l).

Section FetchEvents.
Variable tza : Z.
(** The state captured by the [useCallback] closure, the clock, and how
    the store settles each request. *)
Variable activeFilter : FilterKey.
Variable searchText : string.
Variable now : Z.
Variable backend : Query -> Settled (Response EventRow).

(** The query composed by [fetchEvents] before it is awaited. *)
Definition composeQuery : Query :=
  let query := select "*" (from "event_submissions") in
  let query := in_ "status" ["approved"; "pending"]%string query in
  let query :=
    match buildTimeRange tza now activeFilter with
    | Some timeRange =>
        lte "start_time" (end_ timeRange) (gte "start_time" (start timeRange) query)
    | None => gte "start_time" now query
    end in
  let query :=
    if isCategory activeFilter
    then contains "tags" [filterName activeFilter] query
    else query in
  let search := trim searchText in
  let query :=
    if truthy search then
      let q := "%" +:+ search +:+ "%" in
      or_ ("title.ilike." +:+ q +:+ ",location.ilike." +:+ q) query
    else query in
  order "start_time" true query.

(** The three optional groups of filters of [composeQuery]. *)
Definition timeFilters : list Filter :=
  match buildTimeRange tza now activeFilter with
  | Some timeRange =>
      [FGte "start_time" (start timeRange); FLte "start_time" (end_ timeRange)]
  | None => [FGte "start_time" now]
  end.

Definition categoryFilters : list Filter :=
  if isCategory activeFilter then [FContains "tags" [filterName activeFilter]] else [].

Definition textFilters : list Filter :=
  let search := trim searchText in
  if truthy search then
    let q := "%" +:+ search +:+ "%" in
    [FOr ("title.ilike." +:+ q +:+ ",location.ilike." +:+ q)]
  else [].

Definition fetchEvents (opts : option Opts) : M State unit :=
  when (negb (bypass opts)) (setLoading true) ;;;
  tryCatchFinally
    (let query := composeQuery in
     emit (Request query) ;;;
     res <- await (backend query) ;;
     match error res with
     | Some err =>
         emit (ConsoleWarn "fetchEvents error") ;;;
         setEvents []
     | None =>
         let rows := default [] (data res) in
         setEvents (map normalizeRow rows)
     end)
    (fun e =>
       emit (ConsoleError "fetchEvents caught") ;;;
       setEvents [])
    (when (negb (bypass opts)) (setLoading false)).

(** The callback of the realtime subscription to every change of
    [event_submissions]. *)
Definition onRealtimeChange : M State unit :=
  fetchEvents (Some (mkOpts (Some true))).
End FetchEvents.

(** *** The debounced fetch effect

    One run of the effect is one render with a changed
    [(activeFilter, searchText)]. Timers are the pending [setTimeout]
    callbacks, each with the filter state its closure captured; time is
    in milliseconds. Timer ids are the positive numbers the runtime
    hands out, so an id in [debounceRef] is always a truthy value. *)
Definition FilterState : Type := (FilterKey * string)%type.

Record Timer : Type := mkTimer {
  timerId : nat;
  deadline : Z;
  captured : FilterState
}.

Record Screen : Type := mkScreen {
  current : FilterState;
  timers : list Timer;
  nextId : nat;
  debounceRef : option nat;
  hasCleanup : bool;
  fetches : list (Z * FilterState)
}.

Definition clearTimeout (i : nat) (ts : list Timer) : list Timer :=
  filter (fun t => timerId t <> i) ts.

(** The cleanup function returned by the previous run, when there is
    one. *)
Definition runCleanup (sc : Screen) : Screen :=
  if hasCleanup sc then
    match debounceRef sc with
    | Some i =>
        mkScreen (current sc) (clearTimeout i (timers sc)) (nextId sc) None false (fetches sc)
    | None =>
        mkScreen (current sc) (timers sc) (nextId sc) None false (fetches sc)
    end
  else sc.

(** The body of the effect, run at time [t] for filter state [fs]. *)
Definition runEffect (t : Z) (fs : FilterState) (sc : Screen) : Screen :=
  let ts :=
    match debounceRef sc with
    | Some i => clearTimeout i (timers sc)
    | None => timers sc
    end in
  if String.eqb (snd fs) "" then
    mkScreen fs ts (nextId sc) (debounceRef sc) false (fetches sc ++ [(t, fs)])
  else
    let i := nextId sc in
    mkScreen fs (ts ++ [mkTimer i (t + 400) fs]) (S i) (Some i) true (fetches sc).

Definition dueBy (t : Z) (tm : Timer) : bool := deadline tm <=? t.

(** Let the clock reach [t]: the timers due by then fire, earliest
    first, each calling [fetchEvents()] with its captured state. *)
Definition advance (t : Z) (sc : Screen) : Screen :=
  let due := sortBy (fun a b => deadline a <=? deadline b)
                    (filter (fun tm => dueBy t tm = true) (timers sc)) in
  mkScreen (current sc)
           (filter (fun tm => dueBy t tm = false) (timers sc))
           (nextId sc) (debounceRef sc) (hasCleanup sc)
           (fetches sc ++ map (fun tm => (deadline tm, captured tm)) due).

Definition eqFilterState (a b : FilterState) : bool :=
  String.eqb (filterName (fst a)) (filterName (fst b)) && String.eqb (snd a) (snd b).

(** A state update at time [t]; the effect re-runs only when one of its
    dependencies changed. *)
Definition change (t : Z) (fs : FilterState) (sc : Screen) : Screen :=
  let sc := advance t sc in
  if eqFilterState fs (current sc) then sc
  else runEffect t fs (runCleanup sc).

Fixpoint run (cs : list (Z * FilterState)) (sc : Screen) : Screen :=
  match cs with
  | [] => sc
  | (t, fs) :: cs' => run cs' (change t fs sc)
  end.

(** The screen at rest: nothing pending, nothing fetched yet. *)
Definition idle (fs : FilterState) : Screen :=
  mkScreen fs [] 1 None false [].

(** *** The list as rendered *)

(** [getCategoryIcon] *)
Definition getCategoryIcon (category : option string) : string :=
  match category with
  | None => "🎉"
  | Some category =>
      if negb (truthy category) then "🎉"
      else
        let k := toLowerCase category in
        if String.eqb k "sports" then "⚽"
        else if String.eqb k "tech" then "💻"
        else if String.eqb k "cultural" then "🎭"
        else if String.eqb k "workshops" then "🛠️"
        else if String.eqb k "hackathons" then "👩‍💻"
        else "🎉"
  end.

(** [getCategoryIcon(event.tags?.[0] ?? undefined)] for one card. A first
    tag that is neither falsy nor a string has no [toLowerCase]: the call
    throws, which is [None]. *)
Definition cardIcon (r : EventRow) : option string :=
  match firstTag r with
  | None => Some (getCategoryIcon None)
  | Some JUndefined => Some (getCategoryIcon None)
  | Some JNull => Some (getCategoryIcon None)
  | Some (JString s) => Some (getCategoryIcon (Some s))
  | Some (JBool b) => if b then None else Some (getCategoryIcon None)
  | Some (JNumber n) => if n =? 0 then Some (getCategoryIcon None) else None
  end.

(** What the events section shows: the spinner while [loading], the
    message for an empty list, the cards otherwise. *)
Inductive ListView : Type :=
| Spinner
| NoMatches
| Cards (rows : list EventRow).

Definition listView (st : State) : ListView :=
  if loading st then Spinner
  else match events st with
       | [] => NoMatches
       | rows => Cards rows
       end.

(** The arguments of the calls of [setLoading] and of [setEvents] in a
    trace. *)
Definition loadingCalls (es : list Effect) : list bool :=
  omap (fun e => match e with SetLoading b => Some b | _ => None end) es.

Definition eventsCalls (es : list Effect) : list (list EventRow) :=
  omap (fun e => match e with SetEvents l => Some l | _ => None end) es.

(** The stored tags of a row as the store compares them. *)
Definition storedTags (r : EventRow) : list string :=
  default [] (colArray "tags" r).

(** Whether the start of a row passes the time predicate of the query
    for the key, and whether its stored tags pass the category
    predicate. *)
Definition inWindow (tza now : Z) (f : FilterKey) (r : EventRow) : bool :=
  match start_time r with
  | Some t =>
      match buildTimeRange tza now f with
      | Some w => (start w <=? t) && (t <=? end_ w)
      | None => now <=? t
      end
  | None => false
  end.

Definition hasCategory (f : FilterKey) (r : EventRow) : bool :=
  if isCategory f then memberOf (filterName f) (storedTags r) else true.

(** The screen after its first render at time [t0]: the effect has run
    once for the initial state [('all', '')]. *)
Definition mount (t0 : Z) : Screen :=
  runEffect t0 (all, EmptyString) (idle (all, EmptyString)).

(** The pending timer, if any, is the one [debounceRef] names and was set
    for the current filter state; with none pending, the latest fetch
    was issued for the current filter state. *)
Definition coherent (sc : Screen) : Prop :=
  match timers sc with
  | [] => exists t : Z, last (fetches sc) = Some (t, current sc)
  | [tm] =>
      captured tm = current sc
      /\ debounceRef sc = Some (timerId tm)
      /\ hasCleanup sc = true
  | _ => False
  end.

End Explore.

(** ** pages/HomeUser.tsx *)
Module HomeUser.
Import JSString JSArray Supabase Async Async.Notations.

(** [interface EventItem]; the rows read with [ev: any] are seen through
    the same fields. [None] is a null or missing field. *)
Record EventItem : Type := mkEventItem {
  id : string;
  title : string;
  description : option string;
  start_time : option Z;
  time : option string;
  end_time : option Z;
  location : option string;
  tags : option (list string);
  poster_url : option string;
  organizer : option string;
  subreddits : option (list string);
  status : option string;
  created_at : option Z;
  registration_count : option Z;
  category : option string
}.

(** A row of [registrations] as selected: [event_id] only. *)
Record Registration : Type := mkRegistration { event_id : option string }.

(** [ev.tags?.[0] || undefined] *)
Definition firstCategory (tags : option (list string)) : option string :=
  match tags with
  | Some (t :: _) => if truthy t then Some t else None
  | _ => None
  end.

(** [counts[k] || 0] *)
Definition orZero (v : option Z) : Z := default 0 v.

(** The [forEach] over the registrations, from the empty object. *)
Definition countStep (counts : gmap string Z) (r : option Registration) : gmap string Z :=
  match r with
  | Some r =>
      match event_id r with
      | Some k =>
          if truthy k then <[k := orZero (counts !! k) + 1]> counts else counts
      | None => counts
      end
  | None => counts
  end.

Definition countRegistrations (regs : list (option Registration)) : gmap string Z :=
  foldl countStep ∅ regs.

(** The registration records whose [event_id] is [k], and their number. *)
Definition registeredFor (k : string) (r : option Registration) : bool :=
  match r with
  | Some r =>
      match event_id r with
      | Some e => String.eqb e k
      | None => false
      end
  | None => false
  end.

Definition registrationsFor (k : string) (regs : list (option Registration)) : Z :=
  Z.of_nat (length (filter (fun r => registeredFor k r = true) regs)).

(** [(a, b) => (b.registration_count || 0) - (a.registration_count || 0)] *)
Definition byCountDesc (a b : EventItem) : Z :=
  orZero (registration_count b) - orZero (registration_count a).

(** [a] does not rank below [b]: its count is at least [b]'s. *)
Definition ranksNotBelow (a b : EventItem) : Prop :=
  orZero (registration_count b) <= orZero (registration_count a).

(** An event row as the fallback selects it. *)
Definition eventWithId (i : string) : EventItem :=
  mkEventItem i "" None None None None None None None None None None None None None.

Section Normalize.
(** [new Date(t).toLocaleString()], fixed by the device locale. *)
Variable toLocaleString : Z -> string.

Definition derivedTime (ev : EventItem) : option string :=
  match start_time ev with
  | Some t => Some (toLocaleString t)
  | None => time ev
  end.

(** The mapping applied by [loadUpcoming]. *)
Definition normalizeUpcoming (ev : EventItem) : EventItem :=
  {| id := id ev;
     title := title ev;
     description := description ev;
     start_time := start_time ev;
     end_time := end_time ev;
     time := derivedTime ev;
     location := location ev;
     tags := tags ev;
     poster_url := poster_url ev;
     organizer := organizer ev;
     subreddits := None;
     status := status ev;
     created_at := created_at ev;
     registration_count := None;
     category := firstCategory (tags ev) |}.

(** The mapping applied by [loadTrending] to the rows of the view. *)
Definition normalizeTrending (ev : EventItem) : EventItem :=
  {| id := id ev;
     title := title ev;
     description := description ev;
     start_time := start_time ev;
     end_time := None;
     time := derivedTime ev;
     location := location ev;
     tags := None;
     poster_url := None;
     organizer := None;
     subreddits := None;
     status := None;
     created_at := None;
     registration_count := Some (orZero (registration_count ev));
     category := firstCategory (tags ev) |}.

(** The mapping applied by the fallback of [loadTrending]. *)
Definition enrich (counts : gmap string Z) (ev : EventItem) : EventItem :=
  {| id := id ev;
     title := title ev;
     description := None;
     start_time := start_time ev;
     end_time := None;
     time := match start_time ev with
             | Some t => Some (toLocaleString t)
             | None => None
             end;
     location := location ev;
     tags := None;
     poster_url := None;
     organizer := None;
     subreddits := None;
     status := None;
     created_at := None;
     registration_count := Some (orZero (counts !! id ev));
     category := firstCategory (tags ev) |}.

(** The client-side aggregation of the fallback, from the two fetched
    collections to the list handed to [setTrendingEvents]. *)
Definition aggregate (events : list EventItem)
    (regs : list (option Registration)) : list EventItem :=
  let counts := countRegistrations regs in
  let enriched := map (enrich counts) events in
  let enriched := sort byCountDesc enriched in
  slice0 8 enriched.

Inductive Effect : Type :=
| SetUpcomingEvents (l : list EventItem)
| SetTrendingEvents (l : list EventItem)
| SetLoadingUpcoming (b : bool)
| SetLoadingTrending (b : bool)
| Request (q : Query)
| ConsoleLog (msg : string)
| ConsoleWarn (msg : string)
| ConsoleError (msg : string).

Record State : Type := mkState {
  upcomingEvents : list EventItem;
  trendingEvents : list EventItem;
  loadingUpcoming : bool;
  loadingTrending : bool;
  trace : list Effect
}.

Definition emit (e : Effect) : M State unit :=
  modify (fun s => mkState (upcomingEvents s) (trendingEvents s)
                     (loadingUpcoming s) (loadingTrending s) (trace s ++ [e])).
Definition setUpcomingEvents (l : list EventItem) : M State unit :=
  modify (fun s => mkState l (trendingEvents s)
                     (loadingUpcoming s) (loadingTrending s) (trace s)) ;;;
  emit (SetUpcomingEvents l).
Definition setTrendingEvents (l : list EventItem) : M State unit :=
  modify (fun s => mkState (upcomingEvents s) l
                     (loadingUpcoming s) (loadingTrending s) (trace s)) ;;;
  emit (SetTrendingEvents l).
Definition setLoadingUpcoming (b : bool) : M State unit :=
  modify (fun s => mkState (upcomingEvents s) (trendingEvents s)
                     b (loadingTrending s) (trace s)) ;;;
  emit (SetLoadingUpcoming b).
Definition setLoadingTrending (b : bool) : M State unit :=
  modify (fun s => mkState (upcomingEvents s) (trendingEvents s)
                     (loadingUpcoming s) b (trace s)) ;;;
  emit (SetLoadingTrending b).

(** The clock, the value of the closure variable [mounted] when the
    awaited request has settled, and how the store settles requests. *)
Variable now : Z.
Variable mounted : bool.
Variable eventsBackend : Query -> Settled (Response EventItem).
Variable regsBackend : Query -> Settled (Response (option Registration)).

Definition upcomingQuery : Query :=
  limit 12
    (order "start_time" true
       (in_ "status" ["approved"; "pending"]%string
          (gte "start_time" now
             (select "id, title, description, start_time, end_time, location, tags, poster_url, organizer, subreddits, status, created_at"
                (from "event_submissions"))))).

Definition loadUpcoming : M State unit :=
  setLoadingUpcoming true ;;;
  tryCatchFinally
    (emit (ConsoleLog "[HomeUser] loading upcoming events") ;;;
     emit (Request upcomingQuery) ;;;
     res <- await (eventsBackend upcomingQuery) ;;
     match error res with
     | Some err =>
         emit (ConsoleWarn "[HomeUser] fetchUpcoming error") ;;;
         when mounted (setUpcomingEvents [])
     | None =>
         emit (ConsoleLog "[HomeUser] upcoming rows") ;;;
         let normalized := map normalizeUpcoming (default [] (data res)) in
         when mounted (setUpcomingEvents normalized)
     end)
    (fun err =>
       emit (ConsoleError "[HomeUser] loadUpcoming caught") ;;;
       when mounted (setUpcomingEvents []))
    (when mounted (setLoadingUpcoming false)).

Definition viewQuery : Query :=
  limit 8 (order "registration_count" false
             (select "*" (from "v_event_submission_regcount"))).

Definition fallbackEventsQuery : Query :=
  in_ "status" ["approved"; "pending"]%string
    (gte "start_time" now
       (select "id,title,start_time,tags,location" (from "event_submissions"))).

Definition registrationsQuery : Query :=
  select "event_id" (from "registrations").

Definition loadTrending : M State unit :=
  setLoadingTrending true ;;;
  tryCatchFinally
    (emit (ConsoleLog "[HomeUser] loading trending") ;;;
     emit (Request viewQuery) ;;;
     res <- await (eventsBackend viewQuery) ;;
     match error res, data res with
     | None, Some rows =>
         emit (ConsoleLog "[HomeUser] trending view rows") ;;;
         let normalized := map normalizeTrending rows in
         when mounted (setTrendingEvents normalized)
     | _, _ =>
         emit (ConsoleWarn "[HomeUser] trending view not available") ;;;
         let eventsP := eventsBackend fallbackEventsQuery in
         let regsP := regsBackend registrationsQuery in
         emit (Request fallbackEventsQuery) ;;;
         emit (Request registrationsQuery) ;;;
         both <- awaitAll eventsP regsP ;;
         let events := default [] (data (fst both)) in
         let regs := default [] (data (snd both)) in
         when mounted (setTrendingEvents (aggregate events regs))
     end)
    (fun err =>
       emit (ConsoleError "[HomeUser] loadTrending caught") ;;;
       when mounted (setTrendingEvents []))
    (when mounted (setLoadingTrending false)).
End Normalize.

(** *** Joining an event, and the look of a card *)

#[global] Instance eventItemTable : Table EventItem := {|
  colText := fun col r =>
    if String.eqb col "id" then Some (id r)
    else if String.eqb col "title" then Some (title r)
    else if String.eqb col "description" then description r
    else if String.eqb col "location" then location r
    else if String.eqb col "poster_url" then poster_url r
    else if String.eqb col "organizer" then organizer r
    else if String.eqb col "status" then status r
    else None;
  colTime := fun col r =>
    if String.eqb col "start_time" then start_time r
    else if String.eqb col "end_time" then end_time r
    else if String.eqb col "created_at" then created_at r
    else None;
  colArray := fun col r =>
    if String.eqb col "tags" then tags r
    else if String.eqb col "subreddits" then subreddits r
    else None
|}.

(** [a] does not start after [b]; a null start time is the latest. *)
Definition startsNotAfter (a b : EventItem) : Prop :=
  keyLe (start_time a) (start_time b) = true.

Definition statusShown (ev : EventItem) : bool :=
  match status ev with
  | Some st => String.eqb st "approved" || String.eqb st "pending"
  | None => false
  end.

(** The calls of the list setters and of the loading setters in a
    trace. *)
Definition isListCall (e : Effect) : bool :=
  match e with
  | SetUpcomingEvents _ | SetTrendingEvents _ => true
  | _ => false
  end.

Definition loadingCalls (es : list Effect) : list bool :=
  omap (fun e => match e with
                 | SetLoadingUpcoming b | SetLoadingTrending b => Some b
                 | _ => None
                 end) es.

(** [getCategoryIcon] and [getCategoryColor] of this screen. *)
Definition getCategoryIcon (category : option string) : string :=
  match category with
  | None => "üéâ"
  | Some c =>
      if String.eqb c "entertainment" then "üé¨"
      else if String.eqb c "arts" then "üé®"
      else if String.eqb c "music" then "üéµ"
      else if String.eqb c "sports" then "‚öΩ"
      else if String.eqb c "academic" then "üìö"
      else "üéâ"
  end.

Definition getCategoryColor (category : option string) : string :=
  match category with
  | None => "#95a5a6"
  | Some c =>
      if String.eqb c "entertainment" then "#e74c3c"
      else if String.eqb c "arts" then "#9b59b6"
      else if String.eqb c "music" then "#f39c12"
      else if String.eqb c "sports" then "#27ae60"
      else if String.eqb c "academic" then "#3498db"
      else "#95a5a6"
  end.

(** What the store answers to an insert. *)
Record InsertResponse : Type := mkInsertResponse { insertError : option string }.

Inductive JoinEffect : Type :=
| Insert (table : string) (row : Registration)
| Select (q : Query)
| JoinSetUpcoming (l : list EventItem)
| JoinSetTrending (l : list EventItem)
| JoinLog (msg : string)
| JoinWarn (msg : string)
| JoinError (msg : string).

Record JoinState : Type := mkJoinState {
  joinUpcoming : list EventItem;
  joinTrending : list EventItem;
  joinTrace : list JoinEffect
}.

Definition inserts (es : list JoinEffect) : list Registration :=
  omap (fun e => match e with Insert _ row => Some row | _ => None end) es.

Definition selects (es : list JoinEffect) : list Query :=
  omap (fun e => match e with Select q => Some q | _ => None end) es.

Section Join.
Variable toLocaleString : Z -> string.
Variable now : Z.
Variable insertBackend : Registration -> Settled InsertResponse.
Variable eventsBackend : Query -> Settled (Response EventItem).

Definition joinEmit (e : JoinEffect) : M JoinState unit :=
  modify (fun s => mkJoinState (joinUpcoming s) (joinTrending s) (joinTrace s ++ [e])).
Definition joinSetUpcoming (l : list EventItem) : M JoinState unit :=
  modify (fun s => mkJoinState l (joinTrending s) (joinTrace s)) ;;;
  joinEmit (JoinSetUpcoming l).
Definition joinSetTrending (l : list EventItem) : M JoinState unit :=
  modify (fun s => mkJoinState (joinUpcoming s) l (joinTrace s)) ;;;
  joinEmit (JoinSetTrending l).

(** The two mappings of the refresh after a join. *)
Definition refreshedUpcoming (ev : EventItem) : EventItem :=
  {| id := id ev;
     title := title ev;
     description := None;
     start_time := start_time ev;
     end_time := None;
     time := match start_time ev with
             | Some t => Some (toLocaleString t)
             | None => None
             end;
     location := location ev;
     tags := None;
     poster_url := None;
     organizer := None;
     subreddits := None;
     status := None;
     created_at := None;
     registration_count := None;
     category := firstCategory (tags ev) |}.

Definition refreshedTrending (ev : EventItem) : EventItem :=
  {| id := id ev;
     title := title ev;
     description := None;
     start_time := start_time ev;
     end_time := None;
     time := match start_time ev with
             | Some t => Some (toLocaleString t)
             | None => None
             end;
     location := location ev;
     tags := None;
     poster_url := None;
     organizer := None;
     subreddits := None;
     status := None;
     created_at := None;
     registration_count := Some (orZero (registration_count ev));
     category := firstCategory (tags ev) |}.

Definition refreshQuery : Query :=
  limit 12
    (in_ "status" ["approved"; "pending"]%string
       (gte "start_time" now (select "*" (from "event_submissions")))).

Definition handleJoin (eventId : string) : M JoinState unit :=
  tryCatch
    (joinEmit (JoinLog "[HomeUser] joining event") ;;;
     let row := mkRegistration (Some eventId) in
     joinEmit (Insert "registrations" row) ;;;
     ins <- await (insertBackend row) ;;
     match insertError ins with
     | Some err => joinEmit (JoinWarn "[HomeUser] join failed")
     | None =>
         joinEmit (Select refreshQuery) ;;;
         res <- await (eventsBackend refreshQuery) ;;
         match data res with
         | Some events => joinSetUpcoming (map refreshedUpcoming events)
         | None => ret tt
         end ;;;
         joinEmit (Select viewQuery) ;;;
         res <- await (eventsBackend viewQuery) ;;
         match data res with
         | Some trending => joinSetTrending (map refreshedTrending trending)
         | None => ret tt
         end
     end)
    (fun err => joinEmit (JoinError "[HomeUser] handleJoin error")).
End Join.

End HomeUser.

(** ** pages/EventDetails.tsx *)
Module EventDetails.
Import JSString Supabase Async Async.Notations.

Inductive RedditType : Type := post | comment.

(** [type RedditRow] (without the untyped [payload]), with the
    [event_id] column the rows are selected and filtered by. *)
Record RedditRow : Type := mkRedditRow {
  id : string;
  reddit_id : string;
  subreddit : string;
  type_ : RedditType;
  title : option string;
  body : option string;
  author : option string;
  sentiment : option Z;
  created_utc : option Z;
  event_id : option string
}.

#[global] Instance redditRowTable : Table RedditRow := {|
  colText := fun col r =>
    if String.eqb col "id" then Some (id r)
    else if String.eqb col "reddit_id" then Some (reddit_id r)
    else if String.eqb col "subreddit" then Some (subreddit r)
    else if String.eqb col "title" then title r
    else if String.eqb col "body" then body r
    else if String.eqb col "author" then author r
    else if String.eqb col "event_id" then event_id r
    else None;
  colTime := fun col r =>
    if String.eqb col "created_utc" then created_utc r else None;
  colArray := fun _ _ => None
|}.

(** [a] was not created before [b]; a null creation time is the
    latest. *)
Definition createdNotBefore (a b : RedditRow) : Prop :=
  keyLe (created_utc b) (created_utc a) = true.

Inductive Effect : Type :=
| SetDiscussions (l : list RedditRow)
| SetLoadingDisc (b : bool)
| Request (q : Query)
| ConsoleError (msg : string).

Record State : Type := mkState {
  discussions : list RedditRow;
  loadingDisc : bool;
  trace : list Effect
}.

Definition emit (e : Effect) : M State unit :=
  modify (fun s => mkState (discussions s) (loadingDisc s) (trace s ++ [e])).
(** [setDiscussions(f)] with an updater function. *)
Definition updateDiscussions (f : list RedditRow -> list RedditRow) : M State unit :=
  fun s =>
    let l := f (discussions s) in
    (Return tt, mkState l (loadingDisc s) (trace s ++ [SetDiscussions l])).
Definition setDiscussions (l : list RedditRow) : M State unit :=
  updateDiscussions (fun _ => l).
Definition setLoadingDisc (b : bool) : M State unit :=
  modify (fun s => mkState (discussions s) b (trace s)) ;;; emit (SetLoadingDisc b).

Section Discussions.
Variable safeId : string.
Variable mounted : bool.
Variable backend : Query -> Settled (Response RedditRow).

Definition discussionsQuery : Query :=
  limit 200
    (order "created_utc" false
       (eq_ "event_id" safeId (select "*" (from "reddit_comments")))).

(** A response without an error carries its rows. *)
Definition fetchDiscussions : M State unit :=
  setLoadingDisc true ;;;
  emit (Request discussionsQuery) ;;;
  res <- await (backend discussionsQuery) ;;
  match error res with
  | Some err =>
      emit (ConsoleError "[EventDetails] fetch discussions error") ;;;
      when mounted (setDiscussions [])
  | None => when mounted (setDiscussions (default [] (data res)))
  end ;;;
  when mounted (setLoadingDisc false).

(** The realtime subscription: INSERT on [reddit_comments] with the
    filter [event_id=eq.<safeId>]. *)
Inductive ChangeKind : Type := INSERT | UPDATE | DELETE.

Record Change : Type := mkChange {
  kind : ChangeKind;
  table : string;
  new : RedditRow
}.

Definition delivered (c : Change) : bool :=
  match kind c with
  | INSERT =>
      String.eqb (table c) "reddit_comments" &&
      match event_id (new c) with
      | Some e => String.eqb e safeId
      | None => false
      end
  | _ => false
  end.

(** [(payload) => setDiscussions((prev) => [payload.new, ...prev])] *)
Definition onInsert (payload : Change) : M State unit :=
  updateDiscussions (fun prev => new payload :: prev).

Definition notify (c : Change) : M State unit :=
  if delivered c then onInsert c else ret tt.

Fixpoint notifyAll (cs : list Change) : M State unit :=
  match cs with
  | [] => ret tt
  | c :: cs' => notify c ;;; notifyAll cs'
  end.
End Discussions.

(** *** The event itself, the screen shown, and the link of a row *)

(** [eventId?: string | { id?: string } | null]; of an object only the
    [id] field matters. *)
Inductive RawId : Type :=
| RawNull
| RawString (s : string)
| RawObject (idField : option JSValue).

Definition normalizeId (raw : RawId) : option string :=
  match raw with
  | RawNull => None
  | RawString s => if truthy s then Some s else None
  | RawObject (Some (JString s)) => if truthy s then Some s else None
  | RawObject _ => None
  end.

(** [interface EventRow] of this screen. *)
Record DetailRow : Type := mkDetailRow {
  d_id : string;
  d_title : option string;
  d_description : option string;
  d_start_time : option Z;
  d_end_time : option Z;
  d_location : option string;
  d_price : option string;
  d_organizer : option string;
  d_tags : option (list string);
  d_attendees : option Z;
  d_capacity : option Z
}.

(** The answer to a request ending in [.single()]: one row or an error
    with its message. *)
Record Single : Type := mkSingle {
  singleData : option DetailRow;
  singleError : option string
}.

Inductive EventEffect : Type :=
| SetEvent (ev : option DetailRow)
| SetLoading (b : bool)
| SetErrorMsg (msg : option string)
| RequestEvent (q : Query)
| LogError (msg : string).

Record EventState : Type := mkEventState {
  event : option DetailRow;
  loading : bool;
  errorMsg : option string;
  eventTrace : list EventEffect
}.

Definition emitEvent (e : EventEffect) : M EventState unit :=
  modify (fun s => mkEventState (event s) (loading s) (errorMsg s) (eventTrace s ++ [e])).
Definition setEvent (ev : option DetailRow) : M EventState unit :=
  modify (fun s => mkEventState ev (loading s) (errorMsg s) (eventTrace s)) ;;;
  emitEvent (SetEvent ev).
Definition setLoading (b : bool) : M EventState unit :=
  modify (fun s => mkEventState (event s) b (errorMsg s) (eventTrace s)) ;;;
  emitEvent (SetLoading b).
Definition setErrorMsg (msg : option string) : M EventState unit :=
  modify (fun s => mkEventState (event s) (loading s) msg (eventTrace s)) ;;;
  emitEvent (SetErrorMsg msg).

Section Event.
Variable safeId : string.
Variable mounted : bool.
Variable backend : Query -> Settled Single.

(** The request of [fetchEvent]; [.single()] shapes the answer. *)
Definition eventQuery : Query :=
  eq_ "id" safeId (select "*" (from "event_submissions")).

Definition fetchEvent : M EventState unit :=
  setLoading true ;;;
  emitEvent (RequestEvent eventQuery) ;;;
  res <- await (backend eventQuery) ;;
  match singleError res with
  | Some message =>
      emitEvent (LogError "[EventDetails] fetch event error") ;;;
      when mounted (setErrorMsg (Some message) ;;; setEvent None)
  | None => when mounted (setEvent (singleData res))
  end ;;;
  when mounted (setLoading false).
End Event.

(** The render states, in the order the component tests them. *)
Inductive View : Type :=
| InvalidId
| LoadingView
| ErrorView (msg : string)
| NotFound
| Main (ev : DetailRow).

Definition view (safeId : option string) (st : EventState) : View :=
  match safeId with
  | None => InvalidId
  | Some _ =>
      if loading st then LoadingView
      else
        let rest := match event st with
                    | None => NotFound
                    | Some ev => Main ev
                    end in
        match errorMsg st with
        | Some msg => if truthy msg then ErrorView msg else rest
        | None => rest
        end
  end.

(** [row.payload] as [openReddit] reads it. *)
Record Payload : Type := mkPayload {
  permalink : option string;
  url : option string
}.

Inductive LinkEffect : Type :=
| OpenURL (u : string)
| Alert (title : string).

Definition opened (es : list LinkEffect) : list string :=
  omap (fun e => match e with OpenURL u => Some u | _ => None end) es.

Definition alerts (es : list LinkEffect) : list string :=
  omap (fun e => match e with Alert t => Some t | _ => None end) es.

Section Link.
(** How [Linking.openURL] settles. *)
Variable openURL : string -> Settled unit.

Definition linkEmit (e : LinkEffect) : M (list LinkEffect) unit :=
  modify (fun s => s ++ [e]).

(** [permalink ? `https://www.reddit.com${permalink}` : row?.payload?.url] *)
Definition linkOf (payload : option Payload) : option string :=
  match payload with
  | None => None
  | Some p =>
      match permalink p with
      | Some pl => if truthy pl then Some ("https://www.reddit.com" +:+ pl) else url p
      | None => url p
      end
  end.

Definition openReddit (payload : option Payload) : M (list LinkEffect) unit :=
  match linkOf payload with
  | Some u =>
      if truthy u then
        tryCatch
          (linkEmit (OpenURL u) ;;; await (openURL u))
          (fun e => linkEmit (Alert "Open link failed"))
      else linkEmit (Alert "No link available for this reddit item.")
  | None => linkEmit (Alert "No link available for this reddit item.")
  end.
End Link.

End EventDetails.

(** ** pages/LanguageChoice.tsx *)
Module LanguageChoice.

(** [prev.includes(id)] *)
Definition includes (l : list string) (x : string) : bool :=
  existsb (String.eqb x) l.

(** The updater of [toggleInterest]. *)
Definition toggleInterest (interestId : string) (prev : list string) : list string :=
  if includes prev interestId
  then filter (fun id => id <> interestId) prev
  else prev ++ [interestId].

(** The selection after a series of taps, from the empty selection. *)
Definition tapAll (ids : list string) : list string :=
  foldl (fun sel i => toggleInterest i sel) [] ids.

Definition canProceed (selectedInterests : list string) : bool :=
  (3 <=? length selectedInterests)%nat.

(** How often [x] was tapped. *)
Definition taps (x : string) (ids : list string) : nat :=
  length (filter (fun y => y = x) ids).

End LanguageChoice.

(** ** pages/CreateEvent.tsx: the helpers on dates *)
Module CreateEvent.
Import JSDate.

Section Helpers.
Variable tza : Z.

(** [addHoursISO]; an ISO string stands for its instant. *)
Definition addHoursISO (iso : Z) (hours : Z) : Z :=
  let d := iso in
  let d := setHour tza d (getHours tza d + hours) in
  d.
End Helpers.

Import JSString Supabase Async Async.Notations.

(** The form of the screen. *)
Record Form : Type := mkForm {
  title : string;
  description : string;
  category : string;
  capacity : string;
  location : string;
  selectedDate : string;
  selectedHour : Z;
  posterUrl : option string;
  saving : bool
}.

(** The row handed to [insert]. *)
Record Payload : Type := mkPayload {
  p_title : string;
  p_description : option string;
  p_start_time : Z;
  p_end_time : Z;
  p_location : string;
  p_tags : list string;
  p_status : string;
  p_capacity : option string;
  p_poster_url : option string
}.

(** The columns selected back from the insert, and its answer. *)
Record Created : Type := mkCreated {
  c_id : string;
  c_title : string;
  c_status : string;
  c_created_at : Z
}.

Record InsertAnswer : Type := mkInsertAnswer {
  insertData : option Created;
  insertError : option string
}.

Inductive Effect : Type :=
| InsertEvent (p : Payload)
| AlertBox (heading message : string)
| OnCreateEvent (row : option Created)
| ConsoleLog (msg : string).

Record State : Type := mkState {
  form : Form;
  trace : list Effect
}.

Definition emit (e : Effect) : M State unit :=
  modify (fun s => mkState (form s) (trace s ++ [e])).
Definition setSaving (b : bool) : M State unit :=
  modify (fun s =>
            let f := form s in
            mkState (mkForm (title f) (description f) (category f) (capacity f)
                       (location f) (selectedDate f) (selectedHour f) (posterUrl f) b)
                    (trace s)).

Definition insertsOf (es : list Effect) : list Payload :=
  omap (fun e => match e with InsertEvent p => Some p | _ => None end) es.

Definition alertsOf (es : list Effect) : list string :=
  omap (fun e => match e with AlertBox h _ => Some h | _ => None end) es.

(** [!!title.trim() && !!description.trim() && !!location.trim()] *)
Definition canCreateEvent (f : Form) : bool :=
  truthy (trim (title f)) && truthy (trim (description f)) && truthy (trim (location f)).

Section Create.
Variable tza : Z.
(** [Number] on the parts of a date string: an integer, or NaN. *)
Variable numberOf : string -> option Z.
(** [todayISO], fixed when the module is loaded, and the hour of the
    clock when the form is reset. *)
Variable todayISO : string.
Variable hourNow : Z.
(** Whether the parent passed [onCreateEvent], and how the store settles
    the insert. *)
Variable hasCallback : bool.
Variable backend : Payload -> Settled InsertAnswer.

(** [isoFromDateAndHour]: the instant of the ISO string, or [None] when
    [toISOString] throws for an invalid date. A two-digit year counts
    from 1900, as the [Date] constructor has it. *)
Definition isoFromDateAndHour (dateYMD : string) (hour : Z) : option Z :=
  let parts := map numberOf (split "-" dateYMD) in
  match nth 0 parts None, nth 1 parts None, nth 2 parts None with
  | Some y, Some m, Some d =>
      let yr := if (0 <=? y) && (y <=? 99) then 1900 + y else y in
      Some (UTC tza (MakeDate (MakeDay yr (m - 1) d) (MakeTime hour 0 0 0)))
  | _, _, _ => None
  end.

Definition quote : string := String (ascii_of_nat 34) EmptyString.

Definition resetForm : M State unit :=
  modify (fun s =>
            mkState (mkForm "" "" "" "" "" todayISO hourNow None (saving (form s)))
                    (trace s)).

(** [handleCreateEvent]. The test for an invalid start after
    [isoFromDateAndHour] has returned cannot succeed and is left out. *)
Definition handleCreateEvent : M State unit :=
  fun s0 =>
    let f := form s0 in
    if negb (canCreateEvent f) || saving f then (Return tt, s0)
    else
      tryCatchFinally
        (setSaving true ;;;
         startISO <- match isoFromDateAndHour (selectedDate f) (selectedHour f) with
                     | Some t => ret t
                     | None => throw "Invalid time value"
                     end ;;
         let endISO := addHoursISO tza startISO 2 in
         let tags := if truthy (trim (category f)) then [trim (category f)] else [] in
         let payload :=
           {| p_title := trim (title f);
              p_description := if truthy (trim (description f))
                               then Some (trim (description f)) else None;
              p_start_time := startISO;
              p_end_time := endISO;
              p_location := trim (location f);
              p_tags := tags;
              p_status := "pending";
              p_capacity := if truthy (capacity f) then Some (capacity f) else None;
              p_poster_url := posterUrl f |} in
         emit (ConsoleLog "[CreateEvent] inserting payload") ;;;
         emit (InsertEvent payload) ;;;
         res <- await (backend payload) ;;
         match insertError res with
         | Some message =>
             emit (ConsoleLog "[event_submissions.insert] error") ;;;
             emit (AlertBox "Error" message)
         | None =>
             when hasCallback (emit (OnCreateEvent (insertData res))) ;;;
             resetForm ;;;
             match insertData res with
             | Some data =>
                 emit (AlertBox "Success"
                         ("Event " +:+ quote +:+ c_title data +:+ quote +:+ " saved."))
             | None => throw "Cannot read properties of null"
             end
         end)
        (fun e =>
           emit (ConsoleLog "[event_submissions.insert] exception") ;;;
           emit (AlertBox "Error" e))
        (setSaving false) s0.
End Create.

(** The row of [event_submissions] the store keeps for an inserted
    payload, with the id and creation time it assigns. *)
Definition storedRow (i : string) (created : Z) (p : Payload) : Explore.EventRow :=
  Explore.mkEventRow i (p_title p) (p_description p)
    (Some (p_start_time p)) (Some (p_end_time p)) (Some (p_location p))
    (Some (map JString (p_tags p))) (Some (p_status p)) (Some created) ∅.

End CreateEvent.

(** ** lib/authHelpers.ts *)
Module AuthHelpers.
Import JSString Supabase Async Async.Notations.

(** The selected columns of a row of [profiles]. *)
Record Profile : Type := mkProfile {
  is_admin : JSValue;
  full_name : option string;
  email : option string
}.

Record ProfileAnswer : Type := mkProfileAnswer {
  profileData : option Profile;
  profileError : option string
}.

(** What [getProfileAndRole] returns. *)
Record Role : Type := mkRole {
  uid : option string;
  role_is_admin : bool;
  profile : option Profile
}.

(** [x === true] *)
Definition isTrue (v : JSValue) : bool :=
  match v with JBool true => true | _ => false end.

Section GetProfileAndRole.
(** How [auth.getUser()] settles, with [userResp?.user?.id], and how
    the store settles the request for the profile of a user id. *)
Variable getUser : Settled (option string).
Variable profiles : string -> Settled ProfileAnswer.

(** The state is the list of user ids whose profile was requested. *)
Definition getProfileAndRole : M (list string) Role :=
  userId <- await getUser ;;
  match userId with
  | Some u =>
      if truthy u then
        modify (fun asked => asked ++ [u]) ;;;
        res <- await (profiles u) ;;
        match profileError res with
        | Some err => ret (mkRole (Some u) false None)
        | None =>
            ret (mkRole (Some u)
                   match profileData res with
                   | Some pr => isTrue (is_admin pr)
                   | None => false
                   end
                   (profileData res))
        end
      else ret (mkRole None false None)
  | None => ret (mkRole None false None)
  end.
End GetProfileAndRole.

End AuthHelpers.

(** ** pages/Login.tsx *)
Module Login.
Import JSString.

(** Which of the optional props are functions; [navigation] stands for
    [navigation?.replace]. *)
Record Props : Type := mkProps {
  navigation : bool;
  onLogin : bool;
  onAdminLogin : bool
}.

Definition isAdminEmail (e : string) : bool :=
  truthy e &&
  (endsWith (toLowerCase e) "@gmail.com" || includesText "admin" (toLowerCase e)).

Inductive Action : Type :=
| CallOnAdminLogin
| CallOnLogin
| Replace (screen : string)
| AlertBox (heading message : string)
| SetLoading (b : bool).

Section WithProps.
Variable props : Props.
Variable email : string.
Variable password : string.

Definition finishLogin (admin : bool) : Action :=
  if admin && onAdminLogin props then CallOnAdminLogin
  else if negb admin && onLogin props then CallOnLogin
  else if admin && navigation props then Replace "CreateEvent"
  else if negb admin && navigation props then Replace "HomeUser"
  else AlertBox "Logged in (dummy)" ("Email: " +:+ email).

(** [handleLogin]: what it does at once, and what its timer does 600 ms
    later. *)
Definition handleLogin : list Action * list Action :=
  if negb (truthy email) || negb (truthy password) then
    ([AlertBox "Error" "Please enter email and password"], [])
  else
    ([SetLoading true],
     [SetLoading false; finishLogin (isAdminEmail email)]).
End WithProps.

End Login.

(** ** pages/Signup.tsx *)
Module Signup.
Import JSString Supabase Async Async.Notations.

Record User : Type := mkUser {
  user_id : string;
  user_email : option string
}.

(** An error of the auth service: its message and its JSON rendering. *)
Record AuthError : Type := mkAuthError {
  message : string;
  json : string
}.

Record SignUpAnswer : Type := mkSignUpAnswer {
  user : option User;
  signUpError : option AuthError
}.

Inductive Effect : Type :=
| AlertBox (heading message : string)
| SignUp (email password : string)
| UpsertProfile (id : string) (email full_name : option string)
| Replace (screen : string)
| Navigate (screen : string)
| SetLoading (b : bool)
| Console (msg : string).

Definition signUps (es : list Effect) : list (string * string) :=
  omap (fun e => match e with SignUp e p => Some (e, p) | _ => None end) es.

Definition upserts (es : list Effect) : list (string * option string * option string) :=
  omap (fun e => match e with UpsertProfile i e n => Some (i, e, n) | _ => None end) es.

Definition loadingCalls (es : list Effect) : list bool :=
  omap (fun e => match e with SetLoading b => Some b | _ => None end) es.

Definition alerts (es : list Effect) : list (string * string) :=
  omap (fun e => match e with AlertBox h m => Some (h, m) | _ => None end) es.

(** The screens asked of [navigation], by [replace] or [navigate]. *)
Definition navigations (es : list Effect) : list string :=
  omap (fun e => match e with
                 | Replace s | Navigate s => Some s
                 | _ => None
                 end) es.

Section Register.
Variable email : string.
Variable password : string.
Variable confirmPassword : string.
(** Whether [navigation] was passed, and how the service and the store
    settle. *)
Variable navigation : bool.
Variable signUp : Settled SignUpAnswer.
Variable upsert : Settled (option string).
(** [err.message || JSON.stringify(err)] of a thrown value. *)
Variable describe : string -> string.

Definition emit (e : Effect) : M (list Effect) unit :=
  modify (fun s => s ++ [e]).

(** [user.email?.split('@')[0]] *)
Definition localPart (e : option string) : option string :=
  match e with
  | Some e => head (split "@" e)
  | None => None
  end.

Definition handleRegister : M (list Effect) unit :=
  if negb (truthy email) || negb (truthy password) || negb (truthy confirmPassword) then
    emit (AlertBox "Error" "Please fill in all fields")
  else if negb (String.eqb password confirmPassword) then
    emit (AlertBox "Error" "Passwords do not match")
  else
    let lower := toLowerCase email in
    let isStudent := endsWith lower "@vitstudent.ac.in" in
    let isAdminEmail := endsWith lower "@gmail.com" in
    if negb isStudent && negb isAdminEmail then
      emit (AlertBox "Error"
              "Only @vitstudent.ac.in student emails or admin emails allowed")
    else
      tryCatchFinally
        (emit (SetLoading true) ;;;
         emit (SignUp email password) ;;;
         res <- await signUp ;;
         match signUpError res with
         | Some err =>
             emit (Console "[signup] signUpError") ;;;
             emit (AlertBox "Signup error"
                     (if truthy (message err) then message err else json err))
         | None =>
             match user res with
             | Some u =>
                 if truthy (user_id u) then
                   emit (UpsertProfile (user_id u) (user_email u)
                           (localPart (user_email u))) ;;;
                   profileError <- await upsert ;;
                   match profileError with
                   | Some _ => emit (Console "[signup] profile upsert error")
                   | None => ret tt
                   end ;;;
                   emit (AlertBox "Success" "Account created and signed in!") ;;;
                   when navigation (emit (Replace "HomeUser"))
                 else
                   emit (AlertBox "Check your email"
                           "We sent a confirmation link. Please verify then sign in.") ;;;
                   when navigation (emit (Navigate "Login"))
             | None =>
                 emit (AlertBox "Check your email"
                         "We sent a confirmation link. Please verify then sign in.") ;;;
                 when navigation (emit (Navigate "Login"))
             end
         end)
        (fun err =>
           emit (Console "[signup] unexpected") ;;;
           emit (AlertBox "Error" (describe err)))
        (emit (SetLoading false)).
End Register.

End Signup.

(** ** App.tsx: the pages and the selected event *)
Module App.
Import JSString EventDetails.

Inductive PageKey : Type :=
| getStarted | languageChoice | login | homeUser | signup | eventDetails
| explore | myEvents | createEvent | settings | profile | redditTrending.

Record State : Type := mkState {
  currentPage : PageKey;
  selectedEventId : RawId
}.

Definition initial : State := mkState getStarted RawNull.

Definition go (p : PageKey) (st : State) : State :=
  mkState p (selectedEventId st).

(** Truthiness of what [handleEventClick] receives. *)
Definition rawTruthy (raw : RawId) : bool :=
  match raw with
  | RawNull => false
  | RawString s => truthy s
  | RawObject _ => true
  end.

Definition handleEventClick (eventId : RawId) (st : State) : State :=
  let st := if rawTruthy eventId then mkState (currentPage st) eventId else st in
  go eventDetails st.

(** What [handleEventPress] of the home screen hands to [onEventClick]:
    the event object. *)
Definition pressed (ev : HomeUser.EventItem) : RawId :=
  RawObject (Some (JString (HomeUser.id ev))).

(** The [safeId] of the details screen rendered for this state. *)
Definition detailsId (st : State) : option string :=
  normalizeId (selectedEventId st).

(** The navigation handlers that take no argument. *)
Inductive Handler : Type :=
| handleGetStarted | handleLanguageChoiceNext | handleLanguageChoiceSkip
| handleLogin | handleLoginToSignup | handleSignup | handleSignupToLogin
| handleSettings | handleHome | handleExplore | handleCreate | handleMyEvents
| handleProfile | handleRedditTrending | handleTalk
| handleBackFromEventDetails | handleBackFromMyEvents | handleCloseCreateEvent
| handleBackFromSettings | handleEditInterests | handleLogout | handleCreateEvent.

Definition target (h : Handler) : PageKey :=
  match h with
  | handleGetStarted => languageChoice
  | handleLanguageChoiceNext | handleLanguageChoiceSkip => login
  | handleLogin | handleSignup => homeUser
  | handleLoginToSignup => signup
  | handleSignupToLogin => login
  | handleSettings => settings
  | handleHome => homeUser
  | handleExplore => explore
  | handleCreate => createEvent
  | handleMyEvents => myEvents
  | handleProfile => profile
  | handleRedditTrending | handleTalk => redditTrending
  | handleBackFromEventDetails | handleBackFromMyEvents
  | handleCloseCreateEvent | handleBackFromSettings => homeUser
  | handleEditInterests => languageChoice
  | handleLogout => getStarted
  | handleCreateEvent => homeUser
  end.

Definition handle (h : Handler) (st : State) : State := go (target h) st.

Fixpoint handleAll (hs : list Handler) (st : State) : State :=
  match hs with
  | [] => st
  | h :: hs' => handleAll hs' (handle h st)
  end.
(** The props [renderCurrentPage] passes to the login page, and the page
    shown once the timer of [Login.handleLogin] has fired. *)
Definition loginProps : Login.Props := Login.mkProps false true false.

Definition perform (a : Login.Action) (st : State) : State :=
  match a with
  | Login.CallOnLogin => handle handleLogin st
  | _ => st
  end.

Definition afterLogin (email password : string) (st : State) : State :=
  let (immediate, later) := Login.handleLogin loginProps email password in
  fold_left (fun s a => perform a s) (immediate ++ later) st.

End App.

(** * Properties *)

(** ** Time windows of [buildTimeRange] *)

(** [YearFromTime] is the year of the time value: the largest [y] with
    [TimeFromYear y <= t]. *)
Lemma YearFromTime_spec (t : Z) :
  JSDate.TimeFromYear (JSDate.YearFromTime t) <= t
  < JSDate.TimeFromYear (JSDate.YearFromTime t + 1).
Proof.
  assert (Hd : JSDate.DayFromYear (JSDate.YearFromTime t) <= JSDate.Day t
               < JSDate.DayFromYear (JSDate.YearFromTime t + 1)).
  { unfold JSDate.YearFromTime. cbn zeta.
    destruct (JSDate.Day t <? JSDate.DayFromYear (1970 + JSDate.Day t * 400 / 146097)) eqn:E1;
      [| destruct (JSDate.DayFromYear (1970 + JSDate.Day t * 400 / 146097 + 1)
                   <=? JSDate.Day t) eqn:E2].
    - apply Z.ltb_lt in E1. unfold JSDate.DayFromYear in *.
      Z.div_mod_to_equations. lia.
    - apply Z.ltb_ge in E1. apply Z.leb_le in E2. unfold JSDate.DayFromYear in *.
      Z.div_mod_to_equations. lia.
    - apply Z.ltb_ge in E1. apply Z.leb_gt in E2. lia. }
  unfold JSDate.TimeFromYear, JSDate.Day, JSDate.msPerDay in *.
  Z.div_mod_to_equations. lia.
Qed.

Lemma DaysInYear_spec (y : Z) :
  JSDate.DayFromYear (y + 1) = JSDate.DayFromYear y + JSDate.DaysInYear y.
Proof.
  unfold JSDate.DayFromYear, JSDate.DaysInYear, JSDate.isLeap.
  destruct (y mod 4 =? 0) eqn:E4; destruct (y mod 100 =? 0) eqn:E100;
    destruct (y mod 400 =? 0) eqn:E400; cbn [negb];
    rewrite ?Z.eqb_eq, ?Z.eqb_neq in *; Z.div_mod_to_equations; lia.
Qed.

(** The day of the month is a day of the month. *)
Lemma DateFromTime_range (t : Z) : 1 <= JSDate.DateFromTime t <= 31.
Proof.
  pose proof (YearFromTime_spec t) as Hy.
  pose proof (DaysInYear_spec (JSDate.YearFromTime t)) as Hn.
  assert (Hw : 0 <= JSDate.DayWithinYear t < JSDate.DaysInYear (JSDate.YearFromTime t)).
  { unfold JSDate.DayWithinYear, JSDate.TimeFromYear, JSDate.Day, JSDate.msPerDay in *.
    Z.div_mod_to_equations. lia. }
  unfold JSDate.DateFromTime, JSDate.MonthFromTime, JSDate.InLeapYear, JSDate.DaysInYear in *.
  destruct (JSDate.isLeap (JSDate.YearFromTime t));
    repeat match goal with
           | |- context [if ?c then _ else _] => destruct c eqn:?
           end; cbn [JSDate.daysBeforeMonth]; lia.
Qed.

Lemma MonthFromTime_range (t : Z) : 0 <= JSDate.MonthFromTime t <= 11.
Proof.
  unfold JSDate.MonthFromTime.
  repeat match goal with |- context [if ?c then _ else _] => destruct c end; lia.
Qed.

Lemma MakeDay_DateFromTime (t k : Z) :
  JSDate.MakeDay (JSDate.YearFromTime t) (JSDate.MonthFromTime t)
                 (JSDate.DateFromTime t + k) = JSDate.Day t + k.
Proof.
  pose proof (MonthFromTime_range t) as Hm.
  unfold JSDate.MakeDay, JSDate.DateFromTime, JSDate.DayWithinYear, JSDate.InLeapYear.
  rewrite (Z.div_small (JSDate.MonthFromTime t) 12) by lia.
  rewrite (Z.mod_small (JSDate.MonthFromTime t) 12) by lia.
  rewrite Z.add_0_r. lia.
Qed.

Lemma setDate_getDate (tza t k : Z) :
  JSDate.setDate tza t (JSDate.getDate tza t + k) = t + k * JSDate.msPerDay.
Proof.
  unfold JSDate.setDate, JSDate.getDate.
  rewrite MakeDay_DateFromTime.
  unfold JSDate.MakeDate, JSDate.UTC, JSDate.TimeWithinDay, JSDate.Day, JSDate.LocalTime.
  pose proof (Z.div_mod (t + tza) JSDate.msPerDay) as H.
  unfold JSDate.msPerDay in *. lia.
Qed.

Lemma Day_LocalTime_add (tza t k : Z) :
  JSDate.Day (JSDate.LocalTime tza (t + k * JSDate.msPerDay))
  = JSDate.Day (JSDate.LocalTime tza t) + k.
Proof.
  unfold JSDate.Day, JSDate.LocalTime.
  replace (t + k * JSDate.msPerDay + tza) with (t + tza + k * JSDate.msPerDay) by lia.
  apply Z.div_add. unfold JSDate.msPerDay. lia.
Qed.

Lemma setHours_midnight (tza t : Z) :
  JSDate.setHours tza t 0 0 0 0
  = JSDate.localMidnight tza (JSDate.Day (JSDate.LocalTime tza t)).
Proof. reflexivity. Qed.

Lemma setHours_dayEnd (tza t : Z) :
  JSDate.setHours tza t 23 59 59 999
  = JSDate.localDayEnd tza (JSDate.Day (JSDate.LocalTime tza t)).
Proof. reflexivity. Qed.

Lemma Day_localMidnight (tza d : Z) :
  JSDate.Day (JSDate.LocalTime tza (JSDate.localMidnight tza d)) = d.
Proof.
  unfold JSDate.Day, JSDate.LocalTime, JSDate.localMidnight, JSDate.UTC, JSDate.MakeDate.
  replace (d * JSDate.msPerDay + 0 - tza + tza) with (d * JSDate.msPerDay) by lia.
  apply Z.div_mul. unfold JSDate.msPerDay. lia.
Qed.

Lemma WeekDay_MakeDate (d : Z) :
  JSDate.WeekDay (JSDate.MakeDate d 0) = (d + 4) mod 7.
Proof.
  unfold JSDate.WeekDay, JSDate.Day, JSDate.MakeDate.
  rewrite Z.add_0_r, Z.div_mul; [reflexivity | unfold JSDate.msPerDay; lia].
Qed.

Lemma getDay_range (tza t : Z) : 0 <= JSDate.getDay tza t <= 6.
Proof.
  unfold JSDate.getDay, JSDate.WeekDay.
  pose proof (Z.mod_pos_bound (JSDate.Day (JSDate.LocalTime tza t) + 4) 7). lia.
Qed.

Lemma localMidnight_le_dayEnd (tza d e : Z) :
  d <= e -> JSDate.localMidnight tza d <= JSDate.localDayEnd tza e.
Proof.
  intros H.
  unfold JSDate.localMidnight, JSDate.localDayEnd, JSDate.UTC, JSDate.MakeDate,
    JSDate.MakeTime, JSDate.msPerDay, JSDate.msPerHour, JSDate.msPerMinute,
    JSDate.msPerSecond.
  lia.
Qed.

Lemma daysUntilNextMonday_spec (wd : Z) :
  0 <= wd <= 6 ->
  Explore.daysUntilNextMonday wd = (if (8 - wd) mod 7 =? 0 then 7 else (8 - wd) mod 7)
  /\ 1 <= Explore.daysUntilNextMonday wd <= 7
  /\ (wd + Explore.daysUntilNextMonday wd) mod 7 = 1.
Proof.
  intros H. unfold Explore.daysUntilNextMonday.
  assert (wd = 0 \/ wd = 1 \/ wd = 2 \/ wd = 3 \/ wd = 4 \/ wd = 5 \/ wd = 6) as Hc by lia.
  destruct Hc as [-> | [-> | [-> | [-> | [-> | [-> | ->]]]]]]; vm_compute; repeat split; congruence.
Qed.

Lemma WeekDay_shift (d k : Z) :
  (d + k + 4) mod 7 = (((d + 4) mod 7) + k) mod 7.
Proof. rewrite Zplus_mod_idemp_l. f_equal. lia. Qed.


(** The example of the specification: on 2024-05-10 (a Friday), in a zone
    at UTC, the windows of the four keys. *)
Example buildTimeRange_2024_05_10 :
  let now := 1715342400000 in
  let iso := fun f =>
    option_map (fun w => (JSDate.toISOString (Explore.start w),
                          JSDate.toISOString (Explore.end_ w)))
               (Explore.buildTimeRange 0 now f) in
  JSDate.toISOString now = "2024-05-10T12:00:00.000Z"%string
  /\ iso Explore.today
     = Some ("2024-05-10T00:00:00.000Z"%string, "2024-05-10T23:59:59.999Z"%string)
  /\ iso Explore.tomorrow
     = Some ("2024-05-11T00:00:00.000Z"%string, "2024-05-11T23:59:59.999Z"%string)
  /\ iso Explore.thisWeek
     = Some ("2024-05-10T00:00:00.000Z"%string, "2024-05-12T23:59:59.999Z"%string)
  /\ iso Explore.nextWeek
     = Some ("2024-05-13T00:00:00.000Z"%string, "2024-05-19T23:59:59.999Z"%string)
  /\ iso Explore.sports = None.
Proof. vm_compute. repeat split. Qed.

(** ** The composed event query *)

Lemma composeQuery_shape (tza : Z) (f : Explore.FilterKey) (s : string) (now : Z) :
  Explore.composeQuery tza f s now
  = Supabase.mkQuery "event_submissions" "*"
      (Supabase.FIn "status" ["approved"; "pending"]%string
         :: Explore.timeFilters tza f now
         ++ Explore.categoryFilters f
         ++ Explore.textFilters s)
      (Some ("start_time"%string, true)) None.
Proof.
  unfold Explore.composeQuery, Explore.timeFilters, Explore.categoryFilters,
    Explore.textFilters.
  destruct (Explore.buildTimeRange tza now f) as [w |];
    destruct (Explore.isCategory f);
    destruct (JSString.truthy (JSString.trim s)); reflexivity.
Qed.

(** *** Strings: splitting at a separator *)

Lemma string_app_cons (c : ascii) (a b : string) : String c a +:+ b = String c (a +:+ b).
Proof. reflexivity. Qed.

Lemma string_app_nil_l (b : string) : EmptyString +:+ b = b.
Proof. reflexivity. Qed.

Lemma string_app_assoc (a b c : string) : (a +:+ b) +:+ c = a +:+ (b +:+ c).
Proof.
  induction a as [| x a IH]; [reflexivity |].
  rewrite !string_app_cons. f_equal. exact IH.
Qed.

Lemma includes_app (c : ascii) (a b : string) :
  JSString.includes c (a +:+ b) = JSString.includes c a || JSString.includes c b.
Proof.
  induction a as [| x a IH]; [reflexivity |].
  rewrite string_app_cons. simpl. rewrite IH. apply orb_assoc.
Qed.

Lemma split_nonempty (c : ascii) (s : string) : JSString.split c s <> [].
Proof.
  destruct s as [| a s]; simpl; [discriminate |].
  destruct (Ascii.eqb a c); [discriminate |].
  destruct (JSString.split c s); discriminate.
Qed.

Lemma split_without (c : ascii) (s : string) :
  JSString.includes c s = false -> JSString.split c s = [s].
Proof.
  induction s as [| a s IH]; simpl; [reflexivity |].
  intros H. apply orb_false_iff in H as [Ha Hs].
  rewrite Ha, (IH Hs). reflexivity.
Qed.

Lemma split_app (c : ascii) (a b : string) :
  JSString.includes c a = false ->
  JSString.split c (a +:+ String c b) = a :: JSString.split c b.
Proof.
  induction a as [| x a IH]; intros H.
  - rewrite string_app_nil_l. simpl. rewrite Ascii.eqb_refl. reflexivity.
  - simpl in H. apply orb_false_iff in H as [Hx Ha].
    rewrite string_app_cons. simpl. rewrite Hx, (IH Ha). reflexivity.
Qed.

Lemma join_split (c : ascii) (s : string) :
  JSString.join (String c EmptyString) (JSString.split c s) = s.
Proof.
  induction s as [| a s IH]; [reflexivity |].
  simpl JSString.split.
  destruct (Ascii.eqb_spec a c) as [-> | Hne].
  - pose proof (split_nonempty c s) as Hn.
    destruct (JSString.split c s) as [| h t]; [congruence |].
    simpl in *. rewrite IH. reflexivity.
  - pose proof (split_nonempty c s) as Hn.
    destruct (JSString.split c s) as [| h t]; [congruence |].
    destruct t as [| h' t'].
    + simpl in *. congruence.
    + change (JSString.join (String c EmptyString) (String a h :: h' :: t'))
        with (String a h +:+ String c EmptyString
              +:+ JSString.join (String c EmptyString) (h' :: t')).
      change (JSString.join (String c EmptyString) (h :: h' :: t'))
        with (h +:+ String c EmptyString
              +:+ JSString.join (String c EmptyString) (h' :: t')) in IH.
      rewrite string_app_cons, IH. reflexivity.
Qed.

Lemma parseCondition_ilike (col v : string) :
  JSString.includes "." col = false ->
  Supabase.parseCondition (col +:+ ".ilike." +:+ v)
  = Some (Supabase.mkCond col "ilike" v).
Proof.
  intros Hcol. unfold Supabase.parseCondition.
  change (col +:+ ".ilike." +:+ v)
    with (col +:+ String "." ("ilike" +:+ String "." v)).
  rewrite (split_app "." col _ Hcol), (split_app "." "ilike" v eq_refl).
  pose proof (split_nonempty "." v) as Hn.
  pose proof (join_split "." v) as Hj.
  destruct (JSString.split "." v) as [| h t]; [congruence |].
  rewrite Hj. reflexivity.
Qed.

(** For a term without the separator, the text handed to [.or] is two
    conditions: [ilike] on [title] and on [location], each with the term
    between two wildcards. *)
Lemma orConditions_two (term : string) :
  JSString.includes "," term = false ->
  let q := "%" +:+ term +:+ "%" in
  Supabase.orConditions ("title.ilike." +:+ q +:+ ",location.ilike." +:+ q)
  = [Some (Supabase.mkCond "title" "ilike" q);
     Some (Supabase.mkCond "location" "ilike" q)].
Proof.
  intros Hterm q. unfold Supabase.orConditions.
  assert (Hq : JSString.includes "," q = false).
  { unfold q. rewrite !includes_app, Hterm. reflexivity. }
  replace ("title.ilike." +:+ q +:+ ",location.ilike." +:+ q)
    with (("title.ilike." +:+ q) +:+ String "," ("location.ilike." +:+ q))
    by (rewrite string_app_assoc; reflexivity).
  rewrite split_app by (rewrite includes_app, Hq; reflexivity).
  rewrite split_without by (rewrite includes_app, Hq; reflexivity).
  cbn [map].
  change ("title.ilike." +:+ q) with ("title" +:+ ".ilike." +:+ q).
  change ("location.ilike." +:+ q) with ("location" +:+ ".ilike." +:+ q).
  rewrite (parseCondition_ilike "title" q eq_refl).
  rewrite (parseCondition_ilike "location" q eq_refl).
  reflexivity.
Qed.

Lemma orFilters_composeQuery (tza : Z) (f : Explore.FilterKey) (s : string) (now : Z) :
  Supabase.orFilters (Explore.composeQuery tza f s now)
  = (let search := JSString.trim s in
     if JSString.truthy search then
       let q := "%" +:+ search +:+ "%" in
       ["title.ilike." +:+ q +:+ ",location.ilike." +:+ q]
     else []).
Proof.
  rewrite composeQuery_shape. unfold Supabase.orFilters.
  cbn [Supabase.q_filters omap list_omap].
  rewrite !omap_app.
  assert (Ht : omap (fun f0 => match f0 with Supabase.FOr raw => Some raw | _ => None end)
                    (Explore.timeFilters tza f now) = []).
  { unfold Explore.timeFilters. destruct (Explore.buildTimeRange tza now f); reflexivity. }
  assert (Hc : omap (fun f0 => match f0 with Supabase.FOr raw => Some raw | _ => None end)
                    (Explore.categoryFilters f) = []).
  { unfold Explore.categoryFilters. destruct (Explore.isCategory f); reflexivity. }
  rewrite Ht, Hc. unfold Explore.textFilters.
  destruct (JSString.truthy (JSString.trim s)); reflexivity.
Qed.

(** The text predicate of the composed query: none when the trimmed search
    text is empty; otherwise one [.or] filter which, for a term without
    the separator of the [.or] syntax, is the two [ilike] conditions on
    [title] and [location] around the trimmed term. *)
Lemma composeQuery_text_predicate (tza : Z) (f : Explore.FilterKey) (s : string) (now : Z) :
  let q := Explore.composeQuery tza f s now in
  let term := JSString.trim s in
  let pat := "%" +:+ term +:+ "%" in
  (term = EmptyString -> Supabase.orFilters q = [])
  /\ (term <> EmptyString ->
      Supabase.orFilters q = ["title.ilike." +:+ pat +:+ ",location.ilike." +:+ pat])
  /\ (term <> EmptyString -> JSString.includes "," term = false ->
      flat_map Supabase.orConditions (Supabase.orFilters q)
      = [Some (Supabase.mkCond "title" "ilike" pat);
         Some (Supabase.mkCond "location" "ilike" pat)]).
Proof.
  intros q term pat. unfold q. rewrite orFilters_composeQuery. fold term.
  cbn zeta. fold pat.
  split; [| split].
  - intros ->. reflexivity.
  - intros Hne. destruct term; [congruence | reflexivity].
  - intros Hne Hsep. destruct term as [| c t] eqn:E; [congruence |].
    cbn [JSString.truthy flat_map]. rewrite app_nil_r.
    apply (orConditions_two (String c t) Hsep).
Qed.

Lemma composeQuery_text_predicate_witness :
  Supabase.orFilters (Explore.composeQuery 0 Explore.all "   " 0) = []
  /\ Supabase.orFilters (Explore.composeQuery 0 Explore.all " Hall " 0)
     = ["title.ilike.%Hall%,location.ilike.%Hall%"]
  /\ flat_map Supabase.orConditions
       (Supabase.orFilters (Explore.composeQuery 0 Explore.all " Hall " 0))
     = [Some (Supabase.mkCond "title" "ilike" "%Hall%");
        Some (Supabase.mkCond "location" "ilike" "%Hall%")].
Proof.
  pose proof (composeQuery_text_predicate 0 Explore.all "   " 0) as (H1 & _ & _).
  pose proof (composeQuery_text_predicate 0 Explore.all " Hall " 0) as (_ & H2 & H3).
  split; [apply H1; reflexivity |].
  split; [apply H2; discriminate | apply H3; [discriminate | reflexivity]].
Defined.

(** C4. A search text that contains the comma, the separator of the
    [.or] syntax, is spliced into the filter text as it is: for ["a,b"]
    the text handed to [.or] splits into four conditions, two of which are
    no conditions at all, instead of the two [ilike] predicates around
    the term; the store rejects the request whatever the rows are. *)
Theorem composeQuery_text_predicate_separator
    (tza : Z) (f : Explore.FilterKey) (now : Z) (rows : list Explore.EventRow) :
  let q := Explore.composeQuery tza f "a,b" now in
  Supabase.orFilters q = ["title.ilike.%a,b%,location.ilike.%a,b%"]
  /\ flat_map Supabase.orConditions (Supabase.orFilters q)
     = [Some (Supabase.mkCond "title" "ilike" "%a"); None;
        Some (Supabase.mkCond "location" "ilike" "%a"); None]
  /\ flat_map Supabase.orConditions (Supabase.orFilters q)
     <> [Some (Supabase.mkCond "title" "ilike" "%a,b%");
         Some (Supabase.mkCond "location" "ilike" "%a,b%")]
  /\ Supabase.data (Supabase.execute rows q) = None.
Proof.
  intros q. unfold q. rewrite orFilters_composeQuery.
  split; [reflexivity |]. split; [reflexivity |]. split; [discriminate |].
  unfold Supabase.execute. rewrite composeQuery_shape. cbn [Supabase.q_filters].
  cbn [forallb]. rewrite !forallb_app.
  replace (forallb Supabase.filterValid (Explore.textFilters "a,b")) with false
    by reflexivity.
  rewrite !andb_false_r. reflexivity.
Qed.

(** ** Sorting *)

Section SortFacts.
Context {A : Type} (le : A -> A -> bool).

Let R : relation A := fun a b => le a b = true.

Lemma insertBy_Permutation (x : A) (l : list A) :
  JSArray.insertBy le x l ≡ₚ x :: l.
Proof.
  induction l as [| y l IH]; simpl; [reflexivity |].
  destruct (le x y); [reflexivity |].
  rewrite IH. apply Permutation_swap.
Qed.

Lemma sortBy_Permutation (l : list A) : JSArray.sortBy le l ≡ₚ l.
Proof.
  induction l as [| x l IH]; simpl; [reflexivity |].
  rewrite insertBy_Permutation. now rewrite IH.
Qed.

Lemma sortBy_length (l : list A) : length (JSArray.sortBy le l) = length l.
Proof. apply Permutation_length, sortBy_Permutation. Qed.

Lemma elem_of_sortBy (x : A) (l : list A) : x ∈ JSArray.sortBy le l <-> x ∈ l.
Proof. now rewrite sortBy_Permutation. Qed.

Hypothesis le_total : forall a b, le a b = false -> le b a = true.

Lemma insertBy_HdRel (x y : A) (l : list A) :
  R y x -> HdRel R y l -> HdRel R y (JSArray.insertBy le x l).
Proof.
  intros Hyx Hl. destruct l as [| z l]; simpl; [now constructor |].
  destruct (le x z); constructor; [exact Hyx |].
  now inversion Hl.
Qed.

Lemma insertBy_Sorted (x : A) (l : list A) :
  Sorted R l -> Sorted R (JSArray.insertBy le x l).
Proof.
  induction l as [| y l IH]; intros Hs; simpl.
  - repeat constructor.
  - destruct (le x y) eqn:E.
    + constructor; [exact Hs | constructor; exact E].
    + inversion Hs as [| ? ? Hs' Hhd]; subst.
      constructor; [now apply IH |].
      apply insertBy_HdRel; [now apply le_total | exact Hhd].
Qed.

Lemma sortBy_Sorted (l : list A) : Sorted R (JSArray.sortBy le l).
Proof.
  induction l as [| x l IH]; simpl; [constructor |].
  now apply insertBy_Sorted.
Qed.

Hypothesis le_trans : forall a b c, le a b = true -> le b c = true -> le a c = true.

Lemma sortBy_StronglySorted (l : list A) : StronglySorted R (JSArray.sortBy le l).
Proof.
  apply Sorted_StronglySorted; [| apply sortBy_Sorted].
  intros a b c. unfold R. apply le_trans.
Qed.
End SortFacts.

Lemma keyLe_total (a b : option Z) :
  Supabase.keyLe a b = false -> Supabase.keyLe b a = true.
Proof. destruct a, b; simpl; try congruence. intros H. lia. Qed.

Lemma keyLe_trans (a b c : option Z) :
  Supabase.keyLe a b = true -> Supabase.keyLe b c = true -> Supabase.keyLe a c = true.
Proof. destruct a, b, c; simpl; try congruence. intros H1 H2. lia. Qed.

Lemma StronglySorted_weaken {A : Type} (R R' : relation A) (l : list A) :
  (forall a b, R a b -> R' a b) -> StronglySorted R l -> StronglySorted R' l.
Proof.
  intros HR Hs. induction Hs as [| x l Hs IH Hx]; constructor; [exact IH |].
  eapply Forall_impl; [exact Hx | intros y; apply HR].
Qed.

Lemma StronglySorted_take {A : Type} (R : relation A) (n : nat) (l : list A) :
  StronglySorted R l -> StronglySorted R (take n l).
Proof.
  intros H. rewrite <- (take_drop n l) in H.
  now apply StronglySorted_app_1_l in H.
Qed.

(** ** Status restriction and ordering of the event query *)

Lemma keeps_status (fs : list Supabase.Filter) (r : Explore.EventRow) :
  Supabase.keeps (Supabase.FIn "status" ["approved"; "pending"]%string :: fs) r = true ->
  Explore.statusShown r = true.
Proof.
  unfold Supabase.keeps. cbn [forallb]. intros H.
  apply andb_true_iff in H as [H _]. revert H.
  unfold Explore.statusShown. cbn.
  destruct (Explore.status r) as [st |]; [| congruence].
  now rewrite orb_false_r.
Qed.

Lemma orderRows_start_time (l : list Explore.EventRow) :
  Supabase.orderRows (Some ("start_time"%string, true)) l
  = JSArray.sortBy (fun a b => Supabase.keyLe (Explore.start_time a) (Explore.start_time b)) l.
Proof. reflexivity. Qed.

Lemma orderRows_start_time_sorted (l : list Explore.EventRow) :
  StronglySorted Explore.startsNotAfter
    (Supabase.orderRows (Some ("start_time"%string, true)) l).
Proof.
  rewrite orderRows_start_time.
  apply (sortBy_StronglySorted
           (fun a b => Supabase.keyLe (Explore.start_time a) (Explore.start_time b))).
  - intros a b. apply keyLe_total.
  - intros a b c. apply keyLe_trans.
Qed.

Lemma keeps_default (now : Z) (r : Explore.EventRow) :
  Supabase.keeps [Supabase.FIn "status" ["approved"; "pending"]%string;
                  Supabase.FGte "start_time" now] r
  = Explore.statusShown r && Explore.startsFrom now r.
Proof.
  unfold Supabase.keeps, Explore.statusShown, Explore.startsFrom. cbn.
  destruct (Explore.status r) as [st |], (Explore.start_time r) as [t |];
    rewrite ?orb_false_r, ?andb_true_r; reflexivity.
Qed.

(** C5. Whatever the filter state, the composed query restricts [status]
    to approved and pending and orders by [start_time] ascending; when the
    store answers it, every returned row has one of the two statuses and
    the rows stand in ascending order of start time. The query of the
    default state (filter all, empty search) is always answered, with
    exactly the approved and pending rows that start at or after the
    current time, in ascending order of start time. *)
Theorem composeQuery_status_and_order
    (tza : Z) (f : Explore.FilterKey) (s : string) (now : Z)
    (rows : list Explore.EventRow) :
  let q := Explore.composeQuery tza f s now in
  let q0 := Explore.composeQuery tza Explore.all EmptyString now in
  (Supabase.FIn "status" ["approved"; "pending"]%string ∈ Supabase.q_filters q
   /\ Supabase.q_order q = Some ("start_time"%string, true))
  /\ match Supabase.data (Supabase.execute rows q) with
     | Some l =>
         Forall (fun r => Explore.statusShown r = true /\ r ∈ rows) l
         /\ StronglySorted Explore.startsNotAfter l
     | None => Supabase.error (Supabase.execute rows q) <> None
     end
  /\ (exists l : list Explore.EventRow,
        Supabase.execute rows q0 = Supabase.mkResponse (Some l) None
        /\ l ≡ₚ filter (fun r => Explore.statusShown r && Explore.startsFrom now r = true) rows
        /\ StronglySorted Explore.startsNotAfter l).
Proof.
  intros q q0. split; [| split].
  - unfold q. rewrite composeQuery_shape. cbn [Supabase.q_filters Supabase.q_order].
    split; [apply list_elem_of_here | reflexivity].
  - unfold q, Supabase.execute. rewrite composeQuery_shape.
    cbn [Supabase.q_filters Supabase.q_order Supabase.q_limit].
    match goal with |- context [if ?c then _ else _] => destruct c end;
      cbn [Supabase.data Supabase.error Supabase.limitRows]; [| discriminate].
    split; [| apply orderRows_start_time_sorted].
    apply Forall_forall. intros r Hr.
    rewrite orderRows_start_time, elem_of_sortBy in Hr.
    apply list_elem_of_filter in Hr as [Hk Hin].
    split; [now apply keeps_status in Hk | exact Hin].
  - exists (JSArray.sortBy
              (fun a b => Supabase.keyLe (Explore.start_time a) (Explore.start_time b))
              (filter (fun r =>
                         Supabase.keeps
                           [Supabase.FIn "status" ["approved"; "pending"]%string;
                            Supabase.FGte "start_time" now] r = true) rows)).
    split; [reflexivity |].
    split; [| apply orderRows_start_time_sorted].
    rewrite sortBy_Permutation.
    erewrite list_filter_iff; [reflexivity |].
    intros r. cbn beta.
    now rewrite keeps_default.
Qed.

(** ** The trending fallback aggregation *)

Lemma truthy_false (k : string) : JSString.truthy k = false <-> k = EmptyString.
Proof. destruct k; simpl; split; congruence. Qed.

Lemma registrationsFor_cons (k : string) (r : option HomeUser.Registration)
    (regs : list (option HomeUser.Registration)) :
  HomeUser.registrationsFor k (r :: regs)
  = (if HomeUser.registeredFor k r then 1 else 0) + HomeUser.registrationsFor k regs.
Proof.
  unfold HomeUser.registrationsFor. rewrite filter_cons.
  destruct (HomeUser.registeredFor k r) eqn:E.
  - rewrite decide_True by reflexivity. simpl length. lia.
  - rewrite decide_False by congruence. lia.
Qed.

Lemma countStep_lookup (m : gmap string Z) (r : option HomeUser.Registration) (k : string) :
  HomeUser.orZero (HomeUser.countStep m r !! k)
  = HomeUser.orZero (m !! k)
    + (if JSString.truthy k && HomeUser.registeredFor k r then 1 else 0).
Proof.
  destruct r as [[[e |]] |]; simpl; rewrite ?andb_false_r; try lia.
  destruct (JSString.truthy e) eqn:Te.
  - destruct (String.eqb_spec e k) as [-> | Hne].
    + rewrite lookup_insert_eq, Te. simpl. lia.
    + rewrite lookup_insert_ne by exact Hne. rewrite andb_false_r. lia.
  - apply truthy_false in Te as ->.
    destruct k; simpl; lia.
Qed.

Lemma foldl_countStep_lookup (regs : list (option HomeUser.Registration))
    (m : gmap string Z) (k : string) :
  HomeUser.orZero (foldl HomeUser.countStep m regs !! k)
  = HomeUser.orZero (m !! k)
    + (if JSString.truthy k then HomeUser.registrationsFor k regs else 0).
Proof.
  revert m. induction regs as [| r regs IH]; intros m.
  - simpl. unfold HomeUser.registrationsFor. simpl. destruct (JSString.truthy k); lia.
  - simpl foldl. rewrite IH, countStep_lookup, registrationsFor_cons.
    destruct (JSString.truthy k), (HomeUser.registeredFor k r); simpl; lia.
Qed.

(** The count the fallback attaches to an event id. *)
Lemma countRegistrations_lookup (regs : list (option HomeUser.Registration)) (k : string) :
  HomeUser.orZero (HomeUser.countRegistrations regs !! k)
  = (if JSString.truthy k then HomeUser.registrationsFor k regs else 0).
Proof.
  unfold HomeUser.countRegistrations. rewrite foldl_countStep_lookup.
  rewrite lookup_empty. reflexivity.
Qed.

Lemma registrationsFor_filter (P : option HomeUser.Registration -> bool) (k : string)
    (regs : list (option HomeUser.Registration)) :
  (forall r, HomeUser.registeredFor k r = true -> P r = true) ->
  HomeUser.registrationsFor k (filter (fun r => P r = true) regs)
  = HomeUser.registrationsFor k regs.
Proof.
  intros HP. unfold HomeUser.registrationsFor. f_equal. f_equal.
  rewrite list_filter_filter. apply list_filter_iff.
  intros r. split; [tauto | auto].
Qed.

Lemma byCountDesc_total (a b : HomeUser.EventItem) :
  (HomeUser.byCountDesc a b <=? 0) = false -> (HomeUser.byCountDesc b a <=? 0) = true.
Proof. unfold HomeUser.byCountDesc. lia. Qed.

Lemma byCountDesc_trans (a b c : HomeUser.EventItem) :
  (HomeUser.byCountDesc a b <=? 0) = true -> (HomeUser.byCountDesc b c <=? 0) = true ->
  (HomeUser.byCountDesc a c <=? 0) = true.
Proof. unfold HomeUser.byCountDesc. lia. Qed.

Lemma sort_byCountDesc_sorted (l : list HomeUser.EventItem) :
  StronglySorted HomeUser.ranksNotBelow (JSArray.sort HomeUser.byCountDesc l).
Proof.
  pose proof (sortBy_StronglySorted (fun a b => HomeUser.byCountDesc a b <=? 0)
                byCountDesc_total byCountDesc_trans l) as H.
  unfold JSArray.sort. eapply StronglySorted_weaken; [| exact H].
  intros a b. unfold HomeUser.ranksNotBelow, HomeUser.byCountDesc. cbn beta. lia.
Qed.

Lemma enrich_count (tl : Z -> string) (regs : list (option HomeUser.Registration))
    (ev : HomeUser.EventItem) :
  HomeUser.registration_count (HomeUser.enrich tl (HomeUser.countRegistrations regs) ev)
  = Some (if JSString.truthy (HomeUser.id ev)
          then HomeUser.registrationsFor (HomeUser.id ev) regs else 0).
Proof. cbn [HomeUser.enrich HomeUser.registration_count]. now rewrite countRegistrations_lookup. Qed.

Lemma enrich_same_counts (tl : Z -> string) (c1 c2 : gmap string Z)
    (events : list HomeUser.EventItem) :
  (forall ev, ev ∈ events ->
     HomeUser.orZero (c1 !! HomeUser.id ev) = HomeUser.orZero (c2 !! HomeUser.id ev)) ->
  map (HomeUser.enrich tl c1) events = map (HomeUser.enrich tl c2) events.
Proof.
  intros H. apply map_ext_in. intros ev Hin.
  apply list_elem_of_In in Hin. unfold HomeUser.enrich. now rewrite (H ev Hin).
Qed.



(** ** Failures of the background fetches *)

Lemma fetchEvents_outcome (tza : Z) (f : Explore.FilterKey) (s : string) (now : Z)
    (backend : Supabase.Query -> Supabase.Settled (Supabase.Response Explore.EventRow))
    (opts : option Explore.Opts) (st : Explore.State) :
  let r := Explore.fetchEvents tza f s now backend opts st in
  fst r = Async.Return tt
  /\ Explore.events (snd r)
     = match Supabase.settledRows (backend (Explore.composeQuery tza f s now)) with
       | Some rows => map Explore.normalizeRow rows
       | None => []
       end
  /\ Explore.loading (snd r) = (if Explore.bypass opts then Explore.loading st else false).
Proof.
  unfold Explore.fetchEvents, Supabase.settledRows.
  destruct (backend (Explore.composeQuery tza f s now)) as [[d [e |]] | e];
    destruct (Explore.bypass opts); cbn; repeat split; reflexivity.
Qed.

Lemma loadUpcoming_outcome (tl : Z -> string) (now : Z) (mounted : bool)
    (backend : Supabase.Query -> Supabase.Settled (Supabase.Response HomeUser.EventItem))
    (st : HomeUser.State) :
  let r := HomeUser.loadUpcoming tl now mounted backend st in
  fst r = Async.Return tt
  /\ HomeUser.upcomingEvents (snd r)
     = (if mounted then
          match Supabase.settledRows (backend (HomeUser.upcomingQuery now)) with
          | Some rows => map (HomeUser.normalizeUpcoming tl) rows
          | None => []
          end
        else HomeUser.upcomingEvents st)
  /\ HomeUser.trendingEvents (snd r) = HomeUser.trendingEvents st.
Proof.
  unfold HomeUser.loadUpcoming, Supabase.settledRows.
  destruct (backend (HomeUser.upcomingQuery now)) as [[d [e |]] | e];
    destruct mounted; cbn; repeat split; reflexivity.
Qed.

Lemma loadTrending_outcome (tl : Z -> string) (now : Z) (mounted : bool)
    (backend : Supabase.Query -> Supabase.Settled (Supabase.Response HomeUser.EventItem))
    (regsBackend : Supabase.Query ->
                   Supabase.Settled (Supabase.Response (option HomeUser.Registration)))
    (st : HomeUser.State) :
  let r := HomeUser.loadTrending tl now mounted backend regsBackend st in
  fst r = Async.Return tt
  /\ HomeUser.trendingEvents (snd r)
     = (if mounted then
          match backend HomeUser.viewQuery with
          | Supabase.Rejected _ => []
          | Supabase.Fulfilled res =>
              match Supabase.error res, Supabase.data res with
              | None, Some rows => map (HomeUser.normalizeTrending tl) rows
              | _, _ =>
                  match Supabase.dataOrEmpty (backend (HomeUser.fallbackEventsQuery now)),
                        Supabase.dataOrEmpty (regsBackend HomeUser.registrationsQuery) with
                  | Some events, Some regs => HomeUser.aggregate tl events regs
                  | _, _ => []
                  end
              end
          end
        else HomeUser.trendingEvents st)
  /\ HomeUser.upcomingEvents (snd r) = HomeUser.upcomingEvents st.
Proof.
  unfold HomeUser.loadTrending, Supabase.dataOrEmpty.
  destruct (backend HomeUser.viewQuery) as [[[d |] [e |]] | e];
    destruct (backend (HomeUser.fallbackEventsQuery now)) as [[d1 e1] | e1];
    destruct (regsBackend HomeUser.registrationsQuery) as [[d2 e2] | e2];
    destruct mounted; cbn; repeat split; reflexivity.
Qed.

Lemma aggregate_no_events (tl : Z -> string) (regs : list (option HomeUser.Registration)) :
  HomeUser.aggregate tl [] regs = [].
Proof. reflexivity. Qed.

Lemma aggregate_no_registrations (tl : Z -> string) (events : list HomeUser.EventItem) :
  Forall (fun o => HomeUser.registration_count o = Some 0) (HomeUser.aggregate tl events [])
  /\ length (HomeUser.aggregate tl events []) = Nat.min 8 (length events).
Proof.
  split.
  - unfold HomeUser.aggregate, JSArray.slice0, JSArray.sort.
    apply Forall_take, Forall_forall. intros o Ho.
    apply elem_of_sortBy in Ho. apply list_elem_of_In, in_map_iff in Ho as (ev & <- & _).
    reflexivity.
  - unfold HomeUser.aggregate, JSArray.slice0, JSArray.sort.
    now rewrite length_take, sortBy_length, length_map.
Qed.


(** ** The realtime refetch *)


(** ** Discussion sync *)

Lemma keeps_event_id (safeId : string) (r : EventDetails.RedditRow) :
  Supabase.keeps [Supabase.FEq "event_id" safeId] r = true ->
  EventDetails.event_id r = Some safeId.
Proof.
  unfold Supabase.keeps. cbn. destruct (EventDetails.event_id r) as [e |]; [| discriminate].
  rewrite andb_true_r. intros H. apply String.eqb_eq in H. now subst.
Qed.

Lemma notifyAll_discussions (safeId : string) (cs : list EventDetails.Change)
    (st : EventDetails.State) :
  fst (EventDetails.notifyAll safeId cs st) = Async.Return tt
  /\ EventDetails.discussions (snd (EventDetails.notifyAll safeId cs st))
     = rev (map EventDetails.new
              (filter (fun c => EventDetails.delivered safeId c = true) cs))
       ++ EventDetails.discussions st.
Proof.
  revert st. induction cs as [| c cs IH]; intros st; [split; reflexivity |].
  cbn [EventDetails.notifyAll]. unfold Async.bind, EventDetails.notify.
  rewrite filter_cons.
  destruct (EventDetails.delivered safeId c) eqn:E.
  - rewrite decide_True by reflexivity.
    cbn [EventDetails.onInsert EventDetails.updateDiscussions].
    destruct (IH (EventDetails.mkState
                    (EventDetails.new c :: EventDetails.discussions st)
                    (EventDetails.loadingDisc st)
                    (EventDetails.trace st ++
                       [EventDetails.SetDiscussions
                          (EventDetails.new c :: EventDetails.discussions st)])))
      as [H1 H2].
    split; [exact H1 |]. rewrite H2. cbn [map rev EventDetails.discussions].
    now rewrite <- app_assoc.
  - rewrite decide_False by congruence. cbn [Async.ret].
    destruct (IH st) as [H1 H2]. split; [exact H1 | exact H2].
Qed.

(** C9. For one event id, the initial fetch asks for the rows of
    [reddit_comments] with that [event_id], newest [created_utc] first,
    at most 200; answered by the store it yields at most 200 rows, all of
    that event, in that order, and they become the list. Afterwards every
    INSERT notification for that event id puts its row at the front of
    the list as it is, whether or not the row is already there and
    whatever its creation time; other notifications change nothing. *)
Theorem discussions_fetch_then_prepend
    (safeId : string) (rows : list EventDetails.RedditRow)
    (st : EventDetails.State) (c : EventDetails.Change) (cs : list EventDetails.Change) :
  let q := EventDetails.discussionsQuery safeId in
  q = Supabase.mkQuery "reddit_comments" "*" [Supabase.FEq "event_id" safeId]
        (Some ("created_utc"%string, false)) (Some 200%nat)
  /\ (exists l : list EventDetails.RedditRow,
        Supabase.execute rows q = Supabase.mkResponse (Some l) None
        /\ (length l <= 200)%nat
        /\ Forall (fun r => EventDetails.event_id r = Some safeId /\ r ∈ rows) l
        /\ StronglySorted EventDetails.createdNotBefore l
        /\ EventDetails.discussions
             (snd (EventDetails.fetchDiscussions safeId true
                     (fun q' => Supabase.Fulfilled (Supabase.execute rows q')) st)) = l)
  /\ EventDetails.discussions (snd (EventDetails.notify safeId c st))
     = (if EventDetails.delivered safeId c
        then EventDetails.new c :: EventDetails.discussions st
        else EventDetails.discussions st)
  /\ EventDetails.discussions (snd (EventDetails.notifyAll safeId cs st))
     = rev (map EventDetails.new
              (filter (fun c' => EventDetails.delivered safeId c' = true) cs))
       ++ EventDetails.discussions st.
Proof.
  intros q. split; [reflexivity |]. split; [| split].
  - set (le := fun a b : EventDetails.RedditRow =>
                 Supabase.keyLe (EventDetails.created_utc b) (EventDetails.created_utc a)).
    set (kept := filter (fun r => Supabase.keeps [Supabase.FEq "event_id" safeId] r = true) rows).
    exists (take 200 (JSArray.sortBy le kept)).
    split; [reflexivity |]. split; [| split; [| split]].
    + rewrite length_take. lia.
    + apply Forall_take, Forall_forall. intros r Hr.
      apply elem_of_sortBy in Hr. apply list_elem_of_filter in Hr as [Hk Hin].
      split; [now apply keeps_event_id | exact Hin].
    + apply StronglySorted_take.
      apply (sortBy_StronglySorted le).
      * intros a b. apply keyLe_total.
      * intros a b d. unfold le. intros H1 H2. exact (keyLe_trans _ _ _ H2 H1).
    + reflexivity.
  - unfold EventDetails.notify. destruct (EventDetails.delivered safeId c); reflexivity.
  - apply notifyAll_discussions.
Qed.

(** A notification for a row that is already in the list, older than the
    head: the list gets a second copy, in front. *)
Example notify_duplicate_row :
  let r1 := EventDetails.mkRedditRow "1" "t1_a" "campus" EventDetails.comment
              None None None None (Some 100) (Some "ev"%string) in
  let r2 := EventDetails.mkRedditRow "2" "t1_b" "campus" EventDetails.comment
              None None None None (Some 200) (Some "ev"%string) in
  let st := EventDetails.mkState [r2; r1] false [] in
  EventDetails.discussions
    (snd (EventDetails.notify "ev"
            (EventDetails.mkChange EventDetails.INSERT "reddit_comments" r1) st))
  = [r1; r2; r1].
Proof. reflexivity. Qed.

(** ** Row normalisation *)

Lemma lowerAscii_idem (c : ascii) :
  JSString.lowerAscii (JSString.lowerAscii c) = JSString.lowerAscii c.
Proof. destruct c as [[] [] [] [] [] [] [] []]; reflexivity. Qed.

Lemma toLowerCase_idem (s : string) :
  JSString.toLowerCase (JSString.toLowerCase s) = JSString.toLowerCase s.
Proof.
  induction s as [| c s IH]; simpl; [reflexivity |].
  now rewrite lowerAscii_idem, IH.
Qed.

Lemma normalizeTag_string (t : JSString.JSValue) :
  exists s : string, Explore.normalizeTag t = JSString.JString s.
Proof. destruct t; simpl; eauto. Qed.

Lemma normalizeTag_strings (l : list JSString.JSValue) :
  exists ss : list string,
    map Explore.normalizeTag l = map JSString.JString ss /\ length ss = length l.
Proof.
  induction l as [| t l (ss & IH & Hlen)]; [exists []; split; reflexivity |].
  destruct (normalizeTag_string t) as [s Hs].
  exists (s :: ss). simpl. rewrite Hs, IH, Hlen. split; reflexivity.
Qed.

(** C10. Normalising a row of the Explore list leaves every field but
    [tags] as it was, and makes [tags] an array of strings, one for each
    tag of the row: the empty array for a row without tags. The first tag
    read for the icon is then absent or a string. *)
Theorem normalizeRow_changes_only_tags (r : Explore.EventRow) :
  let r' := Explore.normalizeRow r in
  (Explore.id r' = Explore.id r
   /\ Explore.title r' = Explore.title r
   /\ Explore.description r' = Explore.description r
   /\ Explore.start_time r' = Explore.start_time r
   /\ Explore.end_time r' = Explore.end_time r
   /\ Explore.location r' = Explore.location r
   /\ Explore.status r' = Explore.status r
   /\ Explore.created_at r' = Explore.created_at r
   /\ Explore.extra r' = Explore.extra r)
  /\ (exists ss : list string,
        Explore.tags r' = Some (map JSString.JString ss)
        /\ length ss = length (default [] (Explore.tags r))
        /\ Explore.firstTag r' = option_map JSString.JString (head ss))
  /\ match Explore.tags r with
     | None => Explore.tags r' = Some []
     | Some l => Explore.tags r' = Some (map Explore.normalizeTag l)
     end.
Proof.
  intros r'. split; [repeat split |]. split.
  - destruct (normalizeTag_strings (default [] (Explore.tags r))) as (ss & Hss & Hlen).
    exists ss. unfold r', Explore.firstTag. cbn [Explore.normalizeRow Explore.tags].
    rewrite Hss. split; [reflexivity |]. split; [exact Hlen |].
    destruct ss; reflexivity.
  - destruct (Explore.tags r) eqn:E; unfold r'; cbn [Explore.normalizeRow Explore.tags];
      rewrite E; reflexivity.
Qed.

Lemma normalizeTag_lowercase (l : list JSString.JSValue) :
  forallb Explore.isLowercaseString l = true -> map Explore.normalizeTag l = l.
Proof.
  induction l as [| t l IH]; [reflexivity |].
  cbn [forallb map]. intros H. apply andb_true_iff in H as [Ht Hl].
  rewrite (IH Hl). f_equal.
  destruct t; simpl in Ht; try discriminate.
  apply String.eqb_eq in Ht. simpl. now rewrite Ht.
Qed.

Lemma normalizeTag_makes_lowercase (l : list JSString.JSValue) :
  forallb Explore.isString l = true ->
  forallb Explore.isLowercaseString (map Explore.normalizeTag l) = true.
Proof.
  induction l as [| t l IH]; [reflexivity |].
  cbn [forallb map]. intros H. apply andb_true_iff in H as [Ht Hl].
  rewrite (IH Hl), andb_true_r.
  destruct t; simpl in Ht; try discriminate.
  simpl. rewrite toLowerCase_idem. apply String.eqb_refl.
Qed.

Lemma normalizeRow_fixed (r : Explore.EventRow) :
  Explore.tagsNormalized r = true -> Explore.normalizeRow r = r.
Proof.
  destruct r as [i ti de st en lo tg sta cr ex]. unfold Explore.tagsNormalized.
  cbn [Explore.tags]. destruct tg as [l |]; [| discriminate].
  intros H. unfold Explore.normalizeRow. cbn. now rewrite normalizeTag_lowercase.
Qed.

Lemma normalizeRow_normalized (r : Explore.EventRow) :
  Explore.stringTags r = true -> Explore.tagsNormalized (Explore.normalizeRow r) = true.
Proof.
  unfold Explore.stringTags, Explore.tagsNormalized.
  cbn [Explore.normalizeRow Explore.tags].
  destruct (Explore.tags r) as [l |]; [| reflexivity].
  apply normalizeTag_makes_lowercase.
Qed.

(** C7. Normalising again changes nothing. A row of the Explore list
    whose tags are lowercase strings is returned as it is, and the
    normalised form of a row with string tags is such a row; the mapping
    of [loadUpcoming], applied to one of its own results (which carries
    the derived [time]), returns that result. *)
Theorem normalization_idempotent :
  (forall r : Explore.EventRow,
     Explore.tagsNormalized r = true -> Explore.normalizeRow r = r)
  /\ (forall r : Explore.EventRow,
        Explore.stringTags r = true ->
        Explore.tagsNormalized (Explore.normalizeRow r) = true
        /\ Explore.normalizeRow (Explore.normalizeRow r) = Explore.normalizeRow r)
  /\ (forall (tl : Z -> string) (ev : HomeUser.EventItem),
        HomeUser.normalizeUpcoming tl (HomeUser.normalizeUpcoming tl ev)
        = HomeUser.normalizeUpcoming tl ev).
Proof.
  split; [exact normalizeRow_fixed |]. split.
  - intros r Hr. pose proof (normalizeRow_normalized r Hr) as Hn.
    split; [exact Hn | now apply normalizeRow_fixed].
  - intros tl ev. unfold HomeUser.normalizeUpcoming.
    cbn [HomeUser.id HomeUser.title HomeUser.description HomeUser.start_time
         HomeUser.end_time HomeUser.location HomeUser.tags HomeUser.poster_url
         HomeUser.organizer HomeUser.status HomeUser.created_at].
    f_equal. unfold HomeUser.derivedTime. cbn [HomeUser.start_time HomeUser.time].
    destruct (HomeUser.start_time ev); reflexivity.
Qed.

Lemma normalization_idempotent_witness :
  let r := Explore.mkEventRow "e1" "Hack Night" None (Some 1715342400000) None
             (Some "Lab 2"%string)
             (Some [JSString.JString "Tech"; JSString.JString "workshops"])
             (Some "approved"%string) None ∅ in
  Explore.stringTags r = true
  /\ Explore.tags (Explore.normalizeRow r)
     = Some [JSString.JString "tech"; JSString.JString "workshops"]
  /\ Explore.tagsNormalized (Explore.normalizeRow r) = true
  /\ Explore.normalizeRow (Explore.normalizeRow r) = Explore.normalizeRow r.
Proof.
  intros r.
  assert (Hs : Explore.stringTags r = true) by reflexivity.
  split; [exact Hs |]. split; [reflexivity |].
  destruct normalization_idempotent as (Hfix & Himg & _).
  split; [exact (proj1 (Himg r Hs)) |].
  exact (Hfix (Explore.normalizeRow r) (proj1 (Himg r Hs))).
Defined.

(** ** The debounced fetch effect *)

Lemma filterName_inj (a b : Explore.FilterKey) :
  Explore.filterName a = Explore.filterName b -> a = b.
Proof. destruct a, b; simpl; intros H; try reflexivity; discriminate. Qed.

Lemma eqFilterState_spec (a b : Explore.FilterState) :
  Explore.eqFilterState a b = true <-> a = b.
Proof.
  destruct a as [fa sa], b as [fb sb]. unfold Explore.eqFilterState. cbn [fst snd].
  rewrite andb_true_iff, !String.eqb_eq. split.
  - intros [Hf Hs]. apply filterName_inj in Hf. now subst.
  - intros H. injection H as -> ->. split; reflexivity.
Qed.

Lemma eqFilterState_false (a b : Explore.FilterState) :
  a <> b -> Explore.eqFilterState a b = false.
Proof.
  intros H. destruct (Explore.eqFilterState a b) eqn:E; [| reflexivity].
  apply eqFilterState_spec in E. contradiction.
Qed.

Lemma search_nonempty (s : string) : s <> EmptyString -> String.eqb s "" = false.
Proof. destruct s; [congruence | reflexivity]. Qed.

Lemma advance_idle (T : Z) (sc : Explore.Screen) :
  Explore.timers sc = [] -> Explore.advance T sc = sc.
Proof.
  destruct sc as [cur ts n ref cl fs]. cbn [Explore.timers]. intros ->.
  unfold Explore.advance. cbn. now rewrite app_nil_r.
Qed.

Lemma advance_one (T : Z) (sc : Explore.Screen) (tm : Explore.Timer) :
  Explore.timers sc = [tm] ->
  Explore.advance T sc
  = if Explore.deadline tm <=? T then
      Explore.mkScreen (Explore.current sc) [] (Explore.nextId sc)
        (Explore.debounceRef sc) (Explore.hasCleanup sc)
        (Explore.fetches sc ++ [(Explore.deadline tm, Explore.captured tm)])
    else sc.
Proof.
  destruct sc as [cur ts n ref cl fs]. cbn [Explore.timers]. intros ->.
  unfold Explore.advance.
  cbn [Explore.timers Explore.current Explore.nextId Explore.debounceRef
       Explore.hasCleanup Explore.fetches].
  rewrite !filter_cons, !filter_nil. unfold Explore.dueBy.
  destruct (Explore.deadline tm <=? T) eqn:E; repeat case_decide; try congruence.
  - reflexivity.
  - cbn. now rewrite app_nil_r.
Qed.

Lemma clearTimeout_one (tm : Explore.Timer) :
  Explore.clearTimeout (Explore.timerId tm) [tm] = [].
Proof.
  unfold Explore.clearTimeout. rewrite filter_cons, filter_nil.
  rewrite decide_False; [reflexivity | intros H; now apply H].
Qed.

(** A change on a screen with nothing pending. *)
Lemma change_idle (t : Z) (fs : Explore.FilterState) (sc : Explore.Screen) :
  Explore.timers sc = [] -> fs <> Explore.current sc ->
  Explore.change t fs sc
  = if String.eqb (snd fs) "" then
      Explore.mkScreen fs [] (Explore.nextId sc)
        (if Explore.hasCleanup sc then None else Explore.debounceRef sc) false
        (Explore.fetches sc ++ [(t, fs)])
    else
      Explore.mkScreen fs [Explore.mkTimer (Explore.nextId sc) (t + 400) fs]
        (S (Explore.nextId sc)) (Some (Explore.nextId sc)) true (Explore.fetches sc).
Proof.
  intros Hts Hne. unfold Explore.change. rewrite (advance_idle t sc Hts).
  rewrite (eqFilterState_false _ _ Hne).
  destruct sc as [cur ts n ref cl fe]. cbn [Explore.timers] in Hts. subst ts.
  unfold Explore.runCleanup, Explore.runEffect.
  destruct cl, ref as [i |], (String.eqb (snd fs) ""); reflexivity.
Qed.

(** A change while a debounce is pending, before its timer is due. *)
Lemma change_pending (t : Z) (fs : Explore.FilterState) (sc : Explore.Screen)
    (tm : Explore.Timer) :
  Explore.timers sc = [tm] ->
  Explore.debounceRef sc = Some (Explore.timerId tm) ->
  Explore.hasCleanup sc = true ->
  t < Explore.deadline tm ->
  fs <> Explore.current sc ->
  Explore.change t fs sc
  = if String.eqb (snd fs) "" then
      Explore.mkScreen fs [] (Explore.nextId sc) None false
        (Explore.fetches sc ++ [(t, fs)])
    else
      Explore.mkScreen fs [Explore.mkTimer (Explore.nextId sc) (t + 400) fs]
        (S (Explore.nextId sc)) (Some (Explore.nextId sc)) true (Explore.fetches sc).
Proof.
  intros Hts Href Hcl Hlt Hne. unfold Explore.change.
  rewrite (advance_one t sc tm Hts).
  replace (Explore.deadline tm <=? t) with false by lia.
  rewrite (eqFilterState_false _ _ Hne).
  destruct sc as [cur ts n ref cl fe].
  cbn [Explore.timers Explore.debounceRef Explore.hasCleanup] in Hts, Href, Hcl.
  subst ts ref cl.
  unfold Explore.runCleanup, Explore.runEffect.
  cbn [Explore.hasCleanup Explore.debounceRef Explore.timers Explore.current
       Explore.nextId Explore.fetches].
  rewrite clearTimeout_one.
  destruct (String.eqb (snd fs) ""); reflexivity.
Qed.

(** C2. Whether a change is debounced is decided by the search text it
    leaves, not by what changed. Three changes, each less than 400 ms
    after the one before and each leaving a non-empty search text, lead
    to exactly one fetch: with the last filter state, 400 ms after the
    last change. A change that leaves the search text empty fetches at
    once; a change that leaves it non-empty fetches nothing at once and
    once 400 ms later, unless another change comes first. *)
Theorem debounce_by_search_text :
  (forall (sc : Explore.Screen) (t1 t2 t3 : Z) (fs1 fs2 fs3 : Explore.FilterState) (T : Z),
     Explore.timers sc = [] ->
     fs1 <> Explore.current sc -> fs2 <> fs1 -> fs3 <> fs2 ->
     snd fs1 <> EmptyString -> snd fs2 <> EmptyString -> snd fs3 <> EmptyString ->
     t1 <= t2 -> t2 <= t3 -> t2 - t1 < 400 -> t3 - t2 < 400 ->
     Explore.fetches
       (Explore.advance T (Explore.run [(t1, fs1); (t2, fs2); (t3, fs3)] sc))
     = Explore.fetches sc ++ (if t3 + 400 <=? T then [(t3 + 400, fs3)] else []))
  /\ (forall (sc : Explore.Screen) (t : Z) (fs : Explore.FilterState),
        Explore.timers sc = [] -> fs <> Explore.current sc -> snd fs = EmptyString ->
        Explore.fetches (Explore.change t fs sc) = Explore.fetches sc ++ [(t, fs)]
        /\ Explore.timers (Explore.change t fs sc) = [])
  /\ (forall (sc : Explore.Screen) (t : Z) (fs : Explore.FilterState) (T : Z),
        Explore.timers sc = [] -> fs <> Explore.current sc -> snd fs <> EmptyString ->
        Explore.fetches (Explore.change t fs sc) = Explore.fetches sc
        /\ Explore.fetches (Explore.advance T (Explore.change t fs sc))
           = Explore.fetches sc ++ (if t + 400 <=? T then [(t + 400, fs)] else [])).
Proof.
  split; [| split].
  - intros sc t1 t2 t3 fs1 fs2 fs3 T Hts H1 H2 H3 Hs1 Hs2 Hs3 Ht12 Ht23 Hd12 Hd23.
    cbn [Explore.run].
    rewrite (change_idle t1 fs1 sc Hts H1), (search_nonempty _ Hs1).
    rewrite (change_pending t2 fs2 _ (Explore.mkTimer (Explore.nextId sc) (t1 + 400) fs1))
      by (cbn; first [reflexivity | lia | assumption]).
    rewrite (search_nonempty _ Hs2).
    cbn [Explore.nextId Explore.fetches].
    rewrite (change_pending t3 fs3 _
               (Explore.mkTimer (S (Explore.nextId sc)) (t2 + 400) fs2))
      by (cbn; first [reflexivity | lia | assumption]).
    rewrite (search_nonempty _ Hs3).
    cbn [Explore.nextId Explore.fetches].
    erewrite advance_one by reflexivity.
    cbn [Explore.deadline Explore.captured].
    destruct (t3 + 400 <=? T); cbn [Explore.fetches]; [reflexivity | now rewrite app_nil_r].
  - intros sc t fs Hts Hne Hs.
    rewrite (change_idle t fs sc Hts Hne), Hs. split; reflexivity.
  - intros sc t fs T Hts Hne Hs.
    rewrite (change_idle t fs sc Hts Hne), (search_nonempty _ Hs).
    split; [reflexivity |].
    erewrite advance_one by reflexivity.
    cbn [Explore.deadline Explore.captured].
    destruct (t + 400 <=? T); cbn [Explore.fetches]; [reflexivity | now rewrite app_nil_r].
Qed.

Lemma debounce_by_search_text_witness :
  Explore.fetches
    (Explore.advance 1000
       (Explore.run [(0, (Explore.all, "h"%string));
                     (100, (Explore.all, "ha"%string));
                     (200, (Explore.sports, "ha"%string))]
          (Explore.idle (Explore.all, ""%string))))
  = [(600, (Explore.sports, "ha"%string))]
  /\ Explore.fetches
       (Explore.change 50 (Explore.today, ""%string) (Explore.idle (Explore.all, ""%string)))
     = [(50, (Explore.today, ""%string))]
  /\ Explore.fetches
       (Explore.advance 449
          (Explore.change 50 (Explore.all, "x"%string) (Explore.idle (Explore.all, ""%string))))
     = [].
Proof.
  destruct debounce_by_search_text as (H3 & Hempty & Htext).
  split; [| split].
  - apply (H3 (Explore.idle (Explore.all, ""%string)) 0 100 200
              (Explore.all, "h"%string) (Explore.all, "ha"%string)
              (Explore.sports, "ha"%string) 1000);
      first [reflexivity | lia | discriminate].
  - apply (Hempty (Explore.idle (Explore.all, ""%string)) 50 (Explore.today, ""%string));
      first [reflexivity | discriminate].
  - apply (Htext (Explore.idle (Explore.all, ""%string)) 50 (Explore.all, "x"%string) 449);
      first [reflexivity | discriminate].
Defined.

(** Three changes of the filter key within 200 ms, the search text empty
    throughout: three fetches, each at the time of its change, and none
    400 ms after the last. A change of the filter key while a search text
    is present is debounced; clearing the search text fetches at once. *)
Lemma debounce_three_filter_changes :
  let cs := [(0, (Explore.today, ""%string));
             (100, (Explore.tomorrow, ""%string));
             (200, (Explore.sports, ""%string))] in
  Explore.fetches (Explore.advance 1000 (Explore.run cs (Explore.idle (Explore.all, ""%string))))
  = cs
  /\ Explore.fetches (Explore.advance 1000 (Explore.run cs (Explore.idle (Explore.all, ""%string))))
     <> [(600, (Explore.sports, ""%string))]
  /\ Explore.fetches
       (Explore.advance 449
          (Explore.change 50 (Explore.sports, "abc"%string)
             (Explore.idle (Explore.all, "abc"%string)))) = []
  /\ Explore.fetches
       (Explore.change 50 (Explore.all, ""%string) (Explore.idle (Explore.all, "abc"%string)))
     = [(50, (Explore.all, ""%string))].
Proof. vm_compute. repeat split; discriminate. Qed.

(** The end-to-end example of the specification: three rows in the
    future, pending, approved and rejected; the default query returns the
    first two, the earlier one first. *)
Example composeQuery_default_three_rows :
  let row := fun i st t =>
    Explore.mkEventRow i "" None (Some t) None None None (Some st) None ∅ in
  let pending := row "p"%string "pending"%string 300 in
  let approved := row "a"%string "approved"%string 200 in
  let rejected := row "r"%string "rejected"%string 100 in
  Supabase.execute [pending; approved; rejected]
    (Explore.composeQuery 0 Explore.all "" 50)
  = Supabase.mkResponse (Some [approved; pending]) None.
Proof. reflexivity. Qed.

(** The mapping [loadTrending] applies to the rows of the view derives
    [category] from the tags and does not keep the tags: applied to its
    own result it loses the category. *)
Example normalizeTrending_twice :
  let ev := HomeUser.mkEventItem "e1" "Hack Night" None None None None None
              (Some ["tech"%string]) None None None None None (Some 3) None in
  let tl := fun _ : Z => ""%string in
  HomeUser.category (HomeUser.normalizeTrending tl ev) = Some "tech"%string
  /\ HomeUser.category (HomeUser.normalizeTrending tl (HomeUser.normalizeTrending tl ev))
     = None.
Proof. split; reflexivity. Qed.

(** On a Sunday (2024-05-12) [thisWeek] reaches to the end of the next
    Sunday and [nextWeek] starts the day after today; in a zone five and
    a half hours ahead of UTC the local midnight of 2024-05-10 is
    2024-05-09T18:30 in UTC. *)
Example buildTimeRange_sunday_and_offset :
  let iso := fun tza now f =>
    option_map (fun w => (JSDate.toISOString (Explore.start w),
                          JSDate.toISOString (Explore.end_ w)))
               (Explore.buildTimeRange tza now f) in
  JSDate.getDay 0 1715515200000 = 0
  /\ iso 0 1715515200000 Explore.thisWeek
     = Some ("2024-05-12T00:00:00.000Z"%string, "2024-05-19T23:59:59.999Z"%string)
  /\ iso 0 1715515200000 Explore.nextWeek
     = Some ("2024-05-13T00:00:00.000Z"%string, "2024-05-19T23:59:59.999Z"%string)
  /\ iso 19800000 1715322600000 Explore.today
     = Some ("2024-05-09T18:30:00.000Z"%string, "2024-05-10T18:29:59.999Z"%string).
Proof. vm_compute. repeat split. Qed.

(** A search through the execution model: the term is matched in title
    or location without regard to case; with a comma in it the request
    fails. *)
Example composeQuery_search_rows :
  let row := fun i ti lo =>
    Explore.mkEventRow i ti None (Some 100) None (Some lo) None
      (Some "approved"%string) None ∅ in
  let rows := [row "1"%string "Hall Party"%string "Gym"%string;
               row "2"%string "Chess"%string "Main hall"%string;
               row "3"%string "Quiz"%string "Library"%string] in
  Supabase.data (Supabase.execute rows (Explore.composeQuery 0 Explore.all " HALL " 50))
  = Some [row "1"%string "Hall Party"%string "Gym"%string;
          row "2"%string "Chess"%string "Main hall"%string]
  /\ Supabase.execute rows (Explore.composeQuery 0 Explore.all "Hall, Gym" 50)
     = Supabase.mkResponse None (Some "failed to parse logic tree"%string).
Proof. vm_compute. split; reflexivity. Qed.

(** * Further properties of the screens *)

(** ** Explore: icons, list view and query results *)

Lemma truthy_toLowerCase (s : string) :
  JSString.truthy (JSString.toLowerCase s) = JSString.truthy s.
Proof. destruct s; reflexivity. Qed.

Lemma getCategoryIcon_toLowerCase (s : string) :
  Explore.getCategoryIcon (Some (JSString.toLowerCase s))
  = Explore.getCategoryIcon (Some s).
Proof.
  unfold Explore.getCategoryIcon.
  now rewrite truthy_toLowerCase, toLowerCase_idem.
Qed.

Lemma firstTag_normalizeRow (r : Explore.EventRow) :
  Explore.firstTag (Explore.normalizeRow r)
  = option_map Explore.normalizeTag (Explore.firstTag r).
Proof.
  unfold Explore.firstTag. cbn [Explore.normalizeRow Explore.tags].
  destruct (Explore.tags r) as [[| t l] |]; reflexivity.
Qed.

(** X1. The icon of a card of the normalised list is always defined: it
    is the icon of the first tag read as a string (the default icon for a
    row without tags). For a row whose tags are strings, normalising the
    tags does not change the icon, since the icon lookup folds the case
    itself. *)
Theorem cardIcon_of_normalized_row (r : Explore.EventRow) :
  Explore.cardIcon (Explore.normalizeRow r)
  = Some (Explore.getCategoryIcon (option_map JSString.JS_String (Explore.firstTag r)))
  /\ (Explore.stringTags r = true ->
      Explore.cardIcon r = Explore.cardIcon (Explore.normalizeRow r)).
Proof.
  split.
  - unfold Explore.cardIcon. rewrite firstTag_normalizeRow.
    destruct (Explore.firstTag r) as [[| | [] | n | s] |];
      cbn [option_map Explore.normalizeTag JSString.JS_String]; try reflexivity.
    now rewrite getCategoryIcon_toLowerCase.
  - intros Hs. unfold Explore.cardIcon. rewrite firstTag_normalizeRow.
    unfold Explore.stringTags, Explore.firstTag in *.
    destruct (Explore.tags r) as [[| t l] |]; try reflexivity.
    cbn [forallb] in Hs. apply andb_true_iff in Hs as [Ht _].
    destruct t; try discriminate. cbn [option_map Explore.normalizeTag].
    now rewrite getCategoryIcon_toLowerCase.
Qed.

Lemma cardIcon_of_normalized_row_witness :
  let r := Explore.mkEventRow "e1" "Match" None None None None
             (Some [JSString.JString "Sports"]) None None ∅ in
  Explore.cardIcon r = Explore.cardIcon (Explore.normalizeRow r)
  /\ Explore.cardIcon r = Some "⚽"%string.
Proof.
  intros r. split; [| reflexivity].
  apply (proj2 (cardIcon_of_normalized_row r)). reflexivity.
Defined.

(** X2. One run of [fetchEvents] sends one request and calls [setEvents]
    exactly once, whatever the store does. Without [bypassLoading] it
    calls [setLoading(true)] and then [setLoading(false)], so the spinner
    is never left on: the section shows the message for no matches or
    the cards. With [bypassLoading] it makes no call of [setLoading]. *)
Theorem fetchEvents_one_request_one_update
    (tza : Z) (f : Explore.FilterKey) (s : string) (now : Z)
    (backend : Supabase.Query -> Supabase.Settled (Supabase.Response Explore.EventRow))
    (opts : option Explore.Opts) (st : Explore.State) :
  let r := Explore.fetchEvents tza f s now backend opts st in
  (exists new : list Explore.Effect,
     Explore.trace (snd r) = Explore.trace st ++ new
     /\ Explore.requests new = [Explore.composeQuery tza f s now]
     /\ Explore.eventsCalls new = [Explore.events (snd r)]
     /\ Explore.loadingCalls new = (if Explore.bypass opts then [] else [true; false]))
  /\ Explore.listView (snd r)
     = (if Explore.bypass opts && Explore.loading st then Explore.Spinner
        else match Explore.events (snd r) with
             | [] => Explore.NoMatches
             | rows => Explore.Cards rows
             end).
Proof.
  unfold Explore.fetchEvents, Explore.listView.
  destruct (backend (Explore.composeQuery tza f s now)) as [[d [e |]] | e];
    destruct (Explore.bypass opts); cbn; rewrite <- ?app_assoc;
    (split; [eexists; split; [reflexivity | repeat split] |]);
    destruct (Explore.loading st); reflexivity.
Qed.

Lemma keeps_app {Row : Type} `{Supabase.Table Row} (fs1 fs2 : list Supabase.Filter) (r : Row) :
  Supabase.keeps (fs1 ++ fs2) r = Supabase.keeps fs1 r && Supabase.keeps fs2 r.
Proof. unfold Supabase.keeps. apply forallb_app. Qed.

Lemma keeps_timeFilters (tza now : Z) (f : Explore.FilterKey) (r : Explore.EventRow) :
  Supabase.keeps (Explore.timeFilters tza f now) r = Explore.inWindow tza now f r.
Proof.
  unfold Explore.timeFilters, Explore.inWindow, Supabase.keeps.
  destruct (Explore.buildTimeRange tza now f) as [w |]; cbn;
    destruct (Explore.start_time r) as [t |]; cbn;
    rewrite ?andb_true_r; reflexivity.
Qed.

Lemma keeps_categoryFilters (f : Explore.FilterKey) (r : Explore.EventRow) :
  Supabase.keeps (Explore.categoryFilters f) r = Explore.hasCategory f r.
Proof.
  unfold Explore.categoryFilters, Explore.hasCategory, Explore.storedTags, Supabase.keeps.
  destruct (Explore.isCategory f); [| reflexivity]. cbn.
  destruct (Explore.tags r) as [l |]; cbn; rewrite ?andb_true_r; reflexivity.
Qed.

Lemma filters_valid_without_text (tza now : Z) (f : Explore.FilterKey) :
  forallb Supabase.filterValid (Explore.timeFilters tza f now ++ Explore.categoryFilters f)
  = true.
Proof.
  rewrite forallb_app. unfold Explore.timeFilters, Explore.categoryFilters.
  destruct (Explore.buildTimeRange tza now f), (Explore.isCategory f); reflexivity.
Qed.

Lemma keeps_composeQuery (tza : Z) (f : Explore.FilterKey) (s : string) (now : Z)
    (r : Explore.EventRow) :
  Supabase.keeps (Supabase.q_filters (Explore.composeQuery tza f s now)) r = true ->
  Explore.statusShown r = true /\ Explore.inWindow tza now f r = true
  /\ Explore.hasCategory f r = true.
Proof.
  rewrite composeQuery_shape. cbn [Supabase.q_filters]. intros H.
  split; [now apply keeps_status in H |].
  change (Supabase.FIn "status" ["approved"; "pending"]%string
            :: Explore.timeFilters tza f now ++ Explore.categoryFilters f
               ++ Explore.textFilters s)
    with ([Supabase.FIn "status" ["approved"; "pending"]%string]
            ++ Explore.timeFilters tza f now ++ Explore.categoryFilters f
               ++ Explore.textFilters s) in H.
  rewrite !keeps_app, keeps_timeFilters, keeps_categoryFilters in H.
  apply andb_true_iff in H as [_ H]. apply andb_true_iff in H as [Hw H].
  apply andb_true_iff in H as [Hc _]. split; assumption.
Qed.

Lemma day_between (tza d e t : Z) :
  JSDate.localMidnight tza d <= t <= JSDate.localDayEnd tza e ->
  d <= JSDate.Day (JSDate.LocalTime tza t) <= e.
Proof.
  unfold JSDate.localMidnight, JSDate.localDayEnd, JSDate.UTC, JSDate.MakeDate,
    JSDate.MakeTime, JSDate.Day, JSDate.LocalTime, JSDate.msPerDay, JSDate.msPerHour,
    JSDate.msPerMinute, JSDate.msPerSecond.
  intros H. Z.div_mod_to_equations. lia.
Qed.

(** The windows of the four time keys, by local day number. *)
Lemma buildTimeRange_days (tza now : Z) (f : Explore.FilterKey) :
  let d := JSDate.Day (JSDate.LocalTime tza now) in
  let wd := JSDate.getDay tza now in
  Explore.buildTimeRange tza now f
  = match f with
    | Explore.today =>
        Some (Explore.mkRange (JSDate.localMidnight tza d) (JSDate.localDayEnd tza d))
    | Explore.tomorrow =>
        Some (Explore.mkRange (JSDate.localMidnight tza (d + 1))
                              (JSDate.localDayEnd tza (d + 1)))
    | Explore.thisWeek =>
        Some (Explore.mkRange (JSDate.localMidnight tza d)
                              (JSDate.localDayEnd tza (d + (7 - wd))))
    | Explore.nextWeek =>
        Some (Explore.mkRange
                (JSDate.localMidnight tza (d + Explore.daysUntilNextMonday wd))
                (JSDate.localDayEnd tza (d + Explore.daysUntilNextMonday wd + 6)))
    | _ => None
    end.
Proof.
  intros d wd. destruct f; try reflexivity; cbn [Explore.buildTimeRange].
  - rewrite setDate_getDate, setHours_midnight.
    rewrite setHours_dayEnd, Day_localMidnight, Day_LocalTime_add. reflexivity.
  - unfold Explore.daysUntilSunday.
    rewrite setDate_getDate, setHours_midnight, setHours_dayEnd, Day_LocalTime_add.
    reflexivity.
  - rewrite setDate_getDate, setHours_midnight.
    rewrite Day_LocalTime_add, setDate_getDate, setHours_dayEnd.
    rewrite Day_LocalTime_add, Day_localMidnight. reflexivity.
Qed.


(** X4. With an empty search text the request always succeeds and returns
    exactly the stored rows that are approved or pending, start inside
    the time predicate of the key, and, for a category key, carry the
    key among their stored tags, compared as stored; the rows come in
    ascending order of start time. *)
Theorem filter_key_selects_rows
    (tza : Z) (f : Explore.FilterKey) (now : Z) (rows : list Explore.EventRow) :
  exists l : list Explore.EventRow,
    Supabase.execute rows (Explore.composeQuery tza f EmptyString now)
    = Supabase.mkResponse (Some l) None
    /\ l ≡ₚ filter (fun r => Explore.statusShown r && Explore.inWindow tza now f r
                              && Explore.hasCategory f r = true) rows
    /\ StronglySorted Explore.startsNotAfter l.
Proof.
  set (fs := Supabase.FIn "status" ["approved"; "pending"]%string
               :: Explore.timeFilters tza f now ++ Explore.categoryFilters f).
  exists (JSArray.sortBy
            (fun a b => Supabase.keyLe (Explore.start_time a) (Explore.start_time b))
            (filter (fun r => Supabase.keeps fs r = true) rows)).
  split; [| split].
  - unfold Supabase.execute. rewrite composeQuery_shape.
    cbn [Supabase.q_filters Supabase.q_order Supabase.q_limit Supabase.limitRows].
    change (Explore.textFilters "") with (@nil Supabase.Filter).
    rewrite app_nil_r. cbn [forallb]. rewrite filters_valid_without_text.
    reflexivity.
  - rewrite sortBy_Permutation.
    erewrite list_filter_iff; [reflexivity |].
    intros r. cbn beta. unfold fs.
    change (Supabase.FIn "status" ["approved"; "pending"]%string
              :: Explore.timeFilters tza f now ++ Explore.categoryFilters f)
      with ([Supabase.FIn "status" ["approved"; "pending"]%string]
              ++ Explore.timeFilters tza f now ++ Explore.categoryFilters f).
    rewrite !keeps_app, keeps_timeFilters, keeps_categoryFilters.
    replace (Supabase.keeps [Supabase.FIn "status" ["approved"; "pending"]%string] r)
      with (Explore.statusShown r); [now rewrite andb_assoc |].
    unfold Supabase.keeps, Explore.statusShown. cbn.
    destruct (Explore.status r); rewrite ?orb_false_r, ?andb_true_r; reflexivity.
  - apply orderRows_start_time_sorted.
Qed.

(** A row stored with the tag [Sports] is shown with the tag [sports]
    once fetched, but the [sports] key does not select it. *)
Example sports_key_compares_tags_as_stored :
  let r := Explore.mkEventRow "e1" "Match" None (Some 100) None None
             (Some [JSString.JString "Sports"]) (Some "approved"%string) None ∅ in
  Explore.tags (Explore.normalizeRow r) = Some [JSString.JString "sports"]
  /\ Supabase.execute [r] (Explore.composeQuery 0 Explore.all "" 50)
     = Supabase.mkResponse (Some [r]) None
  /\ Supabase.execute [r] (Explore.composeQuery 0 Explore.sports "" 50)
     = Supabase.mkResponse (Some []) None.
Proof. vm_compute. repeat split. Qed.

(** ** Explore: the debounce keeps the fetches in step with the filter *)

Lemma coherent_advance (T : Z) (sc : Explore.Screen) :
  Explore.coherent sc -> Explore.coherent (Explore.advance T sc).
Proof.
  intros H. unfold Explore.coherent in H.
  destruct (Explore.timers sc) as [| tm [| tm' ts]] eqn:E; [| | contradiction].
  - rewrite (advance_idle T sc E). unfold Explore.coherent. now rewrite E.
  - rewrite (advance_one T sc tm E). destruct H as (Hc & Hr & Hcl).
    destruct (Explore.deadline tm <=? T).
    + unfold Explore.coherent. cbn [Explore.timers Explore.fetches Explore.current].
      exists (Explore.deadline tm). rewrite last_snoc, Hc. reflexivity.
    + unfold Explore.coherent. rewrite E. auto.
Qed.

Lemma coherent_effect (t : Z) (fs : Explore.FilterState) (sc : Explore.Screen) :
  Explore.coherent sc ->
  Explore.coherent (Explore.runEffect t fs (Explore.runCleanup sc)).
Proof.
  intros H. unfold Explore.coherent in H.
  destruct sc as [cur ts n ref cl fe]. cbn [Explore.timers] in H.
  destruct ts as [| tm [| tm' ts]]; [| | contradiction].
  - unfold Explore.runCleanup, Explore.runEffect, Explore.coherent.
    destruct cl, ref as [i |], (String.eqb (snd fs) ""); cbn;
      first [ exists t; now rewrite last_snoc | repeat split ].
  - cbn [Explore.captured Explore.current Explore.debounceRef Explore.hasCleanup] in H.
    destruct H as (Hc & Hr & Hcl). subst ref cl.
    unfold Explore.runCleanup, Explore.runEffect, Explore.coherent.
    cbn [Explore.hasCleanup Explore.debounceRef Explore.timers Explore.current
         Explore.nextId Explore.fetches].
    rewrite clearTimeout_one.
    destruct (String.eqb (snd fs) ""); cbn;
      first [ exists t; now rewrite last_snoc | repeat split ].
Qed.

Lemma coherent_change (t : Z) (fs : Explore.FilterState) (sc : Explore.Screen) :
  Explore.coherent sc -> Explore.coherent (Explore.change t fs sc).
Proof.
  intros H. unfold Explore.change.
  pose proof (coherent_advance t sc H) as Ha.
  destruct (Explore.eqFilterState fs (Explore.current (Explore.advance t sc)));
    [exact Ha | now apply coherent_effect].
Qed.

Lemma coherent_run (cs : list (Z * Explore.FilterState)) (sc : Explore.Screen) :
  Explore.coherent sc -> Explore.coherent (Explore.run cs sc).
Proof.
  revert sc. induction cs as [| [t fs] cs IH]; intros sc H; [exact H |].
  cbn [Explore.run]. apply IH. now apply coherent_change.
Qed.

(** X5. From the first render on, whatever state changes follow and
    whenever the clock is read: at most one debounce timer is pending,
    and it was set for the current filter state; when none is pending,
    the most recent fetch was issued for the current filter state. So
    once the timers have fired the list was last asked for what the
    filter shows. *)
Theorem debounce_fetches_follow_filter
    (t0 : Z) (cs : list (Z * Explore.FilterState)) (T : Z) :
  let sc := Explore.advance T (Explore.run cs (Explore.mount t0)) in
  match Explore.timers sc with
  | [] => exists t : Z, last (Explore.fetches sc) = Some (t, Explore.current sc)
  | [tm] =>
      Explore.captured tm = Explore.current sc
      /\ Explore.debounceRef sc = Some (Explore.timerId tm)
      /\ Explore.hasCleanup sc = true
  | _ => False
  end.
Proof.
  intros sc.
  change (Explore.coherent sc). unfold sc.
  apply coherent_advance, coherent_run.
  unfold Explore.coherent. cbn. exists t0. reflexivity.
Qed.

(** ** HomeUser: the upcoming list, the loading flags, joining *)

Lemma StronglySorted_map {A B : Type} (R : relation B) (f : A -> B) (l : list A) :
  StronglySorted (fun a b => R (f a) (f b)) l -> StronglySorted R (map f l).
Proof.
  induction 1 as [| x l Hs IH Hx]; cbn [map]; constructor; [exact IH |].
  apply Forall_forall. intros y Hy.
  apply list_elem_of_In, in_map_iff in Hy as (a & <- & Ha).
  apply list_elem_of_In in Ha.
  exact (proj1 (Forall_forall _ _) Hx a Ha).
Qed.

Lemma keeps_upcoming (now : Z) (r : HomeUser.EventItem) :
  Supabase.keeps (Supabase.q_filters (HomeUser.upcomingQuery now)) r = true ->
  HomeUser.statusShown r = true
  /\ exists t : Z, HomeUser.start_time r = Some t /\ now <= t.
Proof.
  unfold Supabase.keeps, HomeUser.statusShown. cbn.
  destruct (HomeUser.start_time r) as [t |]; [| discriminate].
  destruct (HomeUser.status r) as [st |]; rewrite ?andb_false_r; [| discriminate].
  rewrite orb_false_r, andb_true_r. intros H. apply andb_true_iff in H as [Ht Hs].
  split; [exact Hs |]. exists t. split; [reflexivity | lia].
Qed.

(** X6. When the store answers the request of [loadUpcoming] from its
    rows, the upcoming list of a mounted screen has at most 12 entries,
    each made from a stored row that is approved or pending and starts
    at or after the current time, in ascending order of start time; each
    entry carries the rendering of its start time and the first tag as
    its category. *)
Theorem loadUpcoming_list_from_store
    (tl : Z -> string) (now : Z) (rows : list HomeUser.EventItem) (st : HomeUser.State) :
  let backend := fun q => Supabase.Fulfilled (Supabase.execute rows q) in
  let l := HomeUser.upcomingEvents (snd (HomeUser.loadUpcoming tl now true backend st)) in
  (length l <= 12)%nat
  /\ StronglySorted HomeUser.startsNotAfter l
  /\ Forall (fun o =>
               HomeUser.statusShown o = true
               /\ HomeUser.category o = HomeUser.firstCategory (HomeUser.tags o)
               /\ (exists t : Z,
                     HomeUser.start_time o = Some t /\ now <= t
                     /\ HomeUser.time o = Some (tl t))
               /\ (exists r : HomeUser.EventItem,
                     r ∈ rows /\ o = HomeUser.normalizeUpcoming tl r)) l.
Proof.
  intros backend l.
  set (le := fun a b : HomeUser.EventItem =>
               Supabase.keyLe (HomeUser.start_time a) (HomeUser.start_time b)).
  set (kept := filter (fun r => Supabase.keeps
                                  (Supabase.q_filters (HomeUser.upcomingQuery now)) r = true)
                      rows).
  assert (Hl : l = map (HomeUser.normalizeUpcoming tl) (take 12 (JSArray.sortBy le kept))).
  { unfold l. destruct (loadUpcoming_outcome tl now true backend st) as (_ & H & _).
    rewrite H. reflexivity. }
  assert (Hsorted : StronglySorted (fun a b => le a b = true) (take 12 (JSArray.sortBy le kept))).
  { apply StronglySorted_take. apply (sortBy_StronglySorted le).
    - intros a b. apply keyLe_total.
    - intros a b c. apply keyLe_trans. }
  rewrite Hl. split; [| split].
  - rewrite length_map, length_take. lia.
  - apply StronglySorted_map. exact Hsorted.
  - apply Forall_forall. intros o Ho.
    apply list_elem_of_In, in_map_iff in Ho as (r & <- & Hr).
    apply list_elem_of_In in Hr.
    assert (Hin : r ∈ kept).
    { apply (elem_of_sortBy le). exact (subseteq_take 12 _ r Hr). }
    apply list_elem_of_filter in Hin as [Hk Hrows].
    apply keeps_upcoming in Hk as (Hst & t & Ht & Hnow).
    split; [exact Hst |]. split; [reflexivity |]. split.
    + exists t. cbn [HomeUser.normalizeUpcoming HomeUser.start_time HomeUser.time].
      unfold HomeUser.derivedTime. rewrite Ht. repeat split. exact Hnow.
    + exists r. split; [exact Hrows | reflexivity].
Qed.

(** X7. Each load touches only its own loading flag and calls a list
    setter at most once. On a mounted screen it switches the flag on and
    off again, whatever the store does, and sets its list exactly once;
    after the screen is unmounted it calls no setter but the first
    [setLoading(true)]. *)
Theorem loads_set_state_only_while_mounted
    (tl : Z -> string) (now : Z) (mounted : bool)
    (backend : Supabase.Query -> Supabase.Settled (Supabase.Response HomeUser.EventItem))
    (regsBackend : Supabase.Query ->
                   Supabase.Settled (Supabase.Response (option HomeUser.Registration)))
    (st : HomeUser.State) :
  let rU := HomeUser.loadUpcoming tl now mounted backend st in
  let rT := HomeUser.loadTrending tl now mounted backend regsBackend st in
  (exists new : list HomeUser.Effect,
     HomeUser.trace (snd rU) = HomeUser.trace st ++ new
     /\ HomeUser.loadingCalls new = (if mounted then [true; false] else [true])
     /\ length (filter (fun e => HomeUser.isListCall e = true) new)
        = (if mounted then 1 else 0)%nat)
  /\ HomeUser.loadingUpcoming (snd rU) = negb mounted
  /\ HomeUser.loadingTrending (snd rU) = HomeUser.loadingTrending st
  /\ (exists new : list HomeUser.Effect,
        HomeUser.trace (snd rT) = HomeUser.trace st ++ new
        /\ HomeUser.loadingCalls new = (if mounted then [true; false] else [true])
        /\ length (filter (fun e => HomeUser.isListCall e = true) new)
           = (if mounted then 1 else 0)%nat)
  /\ HomeUser.loadingTrending (snd rT) = negb mounted
  /\ HomeUser.loadingUpcoming (snd rT) = HomeUser.loadingUpcoming st.
Proof.
  unfold HomeUser.loadUpcoming, HomeUser.loadTrending.
  destruct (backend (HomeUser.upcomingQuery now)) as [[du [eu |]] | eu];
    destruct (backend HomeUser.viewQuery) as [[[d |] [e |]] | e];
    destruct (backend (HomeUser.fallbackEventsQuery now)) as [[d1 e1] | e1];
    destruct (regsBackend HomeUser.registrationsQuery) as [[d2 e2] | e2];
    destruct mounted; cbn; rewrite <- ?app_assoc;
    (split; [eexists; split; [reflexivity | split; reflexivity] |]);
    (split; [reflexivity |]); (split; [reflexivity |]);
    (split; [eexists; split; [reflexivity | split; reflexivity] |]);
    split; reflexivity.
Qed.

(** X8. [handleJoin] never rejects and always attempts exactly one
    insert, of the row [{ event_id }]. When the insert fails (an error
    answer or a rejection) it sends no further request and both lists
    stay as they were. When it succeeds, each list is replaced only if
    its refresh request delivers rows; a refresh that fails leaves the
    list shown, and the trending refresh is not attempted when the
    upcoming refresh rejects. *)
Theorem handleJoin_refreshes_only_after_insert
    (tl : Z -> string) (now : Z)
    (insertBackend : HomeUser.Registration -> Supabase.Settled HomeUser.InsertResponse)
    (backend : Supabase.Query -> Supabase.Settled (Supabase.Response HomeUser.EventItem))
    (eventId : string) (st : HomeUser.JoinState) :
  let r := HomeUser.handleJoin tl now insertBackend backend eventId st in
  let row := HomeUser.mkRegistration (Some eventId) in
  let inserted :=
    match insertBackend row with
    | Supabase.Fulfilled ins =>
        match HomeUser.insertError ins with None => true | Some _ => false end
    | Supabase.Rejected _ => false
    end in
  let upcomingRows :=
    if inserted then Supabase.dataOrEmpty (backend (HomeUser.refreshQuery now)) else None in
  fst r = Async.Return tt
  /\ (exists new : list HomeUser.JoinEffect,
        HomeUser.joinTrace (snd r) = HomeUser.joinTrace st ++ new
        /\ HomeUser.inserts new = [row]
        /\ HomeUser.selects new
           = match upcomingRows with
             | Some _ => [HomeUser.refreshQuery now; HomeUser.viewQuery]
             | None => if inserted then [HomeUser.refreshQuery now] else []
             end)
  /\ HomeUser.joinUpcoming (snd r)
     = match upcomingRows, backend (HomeUser.refreshQuery now) with
       | Some _, Supabase.Fulfilled res =>
           match Supabase.data res with
           | Some events => map (HomeUser.refreshedUpcoming tl) events
           | None => HomeUser.joinUpcoming st
           end
       | _, _ => HomeUser.joinUpcoming st
       end
  /\ HomeUser.joinTrending (snd r)
     = match upcomingRows, backend HomeUser.viewQuery with
       | Some _, Supabase.Fulfilled res =>
           match Supabase.data res with
           | Some trending => map (HomeUser.refreshedTrending tl) trending
           | None => HomeUser.joinTrending st
           end
       | _, _ => HomeUser.joinTrending st
       end.
Proof.
  unfold HomeUser.handleJoin, Supabase.dataOrEmpty.
  destruct (insertBackend (HomeUser.mkRegistration (Some eventId))) as [[[ie |]] | ie];
    destruct (backend (HomeUser.refreshQuery now)) as [[[d1 |] e1] | e1];
    destruct (backend HomeUser.viewQuery) as [[[d2 |] e2] | e2];
    cbn; rewrite <- ?app_assoc;
    (split; [reflexivity |]);
    (split; [eexists; split; [reflexivity | split; reflexivity] |]);
    split; reflexivity.
Qed.


Lemma homeuser_known_category (c : string) :
  (if Supabase.memberOf c ["entertainment"; "arts"; "music"; "sports"; "academic"]%string
   then HomeUser.getCategoryIcon (Some c) <> HomeUser.getCategoryIcon None
        /\ HomeUser.getCategoryColor (Some c) <> HomeUser.getCategoryColor None
   else HomeUser.getCategoryIcon (Some c) = HomeUser.getCategoryIcon None
        /\ HomeUser.getCategoryColor (Some c) = HomeUser.getCategoryColor None).
Proof.
  unfold Supabase.memberOf, HomeUser.getCategoryIcon, HomeUser.getCategoryColor.
  cbn [existsb].
  destruct (String.eqb c "entertainment") eqn:E1; [split; discriminate |].
  destruct (String.eqb c "arts") eqn:E2; [split; discriminate |].
  destruct (String.eqb c "music") eqn:E3; [split; discriminate |].
  destruct (String.eqb c "sports") eqn:E4; [split; discriminate |].
  destruct (String.eqb c "academic") eqn:E5; [split; discriminate |].
  split; reflexivity.
Qed.

(** X10. On the home screen a category has its own icon exactly when it
    has its own colour: both for the five names the screen knows,
    written exactly so, and the default icon and colour for everything
    else. Of the category keys of the Explore screen only [sports] is
    among them, and a tag that Explore would fold to a known name, such
    as [Sports], is not. *)
Theorem home_icon_and_color_agree (c : string) :
  (if Supabase.memberOf c ["entertainment"; "arts"; "music"; "sports"; "academic"]%string
   then HomeUser.getCategoryIcon (Some c) <> HomeUser.getCategoryIcon None
        /\ HomeUser.getCategoryColor (Some c) <> HomeUser.getCategoryColor None
   else HomeUser.getCategoryIcon (Some c) = HomeUser.getCategoryIcon None
        /\ HomeUser.getCategoryColor (Some c) = HomeUser.getCategoryColor None)
  /\ filter (fun f => HomeUser.getCategoryColor (Some (Explore.filterName f))
                      <> HomeUser.getCategoryColor None)
            (filter (fun f => Explore.isCategory f = true) Explore.FILTERS)
     = [Explore.sports]
  /\ HomeUser.getCategoryIcon (Some "Sports"%string) = HomeUser.getCategoryIcon None
  /\ Explore.getCategoryIcon (Some "Sports"%string)
     = Explore.getCategoryIcon (Some "sports"%string).
Proof.
  split; [apply homeuser_known_category |].
  split; [vm_compute; reflexivity |]. split; reflexivity.
Qed.

(** ** EventDetails and App: the event id, the fetches, the view *)

(** X11. [normalizeId] yields null or a non-empty string: the string
    itself, or the string [id] of an object; an empty string, an object
    without a string [id], and null all give null. Its result is a fixed
    point: normalising it again returns it. *)
Theorem normalizeId_nonempty_or_null (raw : EventDetails.RawId) :
  match EventDetails.normalizeId raw with
  | Some s =>
      JSString.truthy s = true
      /\ (raw = EventDetails.RawString s
          \/ raw = EventDetails.RawObject (Some (JSString.JString s)))
      /\ EventDetails.normalizeId (EventDetails.RawString s) = Some s
  | None =>
      match raw with
      | EventDetails.RawString s => s = EmptyString
      | EventDetails.RawObject (Some (JSString.JString s)) => s = EmptyString
      | _ => True
      end
  end.
Proof.
  destruct raw as [| s | [[| | b | n | s] |]]; cbn; try exact I.
  - destruct s; cbn; [reflexivity | repeat split; auto].
  - destruct s; cbn; [reflexivity | repeat split; auto].
Qed.

Lemma handleAll_selected (hs : list App.Handler) (st : App.State) :
  App.selectedEventId (App.handleAll hs st) = App.selectedEventId st.
Proof.
  revert st. induction hs as [| h hs IH]; intros st; [reflexivity |].
  cbn [App.handleAll]. now rewrite IH.
Qed.

(** X12. Pressing an event card on the home screen opens the details
    page for that event's id (for the invalid-id view when the id is
    empty). No navigation handler clears the selection, not even the
    logout: opening the details page later without an id shows the
    event selected before. *)
Theorem pressed_event_is_the_one_shown
    (ev : HomeUser.EventItem) (hs : list App.Handler) (st : App.State) :
  let st1 := App.handleEventClick (App.pressed ev) st in
  let st2 := App.handleEventClick EventDetails.RawNull (App.handleAll hs st1) in
  App.currentPage st1 = App.eventDetails
  /\ App.detailsId st1
     = (if JSString.truthy (HomeUser.id ev) then Some (HomeUser.id ev) else None)
  /\ App.currentPage st2 = App.eventDetails
  /\ App.detailsId st2 = App.detailsId st1
  /\ App.selectedEventId (App.handleAll hs st) = App.selectedEventId st.
Proof.
  intros st1 st2. split; [reflexivity |]. split; [reflexivity |].
  split; [reflexivity |]. split; [| apply handleAll_selected].
  unfold st2, App.detailsId, App.handleEventClick.
  cbn [App.rawTruthy App.go App.selectedEventId].
  now rewrite handleAll_selected.
Qed.

(** X13. The two fetches of the details screen have no [catch]. When the
    store rejects the request the promise rejects with that reason, and
    the loading flag set at the start stays on: the screen keeps showing
    the spinner, and the event, the error message and the discussions
    are as before. When the store answers, the promise fulfils and the
    flag is off again on a mounted screen. *)
Theorem detail_fetches_reject_with_the_store
    (safeId : string) (mounted : bool)
    (backend : Supabase.Query -> Supabase.Settled EventDetails.Single)
    (discBackend : Supabase.Query ->
                   Supabase.Settled (Supabase.Response EventDetails.RedditRow))
    (st : EventDetails.EventState) (ds : EventDetails.State) :
  let rE := EventDetails.fetchEvent safeId mounted backend st in
  let rD := EventDetails.fetchDiscussions safeId mounted discBackend ds in
  match backend (EventDetails.eventQuery safeId) with
  | Supabase.Rejected reason =>
      fst rE = Async.Throw reason
      /\ EventDetails.loading (snd rE) = true
      /\ EventDetails.view (Some safeId) (snd rE) = EventDetails.LoadingView
      /\ EventDetails.event (snd rE) = EventDetails.event st
      /\ EventDetails.errorMsg (snd rE) = EventDetails.errorMsg st
  | Supabase.Fulfilled _ =>
      fst rE = Async.Return tt
      /\ EventDetails.loading (snd rE) = negb mounted
  end
  /\ match discBackend (EventDetails.discussionsQuery safeId) with
     | Supabase.Rejected reason =>
         fst rD = Async.Throw reason
         /\ EventDetails.loadingDisc (snd rD) = true
         /\ EventDetails.discussions (snd rD) = EventDetails.discussions ds
     | Supabase.Fulfilled _ =>
         fst rD = Async.Return tt
         /\ EventDetails.loadingDisc (snd rD) = negb mounted
     end.
Proof.
  unfold EventDetails.fetchEvent, EventDetails.fetchDiscussions, EventDetails.view.
  destruct (backend (EventDetails.eventQuery safeId)) as [[d [e |]] | e];
    destruct (discBackend (EventDetails.discussionsQuery safeId)) as [[dd [de |]] | de];
    destruct mounted; cbn; repeat split; reflexivity.
Qed.

(** X14. [fetchEvent] never clears the error message: it sets one when
    the store answers with an error and otherwise leaves it as it is. So
    on one screen instance, after a fetch that failed with a non-empty
    message, a later fetch that succeeds still ends on the error view
    instead of the event. *)
Theorem fetchEvent_error_message_stays
    (safeId : string) (mounted : bool)
    (backend : Supabase.Query -> Supabase.Settled EventDetails.Single)
    (st : EventDetails.EventState)
    (id2 : string) (message : string) (ev : EventDetails.DetailRow) :
  let r := EventDetails.fetchEvent safeId mounted backend st in
  let failed := fun _ : Supabase.Query =>
    Supabase.Fulfilled (EventDetails.mkSingle None (Some message)) in
  let found := fun _ : Supabase.Query =>
    Supabase.Fulfilled (EventDetails.mkSingle (Some ev) None) in
  let st1 := snd (EventDetails.fetchEvent safeId true failed st) in
  let st2 := snd (EventDetails.fetchEvent id2 true found st1) in
  EventDetails.errorMsg (snd r)
  = match backend (EventDetails.eventQuery safeId) with
    | Supabase.Fulfilled res =>
        match EventDetails.singleError res with
        | Some m => if mounted then Some m else EventDetails.errorMsg st
        | None => EventDetails.errorMsg st
        end
    | Supabase.Rejected _ => EventDetails.errorMsg st
    end
  /\ EventDetails.event st2 = Some ev
  /\ EventDetails.view (Some id2) st2
     = (if JSString.truthy message then EventDetails.ErrorView message
        else EventDetails.Main ev).
Proof.
  intros r failed found st1 st2. split; [| split].
  - unfold r, EventDetails.fetchEvent.
    destruct (backend (EventDetails.eventQuery safeId)) as [[d [e |]] | e];
      destruct mounted; reflexivity.
  - reflexivity.
  - unfold st2, st1, EventDetails.view. cbn.
    destruct (JSString.truthy message); reflexivity.
Qed.

(** X15. [openReddit] never rejects. It opens at most one link, never an
    empty one: the reddit address of the permalink when the row has a
    non-empty permalink, whatever its [url] is, and otherwise its
    non-empty [url]. With neither it shows the no-link alert and opens
    nothing; when opening fails it shows one alert. *)
Theorem openReddit_opens_one_nonempty_link
    (openURL : string -> Supabase.Settled unit)
    (payload : option EventDetails.Payload) (tr : list EventDetails.LinkEffect) :
  let r := EventDetails.openReddit openURL payload tr in
  let link :=
    match payload with
    | Some p =>
        match EventDetails.permalink p with
        | Some pl =>
            if JSString.truthy pl then Some ("https://www.reddit.com" +:+ pl)
            else EventDetails.url p
        | None => EventDetails.url p
        end
    | None => None
    end in
  fst r = Async.Return tt
  /\ exists new : list EventDetails.LinkEffect,
       snd r = tr ++ new
       /\ Forall (fun u => JSString.truthy u = true) (EventDetails.opened new)
       /\ EventDetails.opened new
          = match link with
            | Some u => if JSString.truthy u then [u] else []
            | None => []
            end
       /\ EventDetails.alerts new
          = match link with
            | Some u =>
                if JSString.truthy u then
                  match openURL u with
                  | Supabase.Fulfilled _ => []
                  | Supabase.Rejected _ => ["Open link failed"%string]
                  end
                else ["No link available for this reddit item."%string]
            | None => ["No link available for this reddit item."%string]
            end.
Proof.
  intros r link. unfold r, EventDetails.openReddit.
  change (EventDetails.linkOf payload) with link.
  destruct link as [u |].
  - destruct (JSString.truthy u) eqn:Tu.
    + unfold Async.tryCatch, Async.bind, EventDetails.linkEmit, Async.modify, Async.await.
      destruct (openURL u) as [[] | e]; cbn; (split; [reflexivity |]);
        rewrite <- ?app_assoc; eexists; (split; [reflexivity |]); cbn;
        (split; [repeat constructor; exact Tu | split; reflexivity]).
    + cbn. split; [reflexivity |]. eexists. split; [reflexivity |].
      cbn. split; [constructor | split; reflexivity].
  - cbn. split; [reflexivity |]. eexists. split; [reflexivity |].
    cbn. split; [constructor | split; reflexivity].
Qed.

(** ** LanguageChoice: the selection of interests *)

Lemma includes_elem_of (l : list string) (x : string) :
  LanguageChoice.includes l x = true <-> x ∈ l.
Proof.
  unfold LanguageChoice.includes. rewrite existsb_exists. split.
  - intros (y & Hy & He). apply String.eqb_eq in He. subst. now apply list_elem_of_In.
  - intros H. exists x. split; [now apply list_elem_of_In | apply String.eqb_refl].
Qed.

Lemma taps_snoc (x i : string) (ids : list string) :
  LanguageChoice.taps x (ids ++ [i])
  = (LanguageChoice.taps x ids + (if String.eqb i x then 1 else 0))%nat.
Proof.
  unfold LanguageChoice.taps. rewrite filter_app, length_app. f_equal.
  rewrite filter_cons, filter_nil.
  destruct (String.eqb_spec i x) as [-> | Hne].
  - now rewrite decide_True.
  - now rewrite decide_False.
Qed.

Lemma toggleInterest_step (i : string) (sel : list string) :
  NoDup sel ->
  NoDup (LanguageChoice.toggleInterest i sel)
  /\ forall x : string,
       LanguageChoice.includes (LanguageChoice.toggleInterest i sel) x
       = xorb (LanguageChoice.includes sel x) (String.eqb i x).
Proof.
  intros Hnd. unfold LanguageChoice.toggleInterest.
  destruct (LanguageChoice.includes sel i) eqn:Hi.
  - split; [now apply NoDup_filter |].
    intros x. destruct (String.eqb_spec i x) as [-> | Hne].
    + rewrite Hi. cbn. apply not_true_is_false. rewrite includes_elem_of.
      rewrite list_elem_of_filter. tauto.
    + rewrite xorb_false_r.
      destruct (LanguageChoice.includes sel x) eqn:Hx.
      * apply includes_elem_of. apply list_elem_of_filter.
        split; [congruence | now apply includes_elem_of].
      * apply not_true_is_false. rewrite includes_elem_of, list_elem_of_filter.
        intros [_ H]. apply includes_elem_of in H. congruence.
  - assert (Hni : i ∉ sel).
    { intros H. apply includes_elem_of in H. congruence. }
    split.
    + apply NoDup_app. split; [exact Hnd |]. split; [| apply NoDup_singleton].
      intros y Hy Hy'. apply list_elem_of_singleton in Hy'. now subst.
    + intros x. unfold LanguageChoice.includes in *. rewrite existsb_app. cbn.
      rewrite orb_false_r, (String.eqb_sym x i).
      destruct (String.eqb_spec i x) as [-> | Hne]; [| now rewrite orb_false_r, xorb_false_r].
      now rewrite Hi.
Qed.

(** X16. Starting from the empty selection, after any series of taps the
    selection holds no interest twice, and an interest is selected
    exactly when it was tapped an odd number of times. *)
Theorem interests_selected_by_parity (ids : list string) (x : string) :
  NoDup (LanguageChoice.tapAll ids)
  /\ LanguageChoice.includes (LanguageChoice.tapAll ids) x
     = Nat.odd (LanguageChoice.taps x ids).
Proof.
  revert x. induction ids as [| i ids IH] using rev_ind; intros x.
  - split; [apply NoDup_nil_2 | reflexivity].
  - unfold LanguageChoice.tapAll in *. rewrite foldl_app. cbn [foldl].
    destruct (toggleInterest_step i _ (proj1 (IH x))) as [Hnd Hinc].
    split; [exact Hnd |].
    rewrite Hinc, (proj2 (IH x)), taps_snoc.
    destruct (String.eqb i x).
    + rewrite Nat.add_1_r, Nat.odd_succ, <- Nat.negb_odd. now rewrite xorb_true_r.
    + now rewrite Nat.add_0_r, xorb_false_r.
Qed.

(** ** CreateEvent: the default end time *)

Lemma time_components (t : Z) :
  t = JSDate.MakeDate (JSDate.Day t)
        (JSDate.MakeTime (JSDate.HourFromTime t) (JSDate.MinFromTime t)
                         (JSDate.SecFromTime t) (JSDate.msFromTime t)).
Proof.
  unfold JSDate.MakeDate, JSDate.MakeTime, JSDate.Day, JSDate.HourFromTime,
    JSDate.MinFromTime, JSDate.SecFromTime, JSDate.msFromTime, JSDate.msPerDay,
    JSDate.msPerHour, JSDate.msPerMinute, JSDate.msPerSecond.
  Z.div_mod_to_equations. lia.
Qed.


Lemma addHoursISO_shift (tza iso hours : Z) :
  CreateEvent.addHoursISO tza iso hours = iso + hours * JSDate.msPerHour.
Proof.
  unfold CreateEvent.addHoursISO, JSDate.setHour, JSDate.getHours.
  cbn zeta. set (lt := JSDate.LocalTime tza iso).
  pose proof (time_components lt) as Hc.
  unfold JSDate.UTC, JSDate.MakeDate, JSDate.MakeTime in *.
  assert (Hlt : lt = iso + tza) by reflexivity.
  lia.
Qed.


(** ** From CreateEvent to Explore *)

Lemma returned_without_text
    (tza : Z) (f : Explore.FilterKey) (now : Z) (rows : list Explore.EventRow) :
  exists l : list Explore.EventRow,
    Supabase.execute rows (Explore.composeQuery tza f EmptyString now)
    = Supabase.mkResponse (Some l) None
    /\ forall r : Explore.EventRow,
         r ∈ l <->
         r ∈ rows
         /\ Explore.statusShown r && Explore.inWindow tza now f r
            && Explore.hasCategory f r = true.
Proof.
  set (fs := Supabase.FIn "status" ["approved"; "pending"]%string
               :: Explore.timeFilters tza f now ++ Explore.categoryFilters f).
  exists (JSArray.sortBy
            (fun a b => Supabase.keyLe (Explore.start_time a) (Explore.start_time b))
            (filter (fun r => Supabase.keeps fs r = true) rows)).
  split.
  - unfold Supabase.execute. rewrite composeQuery_shape.
    cbn [Supabase.q_filters Supabase.q_order Supabase.q_limit Supabase.limitRows].
    change (Explore.textFilters "") with (@nil Supabase.Filter).
    rewrite app_nil_r. cbn [forallb]. rewrite filters_valid_without_text.
    reflexivity.
  - intros r. rewrite elem_of_sortBy, list_elem_of_filter.
    assert (Hk : Supabase.keeps fs r
                 = Explore.statusShown r && Explore.inWindow tza now f r
                   && Explore.hasCategory f r).
    { unfold fs.
      change (Supabase.FIn "status" ["approved"; "pending"]%string
                :: Explore.timeFilters tza f now ++ Explore.categoryFilters f)
        with ([Supabase.FIn "status" ["approved"; "pending"]%string]
                ++ Explore.timeFilters tza f now ++ Explore.categoryFilters f).
      rewrite !keeps_app, keeps_timeFilters, keeps_categoryFilters.
      replace (Supabase.keeps [Supabase.FIn "status" ["approved"; "pending"]%string] r)
        with (Explore.statusShown r); [now rewrite andb_assoc |].
      unfold Supabase.keeps, Explore.statusShown. cbn.
      destruct (Explore.status r); rewrite ?orb_false_r, ?andb_true_r; reflexivity. }
    rewrite Hk. tauto.
Qed.

Lemma memberOf_elem_of (x : string) (l : list string) :
  Supabase.memberOf x l = true <-> x ∈ l.
Proof.
  unfold Supabase.memberOf. rewrite existsb_exists. split.
  - intros (y & Hy & He). apply String.eqb_eq in He. subst. now apply list_elem_of_In.
  - intros H. exists x. split; [now apply list_elem_of_In | apply String.eqb_refl].
Qed.

Lemma storedTags_storedRow (i : string) (created : Z) (p : CreateEvent.Payload) :
  Explore.storedTags (CreateEvent.storedRow i created p) = CreateEvent.p_tags p.
Proof.
  unfold Explore.storedTags, CreateEvent.storedRow. cbn.
  induction (CreateEvent.p_tags p) as [| t l IH]; [reflexivity |].
  cbn. now rewrite IH.
Qed.

(** X19. A pending event that was created with a start at or after the
    current time is among the rows Explore gets with the key [all] and an
    empty search. With a category key it is among them exactly when its
    tag, the category as typed and trimmed, is that key letter for
    letter. *)
Theorem created_event_is_listed
    (tza now : Z) (i : string) (created : Z) (p : CreateEvent.Payload)
    (rows : list Explore.EventRow) (f : Explore.FilterKey) :
  CreateEvent.p_status p = "pending"%string ->
  now <= CreateEvent.p_start_time p ->
  CreateEvent.storedRow i created p ∈ rows ->
  Explore.isCategory f = true ->
  let r := CreateEvent.storedRow i created p in
  (exists l : list Explore.EventRow,
     Supabase.execute rows (Explore.composeQuery tza Explore.all EmptyString now)
     = Supabase.mkResponse (Some l) None
     /\ r ∈ l)
  /\ (exists l : list Explore.EventRow,
        Supabase.execute rows (Explore.composeQuery tza f EmptyString now)
        = Supabase.mkResponse (Some l) None
        /\ (r ∈ l <-> Explore.filterName f ∈ CreateEvent.p_tags p)).
Proof.
  intros Hst Hnow Hin Hcat r.
  assert (Hshown : Explore.statusShown r = true).
  { unfold r, Explore.statusShown, CreateEvent.storedRow. cbn. now rewrite Hst. }
  assert (Hwin : forall g, Explore.buildTimeRange tza now g = None ->
                           Explore.inWindow tza now g r = true).
  { intros g Hg. unfold Explore.inWindow, r, CreateEvent.storedRow. cbn.
    rewrite Hg. lia. }
  split.
  - destruct (returned_without_text tza Explore.all now rows) as (l & Hl & Hmem).
    exists l. split; [exact Hl |]. apply Hmem. split; [exact Hin |].
    rewrite Hshown, (Hwin Explore.all eq_refl). reflexivity.
  - destruct (returned_without_text tza f now rows) as (l & Hl & Hmem).
    exists l. split; [exact Hl |]. rewrite Hmem.
    assert (Hnone : Explore.buildTimeRange tza now f = None).
    { destruct f; try reflexivity; discriminate. }
    rewrite Hshown, (Hwin f Hnone). cbn [andb].
    unfold Explore.hasCategory. rewrite Hcat. fold r.
    unfold r. rewrite storedTags_storedRow, memberOf_elem_of. tauto.
Qed.

Lemma created_event_is_listed_witness :
  let p := CreateEvent.mkPayload "Match" (Some "Finals"%string) 1000 7201000 "Gym"
             ["Sports"%string] "pending" None None in
  let r := CreateEvent.storedRow "e1" 10 p in
  (exists l : list Explore.EventRow,
     Supabase.execute [r] (Explore.composeQuery 0 Explore.all EmptyString 50)
     = Supabase.mkResponse (Some l) None
     /\ r ∈ l)
  /\ (exists l : list Explore.EventRow,
        Supabase.execute [r] (Explore.composeQuery 0 Explore.sports EmptyString 50)
        = Supabase.mkResponse (Some l) None
        /\ (r ∈ l <-> Explore.filterName Explore.sports ∈ CreateEvent.p_tags p)).
Proof.
  intros p r.
  apply (created_event_is_listed 0 50 "e1" 10 p [r] Explore.sports).
  - reflexivity.
  - cbn. lia.
  - apply list_elem_of_here.
  - reflexivity.
Defined.

(** ** Login, Signup and the auth helper *)

Lemma toLowerCase_app (a b : string) :
  JSString.toLowerCase (a +:+ b)
  = JSString.toLowerCase a +:+ JSString.toLowerCase b.
Proof.
  induction a as [| x a IH].
  - now rewrite !string_app_nil_l.
  - rewrite string_app_cons. simpl. now rewrite IH, string_app_cons.
Qed.

Lemma length_string_app (a b : string) :
  String.length (a +:+ b) = (String.length a + String.length b)%nat.
Proof.
  induction a as [| x a IH].
  - now rewrite string_app_nil_l.
  - rewrite string_app_cons. simpl. now rewrite IH.
Qed.

Lemma substring_whole (b : string) :
  String.substring 0 (String.length b) b = b.
Proof. induction b as [| x b IH]; simpl; [reflexivity | now rewrite IH]. Qed.

Lemma substring_skip (a b : string) (n : nat) :
  String.substring (String.length a) n (a +:+ b) = String.substring 0 n b.
Proof.
  induction a as [| x a IH].
  - now rewrite string_app_nil_l.
  - rewrite string_app_cons. simpl. apply IH.
Qed.

Lemma endsWith_app (a b : string) : JSString.endsWith (a +:+ b) b = true.
Proof.
  unfold JSString.endsWith. rewrite length_string_app.
  apply andb_true_intro. split.
  - apply Nat.leb_le. lia.
  - replace (String.length a + String.length b - String.length b)%nat
      with (String.length a) by lia.
    rewrite substring_skip, substring_whole. apply String.eqb_refl.
Qed.

Lemma truthy_app_r (a b : string) :
  JSString.truthy b = true -> JSString.truthy (a +:+ b) = true.
Proof.
  destruct a as [| x a]; [now rewrite string_app_nil_l |].
  now rewrite string_app_cons.
Qed.

Lemma split_head_without (c : ascii) (s : string) :
  exists h t, JSString.split c s = h :: t /\ JSString.includes c h = false.
Proof.
  induction s as [| a s (h & t & E & H)]; simpl.
  - exists EmptyString, []. split; reflexivity.
  - destruct (Ascii.eqb a c) eqn:Ea.
    + exists EmptyString, (JSString.split c s). split; reflexivity.
    + rewrite E. exists (String a h), t. split; [reflexivity |].
      simpl. now rewrite Ea, H.
Qed.

Lemma gmail_is_admin (name : string) :
  Login.isAdminEmail (name +:+ "@gmail.com") = true.
Proof.
  unfold Login.isAdminEmail.
  rewrite truthy_app_r by reflexivity.
  rewrite toLowerCase_app.
  change (JSString.toLowerCase "@gmail.com") with "@gmail.com"%string.
  now rewrite endsWith_app.
Qed.

(** X20. The login page as [App] renders it (only [onLogin] is passed):
    with an empty e-mail or password nothing changes; otherwise the page
    becomes [homeUser] exactly when the address is not an admin address,
    and for an admin address the page stays and the fallback alert is
    shown. Whether an address is an admin address does not depend on
    letter case, and every address ending in [@gmail.com] is one, so
    logging in with such an address never leaves the login page. *)
Theorem login_leaves_page_only_for_plain_address
    (email password name : string) (st : App.State) :
  App.afterLogin email password st
  = (if JSString.truthy email && JSString.truthy password
        && negb (Login.isAdminEmail email)
     then App.go App.homeUser st else st)
  /\ snd (Login.handleLogin App.loginProps email password)
     = (if JSString.truthy email && JSString.truthy password then
          [Login.SetLoading false;
           if Login.isAdminEmail email
           then Login.AlertBox "Logged in (dummy)" ("Email: " +:+ email)
           else Login.CallOnLogin]
        else [])
  /\ Login.isAdminEmail (JSString.toLowerCase email) = Login.isAdminEmail email
  /\ App.afterLogin (name +:+ "@gmail.com") password st = st.
Proof.
  assert (Hgen : forall e,
    App.afterLogin e password st
    = (if JSString.truthy e && JSString.truthy password
          && negb (Login.isAdminEmail e)
       then App.go App.homeUser st else st)).
  { intros e. unfold App.afterLogin, Login.handleLogin.
    destruct (JSString.truthy e), (JSString.truthy password); cbn; try reflexivity.
    unfold Login.finishLogin. destruct (Login.isAdminEmail e); reflexivity. }
  split; [apply Hgen |]. split; [| split].
  - unfold Login.handleLogin.
    destruct (JSString.truthy email), (JSString.truthy password); cbn;
      try reflexivity.
    unfold Login.finishLogin. destruct (Login.isAdminEmail email); reflexivity.
  - unfold Login.isAdminEmail.
    now rewrite truthy_toLowerCase, toLowerCase_idem.
  - rewrite Hgen, gmail_is_admin.
    now destruct (JSString.truthy _ && JSString.truthy password).
Qed.

Lemma localPart_without (e : option string) :
  match Signup.localPart e with
  | Some n => JSString.includes "@" n = false
  | None => True
  end.
Proof.
  destruct e as [e |]; [| exact I]. unfold Signup.localPart.
  destruct (split_head_without "@" e) as (h & t & -> & H). exact H.
Qed.

(** X21. [handleRegister] never rejects and shows exactly one alert on
    every path. It asks the auth service to sign up, once and with the
    typed e-mail and password, exactly when the three fields are
    non-empty, the two passwords are equal and the lowercased address ends
    in [@vitstudent.ac.in] or [@gmail.com]; exactly then loading is raised
    and lowered again, whatever the service and the store do. A profile is
    upserted only for a returned user with a non-empty id, and its
    [full_name] never holds an [@]. Rendered without a [navigation] prop,
    the handler asks for no other screen. *)
Theorem handleRegister_signs_up_valid_input_once
    (email password confirmPassword : string) (navigation : bool)
    (signUp : Supabase.Settled Signup.SignUpAnswer)
    (upsert : Supabase.Settled (option string))
    (describe : string -> string) (tr : list Signup.Effect) :
  let r := Signup.handleRegister email password confirmPassword navigation
             signUp upsert describe tr in
  let lower := JSString.toLowerCase email in
  let valid :=
    JSString.truthy email && JSString.truthy password
    && JSString.truthy confirmPassword && String.eqb password confirmPassword
    && (JSString.endsWith lower "@vitstudent.ac.in"
        || JSString.endsWith lower "@gmail.com") in
  Async.rejects r = false
  /\ exists new : list Signup.Effect,
       snd r = tr ++ new
       /\ length (Signup.alerts new) = 1%nat
       /\ Signup.signUps new = (if valid then [(email, password)] else [])
       /\ Signup.loadingCalls new = (if valid then [true; false] else [])
       /\ Signup.upserts new
          = (if valid then
               match signUp with
               | Supabase.Fulfilled (Signup.mkSignUpAnswer (Some u) None) =>
                   if JSString.truthy (Signup.user_id u) then
                     [(Signup.user_id u, Signup.user_email u,
                       Signup.localPart (Signup.user_email u))]
                   else []
               | _ => []
               end
             else [])
       /\ Forall (fun '(_, _, n) =>
                    match n with
                    | Some n => JSString.includes "@" n = false
                    | None => True
                    end) (Signup.upserts new)
       /\ (if navigation then True else Signup.navigations new = []).
Proof.
  intros r lower valid. unfold r, valid, lower, Signup.handleRegister.
  destruct (JSString.truthy email); cbn [negb orb andb].
  2:{ cbn. split; [reflexivity |]. eexists. split; [reflexivity |].
      cbn. repeat split; try constructor. now destruct navigation. }
  destruct (JSString.truthy password); cbn [negb orb andb].
  2:{ cbn. split; [reflexivity |]. eexists. split; [reflexivity |].
      cbn. repeat split; try constructor. now destruct navigation. }
  destruct (JSString.truthy confirmPassword); cbn [negb orb andb].
  2:{ cbn. split; [reflexivity |]. eexists. split; [reflexivity |].
      cbn. repeat split; try constructor. now destruct navigation. }
  destruct (String.eqb password confirmPassword); cbn [negb orb andb].
  2:{ cbn. split; [reflexivity |]. eexists. split; [reflexivity |].
      cbn. repeat split; try constructor. now destruct navigation. }
  destruct (JSString.endsWith (JSString.toLowerCase email) "@vitstudent.ac.in"),
           (JSString.endsWith (JSString.toLowerCase email) "@gmail.com");
    cbn [negb orb andb].
  4:{ cbn. split; [reflexivity |]. eexists. split; [reflexivity |].
      cbn. repeat split; try constructor. now destruct navigation. }
  all: unfold Async.tryCatchFinally, Async.tryFinally, Async.tryCatch, Async.bind;
    destruct signUp as [[[u |] [err |]] | e];
    try destruct (JSString.truthy (Signup.user_id u)) eqn:Hid;
    destruct upsert as [[pe |] | e'];
    destruct navigation;
    cbn -[Signup.localPart]; rewrite ?Hid;
    cbn -[Signup.localPart]; rewrite <- ?app_assoc;
    (split; [reflexivity |]); eexists; (split; [reflexivity |]);
    cbn -[Signup.localPart]; rewrite ?Hid;
    repeat split; try constructor; try constructor;
    try apply (localPart_without (Signup.user_email u)).
Qed.

(** X22. [getProfileAndRole] asks for a profile only when the auth service
    returns a non-empty user id, and then once, for that id. The role it
    returns is an admin role only together with a profile whose [is_admin]
    column is the boolean [true]; without a user id, or when the store
    answers with an error, the role is not admin and carries no profile.
    The function has no handler of its own: it rejects exactly when the
    auth service or the profile request rejects. *)
Theorem getProfileAndRole_admin_only_by_flag
    (getUser : Supabase.Settled (option string))
    (profiles : string -> Supabase.Settled AuthHelpers.ProfileAnswer)
    (asked : list string) :
  let r := AuthHelpers.getProfileAndRole getUser profiles asked in
  let user :=
    match getUser with
    | Supabase.Fulfilled (Some u) => if JSString.truthy u then Some u else None
    | _ => None
    end in
  snd r = asked ++ match user with Some u => [u] | None => [] end
  /\ match fst r with
     | Async.Return role =>
         AuthHelpers.uid role = user
         /\ AuthHelpers.role_is_admin role
            = match AuthHelpers.profile role with
              | Some pr => AuthHelpers.isTrue (AuthHelpers.is_admin pr)
              | None => false
              end
         /\ match user with
            | None => AuthHelpers.profile role = None
            | Some u =>
                exists res,
                  profiles u = Supabase.Fulfilled res
                  /\ AuthHelpers.profile role
                     = match AuthHelpers.profileError res with
                       | Some _ => None
                       | None => AuthHelpers.profileData res
                       end
            end
     | Async.Throw e =>
         getUser = Supabase.Rejected e
         \/ exists u, user = Some u /\ profiles u = Supabase.Rejected e
     end.
Proof.
  intros r user. unfold r, user, AuthHelpers.getProfileAndRole, Async.bind.
  destruct getUser as [[u |] | e]; cbn.
  - destruct (JSString.truthy u) eqn:Hu; cbn.
    + destruct (profiles u) as [[d [err |]] | e] eqn:Hp; cbn.
      * split; [reflexivity |]. repeat split. eexists. split; reflexivity.
      * split; [reflexivity |]. split; [reflexivity |].
        split; [now destruct d |]. eexists. split; reflexivity.
      * split; [reflexivity |]. right. exists u. split; [reflexivity | exact Hp].
    + rewrite app_nil_r. repeat split.
  - rewrite app_nil_r. repeat split.
  - rewrite app_nil_r. split; [reflexivity |]. now left.
Qed.
